(** * Baserow reconciliation tool: a shallow embedding and its properties

    The development follows [src/BaaserowAutomationFile.py] and [app.py].

    Conventions of the embedding.
    - A Python [str] is a [string]; one [ascii] stands for one code point
      below U+0100.  The column names of the three Baserow tables are opaque
      keys; the Hebrew ones are transliterated to ASCII, each next to the
      original name.
    - A raised exception is the [Raise] branch of [result]; the exception
      classes are the constructors of [exn].
    - A Python [dict] is a [gmap]; a list is a [list]. *)

From Stdlib Require Import ZArith Ascii String List Lia Bool.
From stdpp Require Import base option list gmap strings sorting.

Open Scope string_scope.
Open Scope Z_scope.

(** ** Exceptions and results *)

Inductive exn : Type :=
| AssertionError
| ValueError
| KeyError
| TypeError
| AttributeError
| IndexError
| RemoteError.    (* whatever [row.update()] raises when the service refuses *)

Inductive result (A : Type) : Type :=
| Ok (a : A)
| Raise (e : exn).
Arguments Ok {A} a.
Arguments Raise {A} e.

#[global] Instance result_ret : MRet result := fun A a => Ok a.
#[global] Instance result_bind : MBind result := fun A B f m =>
  match m with
  | Ok a => f a
  | Raise e => Raise e
  end.

#[global] Instance exn_eq_dec : EqDecision exn.
Proof. solve_decision. Defined.

(** [for x in xs: acc = body(acc, x)], stopping at the first exception. *)
Fixpoint for_each {A S : Type} (body : S → A → result S) (xs : list A) (acc : S)
  : result S :=
  match xs with
  | [] => Ok acc
  | x :: xs' =>
      match body acc x with
      | Ok acc' => for_each body xs' acc'
      | Raise e => Raise e
      end
  end.

(** ** The string primitives the code calls *)

Module Py.

Definition code (c : ascii) : Z := Z.of_N (N_of_ascii c).

(** ['0' .. '9']: the characters [int] converts. *)
Definition isdecimal_char (c : ascii) : bool :=
  (48 <=? code c) && (code c <=? 57).

(** [str.isnumeric] on one character.  Below U+0100 the numeric characters
    are the ten digits, the superscripts U+00B2, U+00B3, U+00B9 and the
    vulgar fractions U+00BC .. U+00BE. *)
Definition isnumeric_char (c : ascii) : bool :=
  isdecimal_char c
  || (code c =? 178) || (code c =? 179) || (code c =? 185)
  || ((188 <=? code c) && (code c <=? 190)).

Definition chars (s : string) : list ascii := list_ascii_of_string s.

(** [s.isnumeric()]: every character numeric and at least one character. *)
Definition isnumeric (s : string) : bool :=
  negb (Nat.eqb (String.length s) 0) && forallb isnumeric_char (chars s).

(** U+00B2, SUPERSCRIPT TWO: numeric, and no decimal digit. *)
Definition superscript_two : ascii := ascii_of_nat 178.

(** [int(c)] for a one-character string. *)
Definition int_char (c : ascii) : result Z :=
  if isdecimal_char c then Ok (code c - 48) else Raise ValueError.

Fixpoint zeros (n : nat) : string :=
  match n with
  | O => EmptyString
  | S n' => String "0"%char (zeros n')
  end.

(** [s.zfill(width)]: pads on the left with ['0'], after a leading sign. *)
Definition zfill (width : nat) (s : string) : string :=
  if (width <=? String.length s)%nat then s
  else
    let pad := zeros (width - String.length s) in
    match s with
    | String c rest =>
        if (Ascii.eqb c "+" || Ascii.eqb c "-")%char
        then String c (pad ++ rest)
        else pad ++ s
    | EmptyString => pad
    end.

(** [s[i]]. *)
Definition index (s : string) (i : nat) : result ascii :=
  match String.get i s with
  | Some c => Ok c
  | None => Raise IndexError
  end.

(** The characters [str.strip()] removes: below U+0100 these are U+0009 to
    U+000D, U+001C to U+0020, U+0085 and U+00A0. *)
Definition isspace_char (c : ascii) : bool :=
  ((9 <=? code c) && (code c <=? 13))
  || ((28 <=? code c) && (code c <=? 32))
  || (code c =? 133) || (code c =? 160).

Fixpoint lstrip (s : string) : string :=
  match s with
  | EmptyString => EmptyString
  | String c rest => if isspace_char c then lstrip rest else s
  end.

Fixpoint rstrip (s : string) : string :=
  match s with
  | EmptyString => EmptyString
  | String c rest =>
      let rest' := rstrip rest in
      if isspace_char c && String.eqb rest' EmptyString
      then EmptyString
      else String c rest'
  end.

(** [s.strip()] *)
Definition strip (s : string) : string := rstrip (lstrip s).

Definition string_of_rev (cs : list ascii) : string :=
  string_of_list_ascii (rev cs).

(** The scan of [s.split(sep)] for a separator that is not empty: [piece]
    holds, last character first, what was read since the last separator,
    and [skip] counts the characters of a separator still to pass. *)
Fixpoint split_scan (sep s : string) (skip : nat) (piece : list ascii)
  : list string :=
  match s with
  | EmptyString => [string_of_rev piece]
  | String c rest =>
      match skip with
      | S k => split_scan sep rest k piece
      | O =>
          if String.prefix sep s
          then string_of_rev piece
               :: split_scan sep rest (String.length sep - 1) []
          else split_scan sep rest 0 (c :: piece)
      end
  end.

(** [s.split(sep)] *)
Definition split (sep s : string) : list string := split_scan sep s 0 [].

(** [sub in s] *)
Fixpoint contains (sub s : string) : bool :=
  String.prefix sub s
  || match s with
     | EmptyString => false
     | String _ rest => contains sub rest
     end.

(** [sep.join(pieces)] *)
Fixpoint join (sep : string) (pieces : list string) : string :=
  match pieces with
  | [] => EmptyString
  | [p] => p
  | p :: rest => p ++ sep ++ join sep rest
  end.

End Py.

(** ** The control digit of an ID number *)

(** One turn of [for i in range(9)]. *)
Definition control_digit_step (id_num : string) (total : Z) (i : nat) : result Z :=
  c ← Py.index id_num i;
  val ← Py.int_char c;
  if (i mod 2 =? 0)%nat then Ok (total + val)
  else if val <? 5 then Ok (total + 2 * val)
       else Ok (total + ((2 * val) mod 10 + 1)).

Definition _compute_id_control_digit (id_num : string) : result Z :=
  let id_num := Py.zfill 9 id_num in
  if negb ((String.length id_num =? 9)%nat && Py.isnumeric id_num)
  then Raise AssertionError
  else
    total ← for_each (control_digit_step id_num) (seq 0 9) 0;
    let total := total mod 10 in
    let check_digit := (10 - total) mod 10 in
    Ok check_digit.

(** The arithmetic in the words of the specification. *)
Module Documented.

Definition digit_of (c : ascii) : Z := Py.code c - 48.

(** The contribution of the digit [d] at the 0-indexed position [i]. *)
Definition term (i : nat) (d : Z) : Z :=
  if Nat.even i then d
  else if 2 * d <? 10 then 2 * d else 2 * d - 9.

Fixpoint weighted_sum (i : nat) (cs : list ascii) : Z :=
  match cs with
  | [] => 0
  | c :: cs' => term i (digit_of c) + weighted_sum (S i) cs'
  end.

Definition total (padded : string) : Z :=
  weighted_sum 0 (Py.chars padded) mod 10.

Definition check_digit (padded : string) : Z := (10 - total padded) mod 10.

End Documented.


(** ** Cells, rows and the remote tables *)

(** What a cell of a row holds: nothing, a text, a number, or the list of
    row ids of a link column. *)
Inductive value : Type :=
| VNone
| VStr (s : string)
| VInt (n : Z)
| VLinks (ids : list Z).

#[global] Instance value_eq_dec : EqDecision value.
Proof. solve_decision. Defined.

#[global] Instance value_countable : Countable value.
Proof.
  refine (inj_countable'
    (λ v, match v with
          | VNone => inl ()
          | VStr s => inr (inl s)
          | VInt n => inr (inr (inl n))
          | VLinks l => inr (inr (inr l))
          end)
    (λ x, match x with
          | inl _ => VNone
          | inr (inl s) => VStr s
          | inr (inr (inl n)) => VInt n
          | inr (inr (inr l)) => VLinks l
          end) _).
  by intros [].
Defined.

(** [if v:] *)
Definition truthy (v : value) : bool :=
  match v with
  | VNone => false
  | VStr s => negb (String.eqb s "")
  | VInt n => negb (n =? 0)
  | VLinks ids => negb (Nat.eqb (length ids) 0)
  end.

(** A list cannot be a dictionary key. *)
Definition hashable (v : value) : bool :=
  match v with
  | VLinks _ => false
  | _ => true
  end.

(** The column names.  The source writes most of them in Hebrew; each is an
    opaque key here, transliterated. *)
Module Col.
Definition phone : string := "_NormalizedPhoneNumber".
Definition id_number : string := "t.z".               (* line 61 *)
Definition id_valid : string := "t.z tkina".          (* line 55 *)
Definition full_name : string := "shem male".         (* line 60 *)
Definition rishumon_name : string := "shem rishumon". (* line 191 *)
Definition elector_name : string := "shem elector".   (* line 192 *)
Definition raw_phone : string := "telefon".           (* line 247 *)
Definition candidate : string := "muamad.t letsevet". (* line 254 *)
Definition field_activists : string := "peiley shetach". (* line 256 *)
Definition yes : string := "ken".                     (* lines 73, 254 *)
Definition no : string := "lo".                       (* lines 70, 259 *)
Definition facebook : string := "facebook".           (* line 176 *)
Definition email_registration : string := "doar electroni". (* line 184 *)
Definition email : string := "email".
Definition submission_time : string := "Submission Time".
Definition event_registration : string := "rishum leirua".  (* app.py line 46 *)
End Col.

Inductive table_id : Type := Activists | Registrations | Recruitment.

#[global] Instance table_id_eq_dec : EqDecision table_id.
Proof. solve_decision. Defined.

(** A row object of the table client: where it came from and its cells. *)
Record Row : Type := mkRow {
  row_table : table_id;
  row_id : nat;
  row_fields : gmap string value;
}.

(** [row[k]] *)
Definition getitem (row : Row) (k : string) : result value :=
  match row_fields row !! k with
  | Some v => Ok v
  | None => Raise KeyError
  end.

(** [row[k] = v] *)
Definition setitem (row : Row) (k : string) (v : value) : Row :=
  mkRow (row_table row) (row_id row) (<[k := v]> (row_fields row)).

Inductive filter_op : Type := empty | not_empty.

Record Filter : Type := mkFilter {
  filter_field : string;
  filter_value : string;
  filter_operator : filter_op;
}.

Inductive engine_id : Type := Rishumon | Elector.

(** What the program does to the outside world, most recent first. *)
Inductive event : Type :=
| Fetched (t : table_id) (filters : list Filter)
| Queried (e : engine_id) (ID : value)
| Updated (row : Row)
| Refused (row : Row)
| Printed (e : exn)
| PrintedLine (text : string).

(** The remote service: three tables, a row's id being its position, and
    the rows whose update it refuses. *)
Record world : Type := mkWorld {
  activists : list (gmap string value);
  registrations : list (gmap string value);
  recruitment : list (gmap string value);
  refuses : table_id → nat → bool;
  events : list event;
}.

Definition table (w : world) (t : table_id) : list (gmap string value) :=
  match t with
  | Activists => activists w
  | Registrations => registrations w
  | Recruitment => recruitment w
  end.

Definition record (ev : event) (w : world) : world :=
  mkWorld (activists w) (registrations w) (recruitment w) (refuses w)
          (ev :: events w).

(** The service stores the cells of [row] under its id. *)
Definition store (row : Row) (w : world) : world :=
  let put rows := <[row_id row := row_fields row]> rows in
  match row_table row with
  | Activists =>
      mkWorld (put (activists w)) (registrations w) (recruitment w)
              (refuses w) (events w)
  | Registrations =>
      mkWorld (activists w) (put (registrations w)) (recruitment w)
              (refuses w) (events w)
  | Recruitment =>
      mkWorld (activists w) (registrations w) (put (recruitment w))
              (refuses w) (events w)
  end.

(** ** Programs that talk to the service *)

Definition M (A : Type) : Type := world → result A * world.

#[global] Instance M_ret : MRet M := λ A a w, (Ok a, w).
#[global] Instance M_bind : MBind M := λ A B f m w,
  match m w with
  | (Ok a, w') => f a w'
  | (Raise e, w') => (Raise e, w')
  end.

Definition lift {A : Type} (r : result A) : M A := λ w, (r, w).

(** [try: m  except <catches>: handler] *)
Definition try_except {A : Type} (m : M A) (catches : exn → bool)
    (handler : exn → M A) : M A := λ w,
  match m w with
  | (Ok a, w') => (Ok a, w')
  | (Raise e, w') => if catches e then handler e w' else (Raise e, w')
  end.

(** [for x in xs: body(x)] *)
Fixpoint for_rows {A : Type} (body : A → M unit) (xs : list A) : M unit :=
  match xs with
  | [] => mret tt
  | x :: xs' => _ ← body x; for_rows body xs'
  end.

(** Modelled from the spec: the table client is not part of the sources.
    A filter keeps the rows whose cell is empty, or is not; a row without
    the column is kept by neither. *)
Definition cell_empty (v : value) : bool :=
  match v with
  | VNone => true
  | VStr s => String.eqb s ""
  | VInt _ => false
  | VLinks ids => Nat.eqb (length ids) 0
  end.

Definition filter_matches (cells : gmap string value) (f : Filter) : bool :=
  match cells !! filter_field f with
  | None => false
  | Some v =>
      match filter_operator f with
      | empty => cell_empty v
      | not_empty => negb (cell_empty v)
      end
  end.

Definition rows_of (t : table_id) (cells : list (gmap string value)) : list Row :=
  imap (mkRow t) cells.

Definition select (filters : list Filter) (rows : list Row) : list Row :=
  List.filter (λ row, forallb (filter_matches (row_fields row)) filters) rows.

(** Modelled from the spec: [table.get_rows(filters=...)], all the rows of
    the table that pass every filter, in the order of their ids. *)
Definition get_rows (t : table_id) (filters : list Filter) : M (list Row) :=
  λ w, (Ok (select filters (rows_of t (table w t))), record (Fetched t filters) w).

(** Modelled from the spec: [row.update()], which persists the cells of the
    row or raises. *)
Definition update (row : Row) : M unit := λ w,
  if refuses w (row_table row) (row_id row)
  then (Raise RemoteError, record (Refused row) w)
  else (Ok tt, record (Updated row) (store row w)).

Definition print (e : exn) : M unit := λ w, (Ok tt, record (Printed e) w).

Definition print_line (text : string) : M unit :=
  λ w, (Ok tt, record (PrintedLine text) w).

(** Lines 38-42. *)
Definition update_row_safe (row : Row) : M unit :=
  try_except (update row) (λ _, true) (λ e, print e).

(** [_compute_id_control_digit] on a cell: [zfill] exists on [str] only. *)
Definition control_digit_of_cell (id_num : value) : result Z :=
  match id_num with
  | VStr s => _compute_id_control_digit s
  | _ => Raise AttributeError
  end.

(** Lines 53-75. *)
Definition validate_ids_row (row : Row) : M unit :=
  _ ← lift (getitem row Col.full_name);            (* line 60 reads the cell *)
  id_num ← lift (getitem row Col.id_number);
  match control_digit_of_cell id_num with
  | Raise AssertionError => mret tt                (* lines 64-66: continue *)
  | Raise e => lift (Raise e)
  | Ok id_validation =>
      let row :=
        if negb (id_validation =? 0)
        then setitem row Col.id_valid (VStr Col.no)
        else setitem row Col.id_valid (VStr Col.yes) in
      update_row_safe row
  end.

Definition validate_ids : M unit :=
  let id_not_checked_filter := mkFilter Col.id_valid "" empty in
  let id_exists_filter := mkFilter Col.id_number "" not_empty in
  rows ← get_rows Activists [id_not_checked_filter; id_exists_filter];
  for_rows validate_ids_row rows.

(** ** Names by ID (lines 187-223) *)

(** A person-lookup engine: [engine.query(ID=...)] gives the records it
    finds, each a mapping from a key to a text. *)
Definition engine : Type := value → list (gmap string string).

Definition query (which : engine_id) (e : engine) (ID : value)
  : M (list (gmap string string)) :=
  λ w, (Ok (e ID), record (Queried which ID) w).

Definition record_get (person : gmap string string) (k : string) : result string :=
  match person !! k with
  | Some s => Ok s
  | None => Raise KeyError
  end.

(** One turn of the loop of lines 212-223. *)
Definition fill_name_from (which : engine_id) (eng : option engine)
    (field_name first_name_field last_name_field : string) (ID : value)
    (row : Row) : M Row :=
  match eng with
  | None => mret row
  | Some e =>
      query_results ← query which e ID;
      row ← match query_results with
            | person :: _ =>
                first ← lift (record_get person first_name_field);
                last ← lift (record_get person last_name_field);
                mret (setitem row field_name (VStr (first ++ " " ++ last)))
            | [] => mret (setitem row field_name (VStr "NOT FOUND"))
            end;
      _ ← update_row_safe row;
      mret row
  end.

Definition fill_name_row (rishumon_query_engine elector_query_engine : option engine)
    (row : Row) : M unit :=
  ID ← lift (getitem row Col.id_number);
  match control_digit_of_cell ID with
  | Raise AssertionError => mret tt                (* lines 209-210 *)
  | Raise e => lift (Raise e)
  | Ok d =>
      if negb (d =? 0) then mret tt                (* lines 207-208 *)
      else
        row ← fill_name_from Rishumon rishumon_query_engine
                Col.rishumon_name "Name" "Family" ID row;
        row ← fill_name_from Elector elector_query_engine
                Col.elector_name "first_name" "last_name" ID row;
        mret tt
  end.

Definition fill_name_by_id (rishumon_query_engine elector_query_engine : option engine)
  : M unit :=
  let has_id_filter := mkFilter Col.id_number "" not_empty in
  let filters := [has_id_filter] in
  let non_empty_rishumon_name_filter := mkFilter Col.rishumon_name "" empty in
  let non_empty_elector_name_filter := mkFilter Col.elector_name "" empty in
  match rishumon_query_engine, elector_query_engine with
  | None, None => mret tt                          (* lines 197-198 *)
  | _, _ =>
      let filters :=
        match rishumon_query_engine, elector_query_engine with
        | Some _, None => (filters ++ [non_empty_rishumon_name_filter])%list
        | None, Some _ => (filters ++ [non_empty_elector_name_filter])%list
        | _, _ => filters
        end in
      rows ← get_rows Activists filters;
      for_rows (fill_name_row rishumon_query_engine elector_query_engine) rows
  end.

(** ** Activists and recruitments (lines 242-261) *)

(** [v.strip()]: only a [str] has the method. *)
Definition strip_cell (v : value) : result string :=
  match v with
  | VStr s => Ok (Py.strip s)
  | _ => Raise AttributeError
  end.

(** Line 247, the dictionary from the trimmed phone to the position of the
    row; a later row replaces an earlier one with the same phone. *)
Definition recruitment_phones_of (recruitment_rows : list Row)
  : result (gmap string nat) :=
  for_each
    (λ (d : gmap string nat) (ir : nat * Row),
       v ← getitem ir.2 Col.raw_phone;
       k ← strip_cell v;
       Ok (<[k := ir.1]> d))
    (imap pair recruitment_rows) ∅.

(** [d[key]] when [key in d], for a dictionary whose keys are texts. *)
Definition find_phone {V : Type} (d : gmap string V) (key : value)
  : result (option V) :=
  match key with
  | VStr s => Ok (d !! s)
  | VLinks _ => Raise TypeError
  | _ => Ok None
  end.

(** Lines 251-261 for one activist; the row objects of the recruitment
    table are shared by all turns of the loop. *)
Definition link_row (recruitment_phones : gmap string nat)
    (recruitment_rows : list Row) (r : Row) : M (list Row) :=
  phone ← lift (getitem r Col.phone);
  found ← lift (find_phone recruitment_phones phone);
  match found with
  | Some i =>
      let r := setitem r Col.candidate (VStr Col.yes) in
      match recruitment_rows !! i with
      | None => lift (Raise IndexError)
      | Some recruitment_row =>
          let recruitment_row :=
            setitem recruitment_row Col.field_activists
                    (VLinks [Z.of_nat (row_id r)]) in
          _ ← update recruitment_row;                     (* line 257 *)
          _ ← update_row_safe r;                          (* line 261 *)
          mret (<[i := recruitment_row]> recruitment_rows)
      end
  | None =>
      let r := setitem r Col.candidate (VStr Col.no) in
      _ ← update_row_safe r;                              (* line 261 *)
      mret recruitment_rows
  end.

(** [for x in xs: acc = body(acc, x)] for a body that talks to the service. *)
Fixpoint fold_rows {A S : Type} (body : S → A → M S) (xs : list A) (acc : S)
  : M S :=
  match xs with
  | [] => mret acc
  | x :: xs' => acc' ← body acc x; fold_rows body xs' acc'
  end.

Definition link_activists_and_recruitments : M unit :=
  recruitment_rows ← get_rows Recruitment [];
  recruitment_phones ← lift (recruitment_phones_of recruitment_rows);
  let phone_filter := mkFilter Col.phone "" not_empty in
  activists_rows ← get_rows Activists [phone_filter];
  _ ← fold_rows (link_row recruitment_phones) activists_rows recruitment_rows;
  mret tt.

(** ** Duplicates (lines 288-310) *)

(** Lines 296-301 for one row. *)
Definition find_duplicates_step (name_field : string)
    (phones_to_names : gmap value (list value)) (row : Row)
  : result (gmap value (list value)) :=
  phone ← getitem row Col.phone;
  name ← getitem row name_field;
  if negb (hashable phone) then Raise TypeError
  else
    let phones_to_names :=
      match phones_to_names !! phone with
      | None => <[phone := []]> phones_to_names
      | Some _ => phones_to_names
      end in
    Ok (<[phone := (phones_to_names !!! phone ++ [name])%list]> phones_to_names).

Definition find_duplicates (rows : list Row) (name_field : string)
  : result (gmap value (list value)) :=
  phones_to_names ← for_each (find_duplicates_step name_field) rows ∅;
  let keys_to_delete :=
    List.filter
      (λ phone, (length (phones_to_names !!! phone) <? 2)%nat)
      (map fst (map_to_list phones_to_names)) in
  Ok (foldl (λ d phone, delete phone d) phones_to_names keys_to_delete).

(** The phone and the name of a row, when it has both cells. *)
Definition phone_and_name (name_field : string) (row : Row)
  : option (value * value) :=
  phone ← row_fields row !! Col.phone;
  name ← row_fields row !! name_field;
  Some (phone, name).

(** The names of the rows with the phone [p], in the order of the rows. *)
Definition names_of (name_field : string) (rows : list Row) (p : value)
  : list value :=
  omap (λ row, match phone_and_name name_field row with
               | Some (p', n) => if decide (p' = p) then Some n else None
               | None => None
               end) rows.

(** What the dictionary holds for [p] once the names [ns] were seen. *)
Definition grouped (ns : list value) : option (list value) :=
  match ns with
  | [] => None
  | _ => Some ns
  end.


(** ** Filling a field by the phone number (lines 77-167) *)

(** [row.fields], the names of the columns of the row. *)
Definition fields (row : Row) : list string :=
  map fst (map_to_list (row_fields row)).

(** Lines 83-103 for one row of the source table. *)
Definition build_phone_to_field_step (field_name : string)
    (phone_to_field : gmap value (list value)) (row : Row)
  : result (gmap value (list value)) :=
  let field_full_name := List.filter (Py.contains field_name) (fields row) in
  match field_full_name with
  | [] => Raise KeyError                                   (* line 88 *)
  | [field_full_name] =>
      field_content ← getitem row field_full_name;
      phone_num ← getitem row Col.phone;
      if truthy field_content
      then
        if negb (hashable phone_num) then Raise TypeError
        else
          match phone_to_field !! phone_num with
          | Some contents =>
              Ok (<[phone_num := (contents ++ [field_content])%list]>
                    phone_to_field)
          | None => Ok (<[phone_num := [field_content]]> phone_to_field)
          end
      else Ok phone_to_field
  | _ => Raise KeyError                                    (* line 91 *)
  end.

Definition _build_phone_to_field_dict_from_table_rows (field_name : string)
    (table_rows : list Row) : result (gmap value (list value)) :=
  for_each (build_phone_to_field_step field_name) table_rows ∅.

(** What a caller hands to [_add_to_dict_if_not_empty]: one value, or a
    list or tuple of values. *)
Inductive pyvals : Type :=
| One (v : value)
| Many (vs : list value).

(** Lines 111-112. *)
Definition as_list (values : pyvals) : list value :=
  match values with
  | Many vs => vs
  | One (VLinks ids) => map VInt ids
  | One v => [v]
  end.

(** Lines 107-116. *)
Definition _add_to_dict_if_not_empty (key : value) (values : pyvals)
    (dic : gmap value (list value)) : result (gmap value (list value)) :=
  let values := as_list values in
  if negb (Nat.eqb (length values) 0)
  then
    if negb (hashable key) then Raise TypeError
    else
      let dic :=
        match dic !! key with
        | None => <[key := []]> dic
        | Some _ => dic
        end in
      Ok (<[key := (dic !!! key ++ values)%list]> dic)
  else Ok dic.

(** [content.split(' , ')]: only a [str] has the method. *)
Definition split_cell (content : value) : result (list string) :=
  match content with
  | VStr s => Ok (Py.split " , " s)
  | _ => Raise AttributeError
  end.

(** [[url.strip() for url in urls if url]] *)
Fixpoint strip_all (urls : list value) : result (list string) :=
  match urls with
  | [] => Ok []
  | url :: urls' =>
      if truthy url
      then
        s ← strip_cell url;
        rest ← strip_all urls';
        Ok (s :: rest)
      else strip_all urls'
  end.

(** [key in dic], with the entry when it is there. *)
Definition dict_find (dic : gmap value (list value)) (key : value)
  : result (option (list value)) :=
  if negb (hashable key) then Raise TypeError else Ok (dic !! key).

(** [' , '.join(urls)]: every item must be a [str]. *)
Fixpoint texts (urls : list value) : result (list string) :=
  match urls with
  | [] => Ok []
  | VStr s :: urls' => rest ← texts urls'; Ok (s :: rest)
  | _ :: _ => Raise TypeError
  end.

Definition join_cells (urls : list value) : result string :=
  ss ← texts urls; Ok (Py.join " , " ss).

Section Fill.

(** [list(set(xs))]: the strings of [xs], each once, in the order the hash
    table happens to give. *)
Variable set_to_list : list string → list string.

Variable registration_field activists_field : string.
Variable additional_query_function : option (value → pyvals).

(** Lines 147-160: the dictionary after the values of this row's phone were
    merged, and the phone. *)
Definition merge_for_row (phone_to_field_dict : gmap value (list value))
    (row : Row) : result (value * gmap value (list value)) :=
  phone ← getitem row Col.phone;
  d ← match additional_query_function with
      | Some f => _add_to_dict_if_not_empty phone (f phone) phone_to_field_dict
      | None => Ok phone_to_field_dict
      end;
  content ← getitem row activists_field;
  d ← (if truthy content
       then parts ← split_cell content;
            _add_to_dict_if_not_empty phone (Many (map VStr parts)) d
       else Ok d);
  present ← dict_find d phone;
  d ← match present with
      | Some urls =>
          stripped ← strip_all urls;
          Ok (<[phone := map VStr (set_to_list stripped)]> d)
      | None => Ok d
      end;
  Ok (phone, d).

(** Lines 162-164: the text to write, when there is one. *)
Definition text_to_write (d : gmap value (list value)) (phone : value)
    (row : Row) : result (option string) :=
  match d !! phone with
  | Some (url :: urls) =>
      _ ← getitem row Col.full_name;             (* the message of line 164 *)
      joined ← join_cells (url :: urls);
      Ok (Some joined)
  | _ => Ok None
  end.

(** Lines 147-167 for one row of the target table. *)
Definition fill_row (phone_to_field_dict : gmap value (list value))
    (row : Row) : M (gmap value (list value)) :=
  '(phone, d) ← lift (merge_for_row phone_to_field_dict row);
  joined ← lift (text_to_write d phone row);
  match joined with
  | Some joined =>
      _ ← update_row_safe (setitem row activists_field (VStr joined));
      mret d
  | None => mret d
  end.

Definition fill_filters (full_run : bool) : list Filter :=
  let phone_filter := mkFilter Col.phone "" not_empty in
  let empty_field_filter := mkFilter activists_field "" empty in
  if full_run then [phone_filter] else [phone_filter; empty_field_filter].

Definition _fill_field_from_registration_to_activists (full_run : bool)
  : M unit :=
  registration_rows ← get_rows Registrations [];
  phone_to_field_dict ←
    lift (_build_phone_to_field_dict_from_table_rows
            registration_field registration_rows);
  activists_rows ← get_rows Activists (fill_filters full_run);
  _ ← fold_rows fill_row activists_rows phone_to_field_dict;
  mret tt.

End Fill.

(** Lines 180-185. *)
Definition fill_emails_from_registration_to_activist
    (set_to_list : list string → list string) (full_run : bool) : M unit :=
  _fill_field_from_registration_to_activists set_to_list
    Col.email_registration Col.email None full_run.

(** ** The training report (app.py) *)

Record date : Type := mkDate { year : Z; month : Z; day : Z }.

Record datetime : Type := mkDatetime {
  on_date : date;            (* [.date()] *)
  hour : Z; minute : Z; second : Z; microsecond : Z;
}.

(** [d1 < d2] on dates. *)
Definition date_ltb (d1 d2 : date) : bool :=
  (year d1 <? year d2)
  || ((year d1 =? year d2)
      && ((month d1 <? month d2)
          || ((month d1 =? month d2) && (day d1 <? day d2)))).

Definition is_leap (y : Z) : bool :=
  (y mod 4 =? 0) && (negb (y mod 100 =? 0) || (y mod 400 =? 0)).

Definition days_in_month (y m : Z) : Z :=
  if m =? 2 then (if is_leap y then 29 else 28)
  else if (m =? 4) || (m =? 6) || (m =? 9) || (m =? 11) then 30
  else 31.

(** [d - relativedelta(months=n)] for [n] up to 12: the month moves back,
    the year follows, and the day is cut to the length of the month. *)
Definition minus_months (n : Z) (d : date) : date :=
  let m := month d - n in
  let y := if m <? 1 then year d - 1 else year d in
  let m := if m <? 1 then m + 12 else m in
  mkDate y m (Z.min (days_in_month y m) (day d)).

Section Report.

(** [datetime.strptime(date_str, fmt)], with [None] for its [ValueError]. *)
Variable strptime : string → string → option datetime.

(** [date.today()] *)
Variable today : date.

Definition date_formats : list string :=
  ["%m/%d/%Y %I:%M%p"; "%Y-%m-%dT%H:%M:%S.%fZ"; "%Y-%m-%dT%H:%M:%SZ"].

(** The loop of lines 65-71: the first format that parses wins. *)
Fixpoint first_format (date_str : string) (formats : list string)
  : option datetime :=
  match formats with
  | [] => None
  | fmt :: formats' =>
      match strptime date_str fmt with
      | Some parsed_date => Some parsed_date
      | None => first_format date_str formats'
      end
  end.

(** Lines 60-77.  [strptime] raises [TypeError] for what is not a [str]. *)
Definition parse_date (date_str : value) : M (option datetime) :=
  match date_str with
  | VStr s =>
      match first_format s date_formats with
      | Some parsed_date => mret (Some parsed_date)
      | None =>
          _ ← print_line ("could not parse date " ++ s);
          mret None
      end
  | _ => lift (Raise TypeError)
  end.

(** Lines 36-51 for one registration. *)
Definition count_registration (training_dic : gmap value Z) (register : Row)
  : M (gmap value Z) :=
  submission_time_str ← lift (getitem register Col.submission_time);
  pharsed_date ← parse_date submission_time_str;
  match pharsed_date with
  | None => mret training_dic                              (* line 41 *)
  | Some pharsed_date =>
      if date_ltb (on_date pharsed_date) (minus_months 2 today)
      then mret training_dic                               (* line 44 *)
      else
        training ← lift (getitem register Col.event_registration);
        if negb (hashable training) then lift (Raise TypeError)
        else
          match training_dic !! training with
          | None => mret (<[training := 1]> training_dic)
          | Some n => mret (<[training := n + 1]> training_dic)
          end
  end.

(** Lines 25-53. *)
Definition getTrainingParticipantCounts : M (gmap value Z) :=
  registers ← get_rows Registrations [];
  fold_rows count_registration registers ∅.

(** The training a registration is counted for, if it is counted. *)
Definition counted_for (register : Row) : option value :=
  match row_fields register !! Col.submission_time with
  | Some (VStr s) =>
      match first_format s date_formats with
      | Some parsed =>
          if date_ltb (on_date parsed) (minus_months 2 today) then None
          else row_fields register !! Col.event_registration
      | None => None
      end
  | _ => None
  end.

(** How many of the registrations are counted for [training]. *)
Definition tally (registers : list Row) (training : value) : Z :=
  Z.of_nat (length (List.filter
                      (λ r, bool_decide (counted_for r = Some training))
                      registers)).

(** A registration the report can read: a text for the time of submission
    and a training that can be a dictionary key. *)
Definition readable (register : Row) : Prop :=
  (∃ s, row_fields register !! Col.submission_time = Some (VStr s))
  ∧ (∃ t, row_fields register !! Col.event_registration = Some t
          ∧ hashable t = true).

(** A registration submitted on [d] for the training named [training]. *)
Definition dated (register : gmap string value) (d : date) (training : string)
  : Prop :=
  ∃ s parsed,
    register !! Col.submission_time = Some (VStr s)
    ∧ first_format s date_formats = Some parsed
    ∧ on_date parsed = d
    ∧ register !! Col.event_registration = Some (VStr training).

(** The dictionary after one more registration was counted. *)
Definition bump (training : option value) (training_dic : gmap value Z)
  : gmap value Z :=
  match training with
  | Some t => <[t := default 0 (training_dic !! t) + 1]> training_dic
  | None => training_dic
  end.

(** The dictionary that holds the tallies of [registers]. *)
Definition holds_tally (training_dic : gmap value Z) (registers : list Row)
  : Prop :=
  ∀ t, training_dic !! t
       = if tally registers t =? 0 then None else Some (tally registers t).

End Report.

(** ** Vocabulary of the statements about [fill_name_by_id] *)

Definition name_field (which : engine_id) : string :=
  match which with
  | Rishumon => Col.rishumon_name
  | Elector => Col.elector_name
  end.

Definition first_name_key (which : engine_id) : string :=
  match which with Rishumon => "Name" | Elector => "first_name" end.

Definition last_name_key (which : engine_id) : string :=
  match which with Rishumon => "Family" | Elector => "last_name" end.

Definition other_engine (which : engine_id) : engine_id :=
  match which with Rishumon => Elector | Elector => Rishumon end.

Definition supplied (rishumon elector : option engine) (which : engine_id)
  : option engine :=
  match which with Rishumon => rishumon | Elector => elector end.

(** The text lines 218-221 put into the name cell for an answer. *)
Definition name_written (which : engine_id)
    (query_results : list (gmap string string)) : option string :=
  match query_results with
  | [] => Some "NOT FOUND"
  | person :: _ =>
      match person !! first_name_key which, person !! last_name_key which with
      | Some first, Some last => Some (first ++ " " ++ last)
      | _, _ => None
      end
  end.

(** [cells'] is what one of the updates of lines 212-223 stores for [row]. *)
Definition names_stored (rishumon elector : option engine) (row : Row)
    (cells' : gmap string value) : Prop :=
  ∃ s, row_fields row !! Col.id_number = Some (VStr s)
       ∧ _compute_id_control_digit s = Ok 0
       ∧ ((∃ q n, rishumon = Some q
                  ∧ name_written Rishumon (q (VStr s)) = Some n
                  ∧ cells' = <[Col.rishumon_name := VStr n]> (row_fields row))
          ∨ (∃ q n, rishumon = None ∧ elector = Some q
                    ∧ name_written Elector (q (VStr s)) = Some n
                    ∧ cells' = <[Col.elector_name := VStr n]> (row_fields row))
          ∨ (∃ q1 q2 n1 n2,
                rishumon = Some q1 ∧ elector = Some q2
                ∧ name_written Rishumon (q1 (VStr s)) = Some n1
                ∧ name_written Elector (q2 (VStr s)) = Some n2
                ∧ cells' = <[Col.elector_name := VStr n2]>
                             (<[Col.rishumon_name := VStr n1]> (row_fields row)))).

(** The rows [fill_name_by_id] fetches, by the engines supplied. *)
Definition name_filters (rishumon elector : option engine) : list Filter :=
  mkFilter Col.id_number "" not_empty
  :: match rishumon, elector with
     | Some _, None => [mkFilter Col.rishumon_name "" empty]
     | None, Some _ => [mkFilter Col.elector_name "" empty]
     | _, _ => []
     end.

(** The cells of a row after lines 216-221 ran for one engine. *)
Definition with_name (which : engine_id) (eng : option engine) (ID : value)
    (c : gmap string value) : gmap string value :=
  match eng with
  | Some q =>
      match name_written which (q ID) with
      | Some n => <[name_field which := VStr n]> c
      | None => c
      end
  | None => c
  end.

(** The cells of the activist at position [i] once [fill_name_by_id] ran;
    [refuse] tells the activists whose update fails. *)
Definition named (rishumon elector : option engine) (refuse : nat → bool)
    (i : nat) (c : gmap string value) : gmap string value :=
  if forallb (filter_matches c) (name_filters rishumon elector)
  then
    match c !! Col.id_number with
    | Some ID =>
        match control_digit_of_cell ID with
        | Ok z =>
            if (z =? 0) && negb (refuse i)
            then with_name Elector elector ID
                   (with_name Rishumon rishumon ID c)
            else c
        | Raise _ => c
        end
    | None => c
    end
  else c.

(** A row on which lines 201-223 end well: the control digit of its ID is
    computed or the assertion fails, and the first answer of every engine
    asked has both name keys. *)
Definition name_ready (rishumon elector : option engine)
    (c : gmap string value) : Prop :=
  ∀ ID, c !! Col.id_number = Some ID →
        (∀ e, control_digit_of_cell ID = Raise e → e = AssertionError)
        ∧ (control_digit_of_cell ID = Ok 0 →
           ∀ which q, supplied rishumon elector which = Some q →
                      is_Some (name_written which (q ID))).


(** ** Vocabulary of the statements about the phone dictionary *)

(** The phone and the content of a source row in which the fragment names
    exactly one column. *)
Definition source_cell (field_name : string) (row : Row)
  : option (value * value) :=
  match List.filter (Py.contains field_name) (fields row) with
  | [k] =>
      content ← row_fields row !! k;
      phone ← row_fields row !! Col.phone;
      Some (phone, content)
  | _ => None
  end.

(** The contents that count, of the rows with the phone [p], in the order
    of the rows. *)
Definition contents_of (field_name : string) (rows : list Row) (p : value)
  : list value :=
  omap (λ row, match source_cell field_name row with
               | Some (p', c) =>
                   if decide (p' = p) then (if truthy c then Some c else None)
                   else None
               | None => None
               end) rows.

(** ** Vocabulary of the statements about a repeated fill *)

Section FillTwice.

Variable set_to_list : list string → list string.
Variable activists_field : string.
Variable additional_query_function : option (value → pyvals).

(** What the additional query adds for a phone (lines 151-152). *)
Definition queried (phone : value) : list value :=
  match additional_query_function with
  | Some f => as_list (f phone)
  | None => []
  end.

(** The values line 160 reads for the phone of a row whose field is empty:
    those the dictionary holds and those the query adds. *)
Definition pending (d : gmap value (list value)) (phone : value)
  : list value :=
  (default [] (d !! phone) ++ queried phone)%list.

(** The dictionary after line 160 ran for a phone whose pending values
    were stripped to [stripped]. *)
Definition merged_dict (d : gmap value (list value)) (phone : value)
    (stripped : list string) : gmap value (list value) :=
  match d !! phone, queried phone with
  | None, [] => d
  | _, _ => <[phone := map VStr (set_to_list stripped)]> d
  end.

(** Lines 147-164 for one row, without the write: the dictionary afterwards
    and the text to write, when there is one. *)
Definition fill_step (d : gmap value (list value)) (row : Row)
  : result (gmap value (list value) * option string) :=
  '(phone, d') ← merge_for_row set_to_list activists_field
                   additional_query_function d row;
  joined ← text_to_write d' phone row;
  Ok (d', joined).

(** The cells of the target table from position [i] on, after the loop of
    lines 146-167 ran over those of them that pass the filters of a run
    with [full_run=False]; [refuse] tells the rows whose update fails. *)
Fixpoint walk (refuse : nat → bool) (i : nat)
    (cells : list (gmap string value)) (d : gmap value (list value))
  : list (gmap string value) :=
  match cells with
  | [] => []
  | c :: cells' =>
      if forallb (filter_matches c) (fill_filters activists_field false)
      then
        match fill_step d (mkRow Activists i c) with
        | Raise _ => c :: cells'
        | Ok (d', None) => c :: walk refuse (S i) cells' d'
        | Ok (d', Some joined) =>
            (if refuse i then c else <[activists_field := VStr joined]> c)
            :: walk refuse (S i) cells' d'
        end
      else c :: walk refuse (S i) cells' d
  end.

End FillTwice.

(** A phone whose pending values strip well and hold a text that is not
    empty. *)
Definition live (additional_query_function : option (value → pyvals))
    (d : gmap value (list value)) (phone : value) : Prop :=
  hashable phone = true
  ∧ ∃ ss, strip_all (pending additional_query_function d phone) = Ok ss
          ∧ ∃ s, s ∈ ss ∧ s ≠ "".

(** Two dictionaries that a row with an empty field cannot tell apart, as
    far as the table is concerned. *)
Definition alike (additional_query_function : option (value → pyvals))
    (d1 d2 : gmap value (list value)) : Prop :=
  ∀ phone, d1 !! phone = d2 !! phone
           ∨ (live additional_query_function d1 phone
              ∧ live additional_query_function d2 phone).

(** ** Vocabulary of the statements about the linker *)

(** The trimmed phone of a recruitment row, when the cell is a text. *)
Definition trimmed_phone (c : gmap string value) : option string :=
  match c !! Col.raw_phone with
  | Some (VStr t) => Some (Py.strip t)
  | _ => None
  end.

(** Some recruitment row has the trimmed phone [s]. *)
Definition recruited (recs : list (gmap string value)) (s : string) : bool :=
  existsb (λ c, bool_decide (trimmed_phone c = Some s)) recs.

(** The mark lines 254 and 259 give an activist with the phone [p]. *)
Definition mark_of (recs : list (gmap string value)) (p : value) : string :=
  match p with
  | VStr s => if recruited recs s then Col.yes else Col.no
  | _ => Col.no
  end.

(** The cells of the activist at position [i] once the linker ran; [refuse]
    tells the activists whose update fails. *)
Definition marked (recs : list (gmap string value)) (refuse : nat → bool)
    (i : nat) (c : gmap string value) : gmap string value :=
  match c !! Col.phone with
  | Some p =>
      if cell_empty p || refuse i then c
      else <[Col.candidate := VStr (mark_of recs p)]> c
  | None => c
  end.

(** ** Vocabulary of the statements about the validation of IDs *)

(** The filters of lines 55-57. *)
Definition validate_filters : list Filter :=
  [mkFilter Col.id_valid "" empty; mkFilter Col.id_number "" not_empty].

(** The mark lines 68-73 give an ID whose sum leaves [z]. *)
Definition validity_mark (z : Z) : string :=
  if z =? 0 then Col.yes else Col.no.

(** The cells of the activist at position [i] once [validate_ids] ran;
    [refuse] tells the activists whose update fails. *)
Definition validated (refuse : nat → bool) (i : nat) (c : gmap string value)
  : gmap string value :=
  if forallb (filter_matches c) validate_filters
  then
    match c !! Col.id_number with
    | Some id_num =>
        match control_digit_of_cell id_num with
        | Ok z =>
            if refuse i then c
            else <[Col.id_valid := VStr (validity_mark z)]> c
        | Raise _ => c
        end
    | None => c
    end
  else c.

(** ** Vocabulary of further statements *)

(** The line [parse_date] prints for a time that no format reads. *)
Definition unread_line (s : string) : event :=
  PrintedLine ("could not parse date " ++ s).

(** The events the report adds: the fetch of the registrations, and after
    it one line for each time, of some registration, that no format
    reads. *)
Definition report_events (strptime : string → string → option datetime)
    (registers : list Row) (before after : list event) : Prop :=
  ∃ lines,
    after = (map unread_line lines
             ++ Fetched Registrations [] :: before)%list
    ∧ Forall (λ s, first_format strptime s date_formats = None
                   ∧ ∃ r, r ∈ registers
                          ∧ row_fields r !! Col.submission_time
                            = Some (VStr s)) lines.

(** The pieces line 156 reads from the cell of the row. *)
Definition existing_pieces (field : string) (row : Row) : list value :=
  match row_fields row !! field with
  | Some (VStr s) =>
      if truthy (VStr s) then map VStr (Py.split " , " s) else []
  | _ => []
  end.

(** The values lines 147-160 bring together for the phone of a row: those
    of the source table, those of the query, those of the cell. *)
Definition gathered (f : option (value → pyvals)) (field : string)
    (d : gmap value (list value)) (row : Row) (phone : value) : list value :=
  (default [] (d !! phone) ++ queried f phone ++ existing_pieces field row)%list.

(** ** Concrete tables used by the examples *)

Module Scenario.

Definition accepts_all : table_id → nat → bool := λ _ _, false.

(** One recruitment row and two activists; the first activist has the phone
    of the recruitment row, whose update the service refuses. *)
Definition refuses_recruitment0 : table_id → nat → bool :=
  λ t i, match t, i with Recruitment, O => true | _, _ => false end.

Definition refuses_activist0 : table_id → nat → bool :=
  λ t i, match t, i with Activists, O => true | _, _ => false end.

Definition link_tables (refuses : table_id → nat → bool) : world :=
  mkWorld
    [ {[ Col.phone := VStr "0501"; Col.candidate := VNone ]};
      {[ Col.phone := VStr "0502"; Col.candidate := VNone ]} ]
    []
    [ {[ Col.raw_phone := VStr " 0501 "; Col.field_activists := VLinks [] ]} ]
    refuses [].

(** One activist with a valid ID whose rishumon name is already filled. *)
Definition named_tables : world :=
  mkWorld
    [ {[ Col.id_number := VStr "18";
         Col.rishumon_name := VStr "Dana Levi";
         Col.elector_name := VStr "" ]} ]
    [] [] accepts_all [].

Definition rishumon_engine : engine :=
  λ _, [ {[ "Name" := "Dan"; "Family" := "Cohen" ]} ].

Definition elector_engine : engine := λ _, [].

(** Two rows with one phone and one name. *)
Definition same_person_twice : list Row :=
  [ mkRow Activists 0 {[ Col.phone := VStr "0501"; Col.full_name := VStr "Dana" ]};
    mkRow Activists 1 {[ Col.phone := VStr "0501"; Col.full_name := VStr "Dana" ]} ].

(** A registration whose facebook cell is one space, and an activist with
    the same phone and no facebook yet. *)
Definition blank_facebook : world :=
  mkWorld
    [ {[ Col.phone := VStr "0501"; Col.facebook := VNone;
         Col.full_name := VStr "Dana" ]} ]
    [ {[ Col.phone := VStr "0501"; Col.facebook := VStr " " ]} ]
    [] accepts_all [].

(** Two activists with one phone and no email yet, a third with an email,
    and two registrations of that phone. *)
Definition shared_phone : world :=
  mkWorld
    [ {[ Col.phone := VStr "0501"; Col.email := VNone;
         Col.full_name := VStr "Dana" ]};
      {[ Col.phone := VStr "0501"; Col.email := VStr "";
         Col.full_name := VStr "Dan" ]};
      {[ Col.phone := VStr "0502"; Col.email := VStr "r@x.il";
         Col.full_name := VStr "Ron" ]} ]
    [ {[ Col.phone := VStr "0501";
         Col.email_registration := VStr "d@x.il " ]};
      {[ Col.phone := VStr "0501";
         Col.email_registration := VStr "dana@x.il" ]} ]
    [] accepts_all [].

(** A valid ID, an ID with a wrong control digit, an ID that is no number,
    and an ID that was checked before. *)
Definition id_tables : world :=
  mkWorld
    [ {[ Col.full_name := VStr "Dana"; Col.id_number := VStr "18";
         Col.id_valid := VNone ]};
      {[ Col.full_name := VStr "Dan"; Col.id_number := VStr "19";
         Col.id_valid := VStr "" ]};
      {[ Col.full_name := VStr "Ron"; Col.id_number := VStr "12a";
         Col.id_valid := VNone ]};
      {[ Col.full_name := VStr "Gil"; Col.id_number := VStr "19";
         Col.id_valid := VStr Col.no ]} ]
    [] [] accepts_all [].

(** A registration table without a facebook column. *)
Definition no_facebook_column : world :=
  mkWorld
    [ {[ Col.phone := VStr "0501"; Col.facebook := VNone;
         Col.full_name := VStr "Dana" ]} ]
    [ {[ Col.phone := VStr "0501"; Col.email_registration := VStr "d@x.il" ]} ]
    [] accepts_all [].

(** A reader of times written as 2025-06-05T12:56:10Z, for the third
    format only. *)
Fixpoint number (cs : list ascii) (acc : Z) : option Z :=
  match cs with
  | [] => Some acc
  | c :: cs' =>
      if Py.isdecimal_char c then number cs' (10 * acc + (Py.code c - 48))
      else None
  end.

Definition digits (start len : nat) (s : string) : option Z :=
  if Nat.eqb (String.length (substring start len s)) len
  then number (Py.chars (substring start len s)) 0
  else None.

Definition strptime_iso (date_str fmt : string) : option datetime :=
  if String.eqb fmt "%Y-%m-%dT%H:%M:%SZ"
     && Nat.eqb (String.length date_str) 20
     && String.eqb (substring 4 1 date_str) "-"
     && String.eqb (substring 7 1 date_str) "-"
     && String.eqb (substring 10 1 date_str) "T"
     && String.eqb (substring 13 1 date_str) ":"
     && String.eqb (substring 16 1 date_str) ":"
     && String.eqb (substring 19 1 date_str) "Z"
  then
    y ← digits 0 4 date_str;
    m ← digits 5 2 date_str;
    d ← digits 8 2 date_str;
    h ← digits 11 2 date_str;
    mi ← digits 14 2 date_str;
    sec ← digits 17 2 date_str;
    Some (mkDatetime (mkDate y m d) h mi sec 0)
  else None.

Definition registration (time training : string) : gmap string value :=
  {[ Col.submission_time := VStr time;
     Col.event_registration := VStr training ]}.

Definition the_day : date := mkDate 2025 6 5.

Definition report_tables : world :=
  mkWorld []
    [ registration "2025-06-05T08:00:00Z" "A";
      registration "not-a-date" "A";
      registration "2025-01-05T08:00:00Z" "B" ]
    [] accepts_all [].

End Scenario.

(** * Properties *)

(** ** The control digit *)

Example control_digit_zeros : _compute_id_control_digit "000000000" = Ok 0.
Proof. reflexivity. Qed.

Example control_digit_short : _compute_id_control_digit "18" = Ok 0.
Proof. reflexivity. Qed.

Example control_digit_remainder : _compute_id_control_digit "123456789" = Ok 3.
Proof. reflexivity. Qed.

Example control_digit_letter : _compute_id_control_digit "12a" = Raise AssertionError.
Proof. reflexivity. Qed.

Example control_digit_too_long : _compute_id_control_digit "1234567890" = Raise AssertionError.
Proof. reflexivity. Qed.

Example control_digit_signed : _compute_id_control_digit "-18" = Raise AssertionError.
Proof. reflexivity. Qed.

Lemma get_chars (s : string) (i : nat) : String.get i s = Py.chars s !! i.
Proof.
  revert i. induction s as [|c s IH]; intros [|i]; simpl; try reflexivity.
  apply IH.
Qed.

Lemma length_chars (s : string) : length (Py.chars s) = String.length s.
Proof. induction s as [|c s IH]; simpl; [reflexivity | now rewrite IH]. Qed.

Lemma even_mod2 (i : nat) : (i mod 2 =? 0)%nat = Nat.even i.
Proof.
  destruct (Nat.even i) eqn:E.
  - apply Nat.even_spec in E as [k ->].
    rewrite Nat.mul_comm, Nat.Div0.mod_mul. reflexivity.
  - apply Nat.eqb_neq. intros H.
    apply Nat.Div0.mod_divides in H as [k Hk].
    rewrite Hk, Nat.even_mul in E. discriminate.
Qed.

Lemma isdecimal_digit (c : ascii) :
  Py.isdecimal_char c = true → 0 <= Documented.digit_of c <= 9.
Proof.
  unfold Py.isdecimal_char, Documented.digit_of.
  intros H. apply andb_true_iff in H as [H1 H2]. lia.
Qed.

Lemma isdecimal_isnumeric (c : ascii) :
  Py.isdecimal_char c = true → Py.isnumeric_char c = true.
Proof. unfold Py.isnumeric_char. now intros ->. Qed.

(** The branch on [val < 5] adds what the text calls the doubled digit, or
    the doubled digit minus nine. *)
Lemma doubled_digit (d : Z) :
  0 <= d <= 9 →
  (if d <? 5 then 2 * d else (2 * d) mod 10 + 1)
  = (if 2 * d <? 10 then 2 * d else 2 * d - 9).
Proof.
  intros Hd. destruct (Z.ltb_spec d 5), (Z.ltb_spec (2 * d) 10); try lia.
  replace (2 * d) with (2 * d - 10 + 1 * 10) at 1 by lia.
  rewrite Z.mod_add by lia. rewrite Z.mod_small; lia.
Qed.

Lemma control_digit_step_decimal (s : string) (t : Z) (i : nat) (c : ascii) :
  Py.chars s !! i = Some c →
  Py.isdecimal_char c = true →
  control_digit_step s t i = Ok (t + Documented.term i (Documented.digit_of c)).
Proof.
  intros Hget Hdec. unfold control_digit_step, Py.index, Py.int_char.
  rewrite even_mod2, get_chars, Hget.
  unfold mbind, result_bind. rewrite Hdec.
  unfold Documented.term. fold (Documented.digit_of c).
  pose proof (doubled_digit _ (isdecimal_digit c Hdec)) as Hd.
  destruct (Nat.even i); [reflexivity|].
  rewrite <- Hd. now destruct (Documented.digit_of c <? 5).
Qed.

Lemma control_digit_step_not_decimal (s : string) (t : Z) (i : nat) (c : ascii) :
  Py.chars s !! i = Some c →
  Py.isdecimal_char c = false →
  control_digit_step s t i = Raise ValueError.
Proof.
  intros Hget Hdec. unfold control_digit_step, Py.index, Py.int_char.
  rewrite get_chars, Hget. unfold mbind, result_bind. now rewrite Hdec.
Qed.

Lemma control_digit_loop (s : string) :
  Forall (λ c, Py.isdecimal_char c = true) (Py.chars s) →
  ∀ (n k : nat) (t : Z),
    (k + n)%nat = length (Py.chars s) →
    for_each (control_digit_step s) (seq k n) t
    = Ok (t + Documented.weighted_sum k (drop k (Py.chars s))).
Proof.
  intros Hall n. induction n as [|n IH]; intros k t Hlen; cbn [seq for_each].
  - rewrite drop_ge by lia. simpl. f_equal. lia.
  - destruct (lookup_lt_is_Some_2 (Py.chars s) k ltac:(lia)) as [c Hc].
    assert (Hdec : Py.isdecimal_char c = true).
    { exact (Forall_lookup_1 _ _ _ _ Hall Hc). }
    rewrite (control_digit_step_decimal s t k c Hc Hdec).
    rewrite IH by lia.
    rewrite (drop_S _ _ _ Hc). simpl. f_equal. lia.
Qed.

Lemma forallb_decimal_numeric (cs : list ascii) :
  Forall (λ c, Py.isdecimal_char c = true) cs →
  forallb Py.isnumeric_char cs = true.
Proof.
  induction 1 as [|c cs Hc _ IH]; simpl; [reflexivity|].
  now rewrite (isdecimal_isnumeric c Hc), IH.
Qed.

Lemma control_digit_step_exn (p : string) (t : Z) (k : nat) (e : exn) :
  control_digit_step p t k = Raise e → e = ValueError ∨ e = IndexError.
Proof.
  unfold control_digit_step, Py.index, Py.int_char, mbind, result_bind.
  destruct (String.get k p); [|intros [= <-]; now right].
  destruct (Py.isdecimal_char a); [|intros [= <-]; now left].
  destruct (k mod 2 =? 0)%nat; [discriminate|].
  destruct (_ <? 5); discriminate.
Qed.

Lemma control_digit_loop_exn (p : string) (ks : list nat) (t : Z) (e : exn) :
  for_each (control_digit_step p) ks t = Raise e →
  e = ValueError ∨ e = IndexError.
Proof.
  revert t. induction ks as [|k ks IH]; intros t; cbn [for_each]; [discriminate|].
  destruct (control_digit_step p t k) eqn:Hs; [apply IH|].
  intros [= <-]. eapply control_digit_step_exn, Hs.
Qed.

(** An ID that is not nine numeric characters after the padding fails the
    assertion. *)
Lemma control_digit_rejects (id_num : string) :
  ¬ (String.length (Py.zfill 9 id_num) = 9%nat
     ∧ Py.isnumeric (Py.zfill 9 id_num) = true) →
  _compute_id_control_digit id_num = Raise AssertionError.
Proof.
  intros Hbad. unfold _compute_id_control_digit. cbv zeta.
  destruct (String.length (Py.zfill 9 id_num) =? 9)%nat eqn:Hlen;
    [|reflexivity].
  destruct (Py.isnumeric (Py.zfill 9 id_num)) eqn:Hnum; [|reflexivity].
  exfalso. apply Hbad. split; [now apply Nat.eqb_eq | reflexivity].
Qed.

(** The assertion on line 12 is the only source of [AssertionError]. *)
Lemma control_digit_assertion (id_num : string) :
  _compute_id_control_digit id_num = Raise AssertionError
  ↔ ¬ (String.length (Py.zfill 9 id_num) = 9%nat
       ∧ Py.isnumeric (Py.zfill 9 id_num) = true).
Proof.
  unfold _compute_id_control_digit. cbv zeta.
  set (p := Py.zfill 9 id_num).
  destruct (String.length p =? 9)%nat eqn:Hlen.
  - apply Nat.eqb_eq in Hlen.
    destruct (Py.isnumeric p) eqn:Hnum; cbn [andb negb].
    + split; [|intros H; exfalso; apply H; auto].
      intros H. exfalso. unfold mbind, result_bind in H.
      destruct (for_each (control_digit_step p) (seq 0 9) 0) eqn:Hloop;
        [discriminate|].
      injection H as ->.
      apply control_digit_loop_exn in Hloop as [?|?]; discriminate.
    + split; [intros _ [_ H]; discriminate | reflexivity].
  - apply Nat.eqb_neq in Hlen. cbn [andb negb].
    split; [intros _ [H _]; contradiction | reflexivity].
Qed.

(** *** C1 *)

(** C1.  For every input that, after left-padding with zeros to length 9, is
    exactly nine digit characters, [_compute_id_control_digit] returns
    [(10 - T) mod 10], where [T] is the sum over the nine 0-indexed positions
    of the digit itself at even indices and, at odd indices, of the doubled
    digit when that is below 10 and of the doubled digit minus 9 otherwise,
    taken mod 10.  The returned value is 0 exactly when [T] is 0, which is
    what makes the ID valid. *)
Theorem control_digit_formula (id_num : string) :
  String.length (Py.zfill 9 id_num) = 9%nat →
  Forall (λ c, Py.isdecimal_char c = true) (Py.chars (Py.zfill 9 id_num)) →
  _compute_id_control_digit id_num
  = Ok ((10 - Documented.total (Py.zfill 9 id_num)) mod 10)
  ∧ ((10 - Documented.total (Py.zfill 9 id_num)) mod 10 = 0
     ↔ Documented.total (Py.zfill 9 id_num) = 0).
Proof.
  intros Hlen Hall. split.
  - unfold _compute_id_control_digit. cbv zeta.
    set (p := Py.zfill 9 id_num) in *.
    assert (Hnum : Py.isnumeric p = true).
    { unfold Py.isnumeric. rewrite Hlen. cbn [Nat.eqb negb andb].
      now apply forallb_decimal_numeric. }
    rewrite Hnum, Hlen. cbn [Nat.eqb andb negb].
    rewrite (control_digit_loop p Hall 9 0 0)
      by (rewrite length_chars; lia).
    rewrite drop_0. unfold mbind, result_bind, Documented.total.
    now rewrite Z.add_0_l.
  - unfold Documented.total.
    pose proof (Z.mod_pos_bound
                  (Documented.weighted_sum 0 (Py.chars (Py.zfill 9 id_num))) 10
                  ltac:(lia)) as Hb.
    set (t := _ mod 10) in *. split; intros H.
    + destruct (Z.eq_dec t 0) as [|Hne]; [assumption|].
      rewrite Z.mod_small in H; lia.
    + now rewrite H.
Qed.

Lemma control_digit_formula_witness :
  _compute_id_control_digit "18"
  = Ok ((10 - Documented.total (Py.zfill 9 "18")) mod 10)
  ∧ ((10 - Documented.total (Py.zfill 9 "18")) mod 10 = 0
     ↔ Documented.total (Py.zfill 9 "18") = 0).
Proof.
  apply (control_digit_formula "18").
  - reflexivity.
  - repeat constructor.
Defined.

(** *** C9 *)

Lemma control_digit_decimal (id_num : string) :
  String.length (Py.zfill 9 id_num) = 9%nat →
  Forall (λ c, Py.isdecimal_char c = true) (Py.chars (Py.zfill 9 id_num)) →
  _compute_id_control_digit id_num
  = Ok ((10 - Documented.total (Py.zfill 9 id_num)) mod 10).
Proof.
  intros Hlen Hall. unfold _compute_id_control_digit. cbv zeta.
  set (p := Py.zfill 9 id_num) in *.
  assert (Hnum : Py.isnumeric p = true).
  { unfold Py.isnumeric. rewrite Hlen. cbn [Nat.eqb negb andb].
    now apply forallb_decimal_numeric. }
  rewrite Hnum, Hlen. cbn [Nat.eqb andb negb].
  rewrite (control_digit_loop p Hall 9 0 0) by (rewrite length_chars; lia).
  rewrite drop_0. unfold mbind, result_bind, Documented.total.
  now rewrite Z.add_0_l.
Qed.

(** Nine decimal digits after padding: the function returns one digit. *)
Lemma control_digit_returns (id_num : string) :
  String.length (Py.zfill 9 id_num) = 9%nat →
  Forall (λ c, Py.isdecimal_char c = true) (Py.chars (Py.zfill 9 id_num)) →
  ∃ d, _compute_id_control_digit id_num = Ok d ∧ 0 <= d <= 9.
Proof.
  intros Hlen Hall. rewrite (control_digit_decimal id_num Hlen Hall).
  eexists; split; [reflexivity|].
  pose proof (Z.mod_pos_bound (10 - Documented.total (Py.zfill 9 id_num)) 10
                ltac:(lia)). lia.
Qed.

Lemma control_digit_returns_witness :
  ∃ d, _compute_id_control_digit "123456789" = Ok d ∧ 0 <= d <= 9.
Proof.
  apply (control_digit_returns "123456789"); [reflexivity | repeat constructor].
Defined.

(** Nine numeric characters of which one is no decimal digit pass the
    assertion, and [int] then raises [ValueError]. *)
Lemma control_digit_value_error (id_num : string) :
  String.length (Py.zfill 9 id_num) = 9%nat →
  Py.isnumeric (Py.zfill 9 id_num) = true →
  Exists (λ c, Py.isdecimal_char c = false) (Py.chars (Py.zfill 9 id_num)) →
  _compute_id_control_digit id_num = Raise ValueError.
Proof.
  intros Hlen Hnum Hex.
  unfold _compute_id_control_digit. cbv zeta.
  set (p := Py.zfill 9 id_num) in *.
  rewrite Hnum, Hlen. cbn [Nat.eqb andb negb].
  assert (Hloop : ∀ n k t, (k + n)%nat = length (Py.chars p) →
            Exists (λ c, Py.isdecimal_char c = false) (drop k (Py.chars p)) →
            for_each (control_digit_step p) (seq k n) t = Raise ValueError).
  { clear. intros n. induction n as [|n IH]; intros k t Hk Hex.
    - rewrite drop_ge in Hex by lia. inversion Hex.
    - destruct (lookup_lt_is_Some_2 (Py.chars p) k ltac:(lia)) as [c Hc].
      rewrite (drop_S _ _ _ Hc) in Hex. cbn [seq for_each].
      destruct (Py.isdecimal_char c) eqn:Hdec.
      + rewrite (control_digit_step_decimal p t k c Hc Hdec).
        apply IH; [lia|]. inversion Hex; subst; [congruence | assumption].
      + now rewrite (control_digit_step_not_decimal p t k c Hc Hdec). }
  rewrite (Hloop 9%nat 0%nat 0); [reflexivity | rewrite length_chars; lia |].
  now rewrite drop_0.
Qed.

Lemma control_digit_value_error_witness :
  _compute_id_control_digit (String Py.superscript_two "12345678")
  = Raise ValueError.
Proof.
  apply (control_digit_value_error (String Py.superscript_two "12345678")).
  - reflexivity.
  - reflexivity.
  - apply Exists_cons_hd. reflexivity.
Defined.

(** C9.  The input made of the one character U+00B2 (superscript two) is
    padded to nine numeric characters, passes the assertion, and makes
    [int] raise [ValueError]: neither the assertion error promised for an
    input with a non-digit character, nor a normal return. *)
Theorem control_digit_superscript_two :
  String.length (Py.zfill 9 (String Py.superscript_two "")) = 9%nat
  ∧ Py.isnumeric (Py.zfill 9 (String Py.superscript_two "")) = true
  ∧ Py.isdecimal_char Py.superscript_two = false
  ∧ _compute_id_control_digit (String Py.superscript_two "") = Raise ValueError.
Proof. repeat split. Qed.

(** ** The string primitives *)

Example strip_both : Py.strip "  050 1 " = "050 1".
Proof. reflexivity. Qed.

Example strip_blank : Py.strip " " = "".
Proof. reflexivity. Qed.

Example split_three : Py.split " , " "a ,   , b" = ["a"; " "; "b"].
Proof. reflexivity. Qed.

Example split_empty : Py.split " , " "" = [""].
Proof. reflexivity. Qed.

Example split_only_separators : Py.split " , " " ,  , " = [""; ""; ""].
Proof. reflexivity. Qed.

Example join_three : Py.join " , " ["a"; "b"; "c"] = "a , b , c".
Proof. reflexivity. Qed.

(** ** Row updates *)

(** [update_row_safe] returns whatever the service answers. *)
Lemma update_row_safe_returns (row : Row) (w : world) :
  (update_row_safe row w).1 = Ok tt.
Proof.
  unfold update_row_safe, try_except, update.
  destruct (refuses w (row_table row) (row_id row)); reflexivity.
Qed.

Lemma update_row_safe_spec (row : Row) (w : world) :
  update_row_safe row w
  = if refuses w (row_table row) (row_id row)
    then (Ok tt, record (Printed RemoteError) (record (Refused row) w))
    else (Ok tt, record (Updated row) (store row w)).
Proof.
  unfold update_row_safe, try_except, update.
  destruct (refuses w (row_table row) (row_id row)); reflexivity.
Qed.

(** A loop whose body never lets the refusal of an update escape does not
    let it escape either. *)
Lemma for_rows_no_remote_error {A : Type} (body : A → M unit) (xs : list A) :
  (∀ x w, (body x w).1 ≠ Raise RemoteError) →
  ∀ w, (for_rows body xs w).1 ≠ Raise RemoteError.
Proof.
  intros Hbody. induction xs as [|x xs IH]; intros w; cbn [for_rows].
  - discriminate.
  - unfold mbind, M_bind. specialize (Hbody x w).
    destruct (body x w) as [[[]|e] w1]; [apply IH | exact Hbody].
Qed.

Lemma control_digit_of_cell_exn (v : value) (e : exn) :
  control_digit_of_cell v = Raise e → e ≠ RemoteError.
Proof.
  destruct v; cbn [control_digit_of_cell]; try (intros [= <-]; discriminate).
  unfold _compute_id_control_digit. cbv zeta.
  destruct (negb _); [intros [= <-]; discriminate|].
  unfold mbind, result_bind.
  destruct (for_each _ _ _) eqn:Hloop; [discriminate|].
  intros [= <-]. apply control_digit_loop_exn in Hloop as [->| ->]; discriminate.
Qed.

Lemma getitem_exn (row : Row) (k : string) (e : exn) :
  getitem row k = Raise e → e = KeyError.
Proof. unfold getitem. destruct (_ !! _); [discriminate | now intros [= <-]]. Qed.

(** ID validation survives every refused update. *)
Lemma validate_ids_no_remote_error (w : world) :
  (validate_ids w).1 ≠ Raise RemoteError.
Proof.
  unfold validate_ids. cbv zeta. unfold mbind at 1, M_bind at 1.
  cbn [get_rows]. apply for_rows_no_remote_error. clear w.
  intros row w. unfold validate_ids_row, lift, mbind, M_bind.
  destruct (getitem row Col.full_name) eqn:Hn;
    [|apply getitem_exn in Hn as ->; discriminate].
  destruct (getitem row Col.id_number) eqn:Hi;
    [|apply getitem_exn in Hi as ->; discriminate].
  destruct (control_digit_of_cell a0) eqn:Hc.
  - rewrite update_row_safe_returns. discriminate.
  - pose proof (control_digit_of_cell_exn _ _ Hc).
    destruct e; cbn; congruence.
Qed.

(** *** C10 *)

(** C10.  With neither engine supplied [fill_name_by_id] returns at once:
    no row is fetched, no engine is queried, nothing is written, and the
    service is left exactly as it was. *)
Theorem fill_name_by_id_no_engine (w : world) :
  fill_name_by_id None None w = (Ok tt, w).
Proof. reflexivity. Qed.

(** *** C3 *)

(** When the service refuses the update of an activist, the linker goes
    on: the second activist gets its mark. *)
Example link_survives_refused_activist :
  let w := Scenario.link_tables Scenario.refuses_activist0 in
  let out := link_activists_and_recruitments w in
  out.1 = Ok tt
  ∧ activists out.2
    = [ {[ Col.phone := VStr "0501"; Col.candidate := VNone ]};
        {[ Col.phone := VStr "0502"; Col.candidate := VStr Col.no ]} ].
Proof. vm_compute. split; reflexivity. Qed.

(** C3.  The update of the recruitment row on line 257 is not wrapped: when
    the service refuses it, the exception leaves
    [link_activists_and_recruitments]; the activist that matched and the
    activist after it are never updated. *)
Theorem link_aborts_on_refused_recruitment :
  let w := Scenario.link_tables Scenario.refuses_recruitment0 in
  let out := link_activists_and_recruitments w in
  out.1 = Raise RemoteError
  ∧ activists out.2 = activists w
  ∧ recruitment out.2 = recruitment w.
Proof. vm_compute. repeat split; reflexivity. Qed.

(** ** Names by ID *)

Lemma fill_name_from_some (which : engine_id) (q : engine) (ID : value)
    (row : Row) (w : world) :
  fill_name_from which (Some q) (name_field which) (first_name_key which)
                 (last_name_key which) ID row w
  = match name_written which (q ID) with
    | Some n =>
        let row' := setitem row (name_field which) (VStr n) in
        (Ok row', (update_row_safe row' (record (Queried which ID) w)).2)
    | None => (Raise KeyError, record (Queried which ID) w)
    end.
Proof.
  unfold fill_name_from, name_written, query, mbind, M_bind, lift, record_get.
  destruct (q ID) as [|p ps].
  - cbn. rewrite update_row_safe_spec. destruct (refuses _ _ _); reflexivity.
  - destruct (p !! first_name_key which); [|reflexivity].
    destruct (p !! last_name_key which); [|reflexivity].
    cbn. rewrite update_row_safe_spec. destruct (refuses _ _ _); reflexivity.
Qed.

Lemma activists_record (ev : event) (w : world) :
  activists (record ev w) = activists w.
Proof. reflexivity. Qed.

(** A safe update of an activist stores its cells, or changes nothing. *)
Lemma activists_update_row_safe (row : Row) (w : world) :
  row_table row = Activists →
  activists (update_row_safe row w).2 = activists w
  ∨ activists (update_row_safe row w).2
    = <[row_id row := row_fields row]> (activists w).
Proof.
  intros Ht. rewrite update_row_safe_spec.
  destruct (refuses _ _ _); [now left|right].
  unfold store. now rewrite Ht.
Qed.

Lemma fill_name_row_activists (rishumon elector : option engine) (row : Row)
    (w : world) :
  row_table row = Activists →
  activists (fill_name_row rishumon elector row w).2 = activists w
  ∨ ∃ cells', names_stored rishumon elector row cells'
              ∧ activists (fill_name_row rishumon elector row w).2
                = <[row_id row := cells']> (activists w).
Proof.
  intros Ht.
  destruct (fill_name_row rishumon elector row w) as [res w'] eqn:Hrun.
  cbn [snd]. revert Hrun.
  unfold fill_name_row, getitem, lift. unfold mbind at 1, M_bind at 1.
  destruct (row_fields row !! Col.id_number) as [ID|] eqn:HID;
    [|intros [= _ <-]; now left].
  destruct ID as [|s| |]; cbn [control_digit_of_cell];
    try (intros [= _ <-]; now left).
  destruct (_compute_id_control_digit s) as [d|e] eqn:Hd;
    [|destruct e; intros [= _ <-]; now left].
  destruct (Z.eqb_spec d 0) as [->|]; [|intros [= _ <-]; now left].
  cbn [negb].
  change Col.rishumon_name with (name_field Rishumon).
  change Col.elector_name with (name_field Elector).
  change "Name" with (first_name_key Rishumon).
  change "Family" with (last_name_key Rishumon).
  change "first_name" with (first_name_key Elector).
  change "last_name" with (last_name_key Elector).
  assert (Hrec : ∀ ev w0, activists (record ev w0) = activists w0) by done.
  destruct rishumon as [q1|], elector as [q2|]; unfold mbind, M_bind.
  - (* both engines *)
    rewrite fill_name_from_some.
    destruct (name_written Rishumon (q1 (VStr s))) as [n1|] eqn:Hn1;
      [|intros [= _ <-]; now left].
    cbv beta iota zeta. rewrite fill_name_from_some.
    set (row1 := setitem row (name_field Rishumon) (VStr n1)).
    set (w1 := record (Queried Rishumon (VStr s)) w).
    destruct (activists_update_row_safe row1 w1 Ht) as [H1|H1].
    + destruct (name_written Elector (q2 (VStr s))) as [n2|] eqn:Hn2.
      * cbv beta iota zeta.
        set (row2 := setitem row1 (name_field Elector) (VStr n2)).
        set (w3 := record (Queried Elector (VStr s)) _).
        destruct (activists_update_row_safe row2 w3 Ht) as [H2|H2];
          intros [= _ <-]; rewrite H2; unfold w3; rewrite Hrec, H1;
          [now left|right].
        exists (row_fields row2). split; [|reflexivity].
        exists s. repeat split; [done..|]. right. right.
        exists q1, q2, n1, n2. done.
      * intros [= _ <-]. rewrite Hrec, H1. now left.
    + destruct (name_written Elector (q2 (VStr s))) as [n2|] eqn:Hn2.
      * cbv beta iota zeta.
        set (row2 := setitem row1 (name_field Elector) (VStr n2)).
        set (w3 := record (Queried Elector (VStr s)) _).
        destruct (activists_update_row_safe row2 w3 Ht) as [H2|H2];
          intros [= _ <-]; rewrite H2; unfold w3; rewrite Hrec, H1; right.
        -- exists (row_fields row1). split; [|reflexivity].
           exists s. repeat split; [done..|]. left. exists q1, n1. done.
        -- exists (row_fields row2). split;
             [|unfold w1; rewrite Hrec; apply list_insert_insert_eq].
           exists s. repeat split; [done..|]. right. right.
           exists q1, q2, n1, n2. done.
      * intros [= _ <-]. rewrite Hrec, H1. right.
        exists (row_fields row1). split; [|reflexivity].
        exists s. repeat split; [done..|]. left. exists q1, n1. done.
  - (* rishumon only *)
    rewrite fill_name_from_some.
    destruct (name_written Rishumon (q1 (VStr s))) as [n1|] eqn:Hn1;
      [|intros [= _ <-]; now left].
    cbv beta iota zeta. cbn [fill_name_from mret M_ret].
    set (row1 := setitem row (name_field Rishumon) (VStr n1)).
    set (w1 := record (Queried Rishumon (VStr s)) w).
    destruct (activists_update_row_safe row1 w1 Ht) as [H1|H1];
      intros [= _ <-]; rewrite H1; [now left|right].
    exists (row_fields row1). split; [|reflexivity].
    exists s. repeat split; [done..|]. left. exists q1, n1. done.
  - (* elector only *)
    unfold fill_name_from at 1. unfold mret, M_ret. cbv beta iota.
    rewrite fill_name_from_some.
    destruct (name_written Elector (q2 (VStr s))) as [n2|] eqn:Hn2;
      [|intros [= _ <-]; now left].
    cbv beta iota zeta.
    set (row2 := setitem row (name_field Elector) (VStr n2)).
    set (w1 := record (Queried Elector (VStr s)) w).
    destruct (activists_update_row_safe row2 w1 Ht) as [H1|H1];
      intros [= _ <-]; rewrite H1; [now left|right].
    exists (row_fields row2). split; [|reflexivity].
    exists s. repeat split; [done..|]. right. left. exists q2, n2. done.
  - intros [= _ <-]. now left.
Qed.

(** The rows the table client hands out. *)
Lemma elem_of_rows_of (t : table_id) (cells : list (gmap string value))
    (row : Row) :
  row ∈ rows_of t cells
  ↔ row_table row = t ∧ cells !! row_id row = Some (row_fields row).
Proof.
  unfold rows_of. rewrite elem_of_lookup_imap. split.
  - intros (i & c & -> & Hc). done.
  - intros [<- Hc]. exists (row_id row), (row_fields row).
    split; [now destruct row | done].
Qed.

Lemma row_ids_imap (t : table_id) (cells : list (gmap string value)) (k : nat) :
  map row_id (imap (λ i, mkRow t (k + i)) cells) = seq k (length cells).
Proof.
  revert k. induction cells as [|c cells IH]; intros k; [reflexivity|].
  cbn [imap map length seq]. rewrite Nat.add_0_r. f_equal.
  rewrite <- IH. f_equal. apply imap_ext. intros i x _. cbn. f_equal. lia.
Qed.

Lemma row_ids_rows_of (t : table_id) (cells : list (gmap string value)) :
  map row_id (rows_of t cells) = seq 0 (length cells).
Proof. exact (row_ids_imap t cells 0). Qed.

Lemma elem_of_select (filters : list Filter) (rows : list Row) (row : Row) :
  row ∈ select filters rows
  ↔ row ∈ rows ∧ forallb (filter_matches (row_fields row)) filters = true.
Proof. unfold select. rewrite !list_elem_of_In. apply filter_In. Qed.

Lemma NoDup_ids_select (filters : list Filter) (rows : list Row) :
  NoDup (map row_id rows) → NoDup (map row_id (select filters rows)).
Proof.
  unfold select. induction rows as [|r rows IH]; cbn [List.filter map];
    [done|].
  intros Hnd. apply NoDup_cons in Hnd as [Hr Hnd].
  destruct (forallb _ _); [|auto].
  cbn [map]. apply NoDup_cons. split; [|auto].
  intros Hin. apply Hr.
  apply list_elem_of_In, in_map_iff in Hin as (r' & Hid & Hin).
  apply filter_In in Hin as [Hin _].
  apply list_elem_of_In, in_map_iff. eauto.
Qed.

Lemma fetched_rows (t : table_id) (filters : list Filter)
    (cells : list (gmap string value)) :
  NoDup (map row_id (select filters (rows_of t cells)))
  ∧ ∀ row, row ∈ select filters (rows_of t cells) →
           row_table row = t
           ∧ cells !! row_id row = Some (row_fields row)
           ∧ forallb (filter_matches (row_fields row)) filters = true.
Proof.
  split.
  - apply NoDup_ids_select. rewrite row_ids_rows_of. apply NoDup_seq.
  - intros row Hrow. apply elem_of_select in Hrow as [Hrow Hf].
    apply elem_of_rows_of in Hrow as [? ?]. done.
Qed.

Lemma fill_name_loop (rishumon elector : option engine) (rows : list Row) :
  ∀ w,
    NoDup (map row_id rows) →
    (∀ row, row ∈ rows →
            row_table row = Activists
            ∧ activists w !! row_id row = Some (row_fields row)) →
    ∀ i,
      activists (for_rows (fill_name_row rishumon elector) rows w).2 !! i
      = activists w !! i
      ∨ ∃ row cells',
          row ∈ rows ∧ row_id row = i
          ∧ names_stored rishumon elector row cells'
          ∧ activists (for_rows (fill_name_row rishumon elector) rows w).2 !! i
            = Some cells'.
Proof.
  induction rows as [|x rows IH]; intros w Hnd Hrows i; [now left|].
  cbn [for_rows map] in *. apply NoDup_cons in Hnd as [Hx Hnd].
  destruct (Hrows x ltac:(left)) as [Hxt Hxc].
  pose proof (fill_name_row_activists rishumon elector x w Hxt) as Hstep.
  unfold mbind, M_bind.
  destruct (fill_name_row rishumon elector x w) as [[[]|e] w1]; cbn [snd] in *.
  - (* the body returned: the loop goes on from [w1] *)
    assert (Hrows1 : ∀ row, row ∈ rows →
              row_table row = Activists
              ∧ activists w1 !! row_id row = Some (row_fields row)).
    { intros row Hrow. destruct (Hrows row ltac:(now right)) as [Ht Hc].
      split; [done|].
      assert (row_id row ≠ row_id x).
      { intros Heq. apply Hx. rewrite <- Heq.
        apply list_elem_of_In, in_map, list_elem_of_In, Hrow. }
      destruct Hstep as [->|(c & _ & ->)]; [done|].
      now rewrite list_lookup_insert_ne. }
    destruct (IH w1 Hnd Hrows1 i) as [Hi|(row & c & Hrow & Hid & Hst & Hc)].
    + rewrite Hi. destruct Hstep as [->|(c & Hst & ->)]; [now left|].
      destruct (decide (row_id x = i)) as [<-|Hne].
      * right. exists x, c. split; [left|]. repeat split; [done|].
        apply list_lookup_insert_eq. apply lookup_lt_is_Some. eauto.
      * left. now rewrite list_lookup_insert_ne.
    + right. exists row, c. split; [now right|done].
  - destruct Hstep as [->|(c & Hst & ->)]; [now left|].
    destruct (decide (row_id x = i)) as [<-|Hne].
    + right. exists x, c. split; [left|]. repeat split; [done|].
      apply list_lookup_insert_eq. apply lookup_lt_is_Some. eauto.
    + left. now rewrite list_lookup_insert_ne.
Qed.

Lemma not_empty_text (cells : gmap string value) (k s : string) :
  filter_matches cells (mkFilter k "" not_empty) = true →
  cells !! k = Some (VStr s) → s ≠ "".
Proof.
  unfold filter_matches. cbn. intros H Hk. rewrite Hk in H. cbn in H.
  intros ->. discriminate.
Qed.

Lemma empty_cell (cells : gmap string value) (k : string) :
  filter_matches cells (mkFilter k "" empty) = true →
  ∃ v, cells !! k = Some v ∧ cell_empty v = true.
Proof.
  unfold filter_matches. cbn. destruct (cells !! k); [eauto|discriminate].
Qed.

Lemma fill_name_by_id_unfold (rishumon elector : option engine) (w : world) :
  (fill_name_by_id rishumon elector w).2
  = match rishumon, elector with
    | None, None => w
    | _, _ =>
        (for_rows (fill_name_row rishumon elector)
           (select (name_filters rishumon elector)
                   (rows_of Activists (activists w)))
           (record (Fetched Activists (name_filters rishumon elector)) w)).2
    end.
Proof. destruct rishumon, elector; reflexivity. Qed.

(** *** C4 *)

(** A name cell that [fill_name_by_id] changed: the row has an ID that is
    not empty and has control digit 0; the engine is supplied, and the new
    cell is the first and the last name of its first answer, joined by a
    space, or NOT FOUND when it has no answer.  When that engine is the only
    one supplied, the cell was empty before. *)
Lemma name_cell_changed (rishumon elector : option engine) (w : world)
    (i : nat) (cells cells' : gmap string value) (which : engine_id) :
  activists w !! i = Some cells →
  activists (fill_name_by_id rishumon elector w).2 !! i = Some cells' →
  cells' !! name_field which ≠ cells !! name_field which →
  ∃ s q n,
    cells !! Col.id_number = Some (VStr s)
    ∧ s ≠ ""
    ∧ _compute_id_control_digit s = Ok 0
    ∧ supplied rishumon elector which = Some q
    ∧ name_written which (q (VStr s)) = Some n
    ∧ cells' !! name_field which = Some (VStr n)
    ∧ (supplied rishumon elector (other_engine which) = None →
       ∃ v, cells !! name_field which = Some v ∧ cell_empty v = true).
Proof.
  intros Hcells Hcells' Hchanged.
  rewrite fill_name_by_id_unfold in Hcells'.
  assert (Hsame : rishumon = None ∧ elector = None ∨
                  ¬ (rishumon = None ∧ elector = None)).
  { destruct rishumon, elector; (now left) || (right; now intros [? ?]). }
  destruct Hsame as [[-> ->]|Hsome]; [congruence|].
  set (filters := name_filters rishumon elector) in *.
  set (rows := select filters (rows_of Activists (activists w))) in *.
  set (w0 := record (Fetched Activists filters) w) in *.
  assert (Hrun : activists (for_rows (fill_name_row rishumon elector) rows w0).2
                 !! i = Some cells').
  { destruct rishumon, elector; try exact Hcells'. now exfalso; apply Hsome. }
  clear Hcells'.
  destruct (fetched_rows Activists filters (activists w)) as [Hnd Hfetched].
  fold rows in Hnd, Hfetched.
  destruct (fill_name_loop rishumon elector rows w0 Hnd
              ltac:(intros row Hrow; destruct (Hfetched row Hrow) as (?&?&?);
                    done) i)
    as [Hi|(row & c & Hrow & Hid & Hst & Hc)].
  - rewrite Hi in Hrun. change (activists w0) with (activists w) in Hrun.
    congruence.
  - destruct (Hfetched row Hrow) as (_ & Hrc & Hf). subst i.
    assert (row_fields row = cells) as Hrf by congruence.
    assert (c = cells') as -> by congruence.
    clear Hc Hrun Hrc Hcells.
    destruct Hst as (s & HID & Hd & Hst). rewrite Hrf in *.
    assert (Hne : s ≠ "").
    { eapply not_empty_text; [|exact HID].
      unfold filters, name_filters in Hf. cbn [forallb] in Hf.
      now apply andb_true_iff in Hf as [? _]. }
    assert (Hfields : Col.rishumon_name ≠ Col.elector_name) by done.
    destruct Hst as [(q & n & -> & Hn & ->)
                    |[(q & n & -> & -> & Hn & ->)
                     |(q1 & q2 & n1 & n2 & -> & -> & Hn1 & Hn2 & ->)]].
    + (* the rishumon cell was stored *)
      destruct which; cbn [name_field] in *.
      * exists s, q, n. rewrite lookup_insert_eq. repeat split; try done.
        cbn [supplied other_engine]. intros ->. apply empty_cell.
        unfold filters, name_filters in Hf. cbn [forallb] in Hf.
        apply andb_true_iff in Hf as [_ Hf].
        now apply andb_true_iff in Hf as [? _].
      * rewrite lookup_insert_ne in Hchanged by done. done.
    + (* the elector cell was stored, rishumon not supplied *)
      destruct which; cbn [name_field] in *.
      * rewrite lookup_insert_ne in Hchanged by done. done.
      * exists s, q, n. rewrite lookup_insert_eq. repeat split; try done.
        intros _. apply empty_cell.
        unfold filters, name_filters in Hf. cbn [forallb] in Hf.
        apply andb_true_iff in Hf as [_ Hf].
        now apply andb_true_iff in Hf as [? _].
    + (* both cells were stored *)
      destruct which; cbn [name_field] in *.
      * exists s, q1, n1.
        rewrite lookup_insert_ne, lookup_insert_eq by done.
        repeat split; try done.
      * exists s, q2, n2. rewrite lookup_insert_eq. repeat split; try done.
Qed.

(** With both engines supplied, a row whose rishumon name is filled is
    fetched, queried for and written again: the claim that rows with a
    filled name cell are not processed fails. *)
Lemma fill_name_by_id_overwrites :
  let w := Scenario.named_tables in
  let w' := (fill_name_by_id (Some Scenario.rishumon_engine)
                             (Some Scenario.elector_engine) w).2 in
  ∃ cells cells',
    activists w !! 0%nat = Some cells
    ∧ activists w' !! 0%nat = Some cells'
    ∧ cells !! Col.rishumon_name = Some (VStr "Dana Levi")
    ∧ cell_empty (VStr "Dana Levi") = false
    ∧ cells' !! Col.rishumon_name = Some (VStr "Dan Cohen").
Proof.
  eexists _, _. split; [reflexivity|]. split; [vm_compute; reflexivity|].
  vm_compute. repeat split.
Qed.

(** ** Duplicates *)

Lemma find_duplicates_step_ok (name_field : string)
    (d : gmap value (list value)) (row : Row) (p n : value) :
  phone_and_name name_field row = Some (p, n) →
  hashable p = true →
  find_duplicates_step name_field d row
  = Ok (<[p := (default [] (d !! p) ++ [n])%list]> d).
Proof.
  unfold phone_and_name, find_duplicates_step, getitem. intros Hpn Hh.
  destruct (row_fields row !! Col.phone) as [p'|]; [|discriminate].
  destruct (row_fields row !! name_field) as [n'|]; [|discriminate].
  cbn in Hpn. injection Hpn as -> ->. cbn. rewrite Hh. cbn. f_equal.
  destruct (d !! p) as [ns|] eqn:Hd.
  - unfold lookup_total, map_lookup_total. now rewrite Hd.
  - unfold lookup_total, map_lookup_total. rewrite lookup_insert_eq. cbn.
    now rewrite insert_insert_eq.
Qed.

Lemma names_of_app (name_field : string) (rows rows' : list Row) (p : value) :
  names_of name_field (rows ++ rows') p
  = (names_of name_field rows p ++ names_of name_field rows' p)%list.
Proof. unfold names_of. apply omap_app. Qed.

Lemma find_duplicates_loop (name_field : string) (rows : list Row) :
  Forall (λ row, ∃ p n, phone_and_name name_field row = Some (p, n)
                        ∧ hashable p = true) rows →
  ∀ (seen : list Row) (d : gmap value (list value)),
    (∀ p, d !! p = grouped (names_of name_field seen p)) →
    ∃ d', for_each (find_duplicates_step name_field) rows d = Ok d'
          ∧ ∀ p, d' !! p = grouped (names_of name_field (seen ++ rows) p).
Proof.
  induction 1 as [|row rows (p & n & Hpn & Hh) _ IH]; intros seen d Hd.
  - exists d. split; [reflexivity|]. now rewrite app_nil_r.
  - cbn [for_each]. rewrite (find_duplicates_step_ok _ _ _ _ _ Hpn Hh).
    destruct (IH (seen ++ [row])%list
                 (<[p := (default [] (d !! p) ++ [n])%list]> d))
      as (d' & Hrun & Hd').
    + intros q. rewrite names_of_app.
      assert (Hrow : names_of name_field [row] q
                     = if decide (p = q) then [n] else []).
      { unfold names_of. cbn. rewrite Hpn. now destruct (decide (p = q)). }
      rewrite Hrow. destruct (decide (p = q)) as [<-|Hne].
      * rewrite lookup_insert_eq, Hd.
        destruct (names_of name_field seen p); reflexivity.
      * rewrite lookup_insert_ne, app_nil_r by done. apply Hd.
    + exists d'. split; [exact Hrun|]. intros q.
      now rewrite Hd', <- app_assoc.
Qed.

Lemma lookup_foldl_delete {V : Type} (ks : list value) (d : gmap value V)
    (p : value) :
  foldl (λ d k, delete k d) d ks !! p = if decide (p ∈ ks) then None else d !! p.
Proof.
  revert d. induction ks as [|k ks IH]; intros d; cbn [foldl].
  - destruct (decide _) as [Hin|]; [inversion Hin | reflexivity].
  - rewrite IH. destruct (decide (p ∈ ks)) as [Hin|Hnin].
    + rewrite decide_True by (now right). reflexivity.
    + destruct (decide (p = k)) as [->|Hne].
      * rewrite decide_True by (now left). apply lookup_delete_eq.
      * rewrite decide_False by (intros Hin; inversion Hin; done).
        now apply lookup_delete_ne.
Qed.

(** The groups [find_duplicates] returns. *)
Lemma find_duplicates_groups (rows : list Row) (name_field : string) :
  Forall (λ row, ∃ p n, phone_and_name name_field row = Some (p, n)
                        ∧ hashable p = true) rows →
  ∃ d, find_duplicates rows name_field = Ok d
       ∧ ∀ p, d !! p
              = if (2 <=? length (names_of name_field rows p))%nat
                then Some (names_of name_field rows p) else None.
Proof.
  intros Hrows.
  destruct (find_duplicates_loop name_field rows Hrows [] ∅) as (d & Hrun & Hd).
  { intros p. now rewrite lookup_empty. }
  cbn [app] in Hd. unfold find_duplicates. rewrite Hrun.
  unfold mbind, result_bind. cbv zeta.
  eexists. split; [reflexivity|]. intros p.
  rewrite lookup_foldl_delete.
  specialize (Hd p). revert Hd.
  generalize (names_of name_field rows p). intros ns Hd.
  destruct (decide _) as [Hin|Hnin].
  - apply list_elem_of_In, filter_In in Hin as [_ Hshort].
    unfold lookup_total, map_lookup_total in Hshort. rewrite Hd in Hshort.
    apply Nat.ltb_lt in Hshort.
    destruct (Nat.leb_spec 2 (length ns)); [|reflexivity].
    destruct ns as [|? [|? ?]]; cbn in *; lia.
  - rewrite Hd. destruct (Nat.leb_spec 2 (length ns)) as [Hlen|Hlen].
    + destruct ns as [|? ?]; [cbn in Hlen; lia | reflexivity].
    + destruct ns as [|n0 ns0]; [reflexivity|]. exfalso. apply Hnin.
      apply list_elem_of_In, filter_In. split.
      * apply in_map_iff. exists (p, n0 :: ns0). split; [reflexivity|].
        apply list_elem_of_In, elem_of_map_to_list. now rewrite Hd.
      * unfold lookup_total, map_lookup_total. rewrite Hd. cbn [grouped default].
        now apply Nat.ltb_lt.
Qed.

Lemma names_of_cons (name_field : string) (row : Row) (rows : list Row)
    (p p' n : value) :
  phone_and_name name_field row = Some (p', n) →
  names_of name_field (row :: rows) p
  = if decide (p' = p) then n :: names_of name_field rows p
    else names_of name_field rows p.
Proof.
  intros Hpn. unfold names_of. cbn. rewrite Hpn.
  now destruct (decide (p' = p)).
Qed.

(** *** C2 *)

(** C2, as the code has it.  For rows that carry the phone cell (a value that
    can be a dictionary key) and the name cell, [find_duplicates] returns
    exactly the phone groups with two or more name entries, one entry per
    row and equal names counted separately, each mapped to the list of its
    names in the order of the rows.  In particular rows with the phones
    P1, P1, P2 (P1 and P2 different) and the names N1, N2, N3 give
    P1: [N1, N2], with P2 left out. *)
Theorem find_duplicates_returns (rows : list Row) (name_field : string)
    (r1 r2 r3 : Row) (P1 P2 N1 N2 N3 : value) :
  Forall (λ row, ∃ p n, phone_and_name name_field row = Some (p, n)
                        ∧ hashable p = true) rows →
  phone_and_name name_field r1 = Some (P1, N1) →
  phone_and_name name_field r2 = Some (P1, N2) →
  phone_and_name name_field r3 = Some (P2, N3) →
  hashable P1 = true → hashable P2 = true → P1 ≠ P2 →
  (∃ d, find_duplicates rows name_field = Ok d
        ∧ ∀ p names,
            d !! p = Some names
            ↔ names = names_of name_field rows p ∧ (2 <= length names)%nat)
  ∧ find_duplicates [r1; r2; r3] name_field = Ok {[ P1 := [N1; N2] ]}.
Proof.
  intros Hrows H1 H2 H3 Hh1 Hh2 Hne. split.
  - destruct (find_duplicates_groups rows name_field Hrows) as (d & Hrun & Hd).
    exists d. split; [exact Hrun|]. intros p names. rewrite Hd.
    destruct (Nat.leb_spec 2 (length (names_of name_field rows p))).
    + split; [intros [= <-]; done | intros [-> _]; done].
    + split; [discriminate | intros [-> ?]; lia].
  - destruct (find_duplicates_groups [r1; r2; r3] name_field) as (d & Hrun & Hd).
    { repeat constructor; eauto. }
    rewrite Hrun. f_equal. apply map_eq. intros p. rewrite Hd.
    rewrite (names_of_cons _ _ _ _ _ _ H1), (names_of_cons _ _ _ _ _ _ H2),
            (names_of_cons _ _ _ _ _ _ H3).
    change (names_of name_field [] p) with (@nil value).
    destruct (decide (P1 = p)) as [<-|Hp1].
    + rewrite decide_False by done. now rewrite lookup_singleton_eq.
    + rewrite lookup_singleton_ne by done.
      now destruct (decide (P2 = p)).
Qed.

Lemma find_duplicates_returns_witness :
  let r1 := mkRow Activists 0 {[ Col.phone := VStr "0501"; Col.full_name := VStr "Dana" ]} in
  let r2 := mkRow Activists 1 {[ Col.phone := VStr "0501"; Col.full_name := VStr "Dan" ]} in
  let r3 := mkRow Activists 2 {[ Col.phone := VStr "0502"; Col.full_name := VStr "Noa" ]} in
  (∃ d, find_duplicates Scenario.same_person_twice Col.full_name = Ok d
        ∧ ∀ p names,
            d !! p = Some names
            ↔ names = names_of Col.full_name Scenario.same_person_twice p
              ∧ (2 <= length names)%nat)
  ∧ find_duplicates [r1; r2; r3] Col.full_name
    = Ok {[ VStr "0501" := [VStr "Dana"; VStr "Dan"] ]}.
Proof.
  intros r1 r2 r3.
  apply (find_duplicates_returns Scenario.same_person_twice Col.full_name
           r1 r2 r3 (VStr "0501") (VStr "0502")
           (VStr "Dana") (VStr "Dan") (VStr "Noa")).
  - repeat constructor;
      exists (VStr "0501"), (VStr "Dana"); split; reflexivity.
  - reflexivity.
  - reflexivity.
  - reflexivity.
  - reflexivity.
  - reflexivity.
  - discriminate.
Defined.

(** Two rows with one phone and one name form a group of a single distinct
    name, and [find_duplicates] returns it: the count is of entries, not of
    distinct names. *)
Lemma find_duplicates_same_name :
  find_duplicates Scenario.same_person_twice Col.full_name
  = Ok {[ VStr "0501" := [VStr "Dana"; VStr "Dana"] ]}
  ∧ length (remove_dups [VStr "Dana"; VStr "Dana"]) = 1%nat.
Proof. split; vm_compute; reflexivity. Qed.

(** ** Filling a field by the phone number *)

Lemma for_each_app {A S : Type} (body : S → A → result S) (xs ys : list A)
    (acc : S) :
  for_each body (xs ++ ys) acc
  = match for_each body xs acc with
    | Ok acc' => for_each body ys acc'
    | Raise e => Raise e
    end.
Proof.
  revert acc. induction xs as [|x xs IH]; intros acc; cbn [app for_each];
    [reflexivity|].
  destruct (body acc x); [apply IH | reflexivity].
Qed.

Lemma select_all (rows : list Row) : select [] rows = rows.
Proof.
  unfold select. induction rows as [|r rows IH]; [done|].
  cbn [List.filter forallb]. f_equal. exact IH.
Qed.

(** A row in which the fragment matches no column, or several. *)
Lemma build_step_lookup_fails (field_name : string)
    (d : gmap value (list value)) (row : Row) :
  length (List.filter (Py.contains field_name) (fields row)) ≠ 1%nat →
  build_phone_to_field_step field_name d row = Raise KeyError.
Proof.
  unfold build_phone_to_field_step. cbv zeta.
  destruct (List.filter _ _) as [|k [|k' ks]]; cbn [length]; try done.
Qed.

(** *** C7 *)

(** C7.  When the scan of the source rows reaches a row in which the
    fragment of the column name matches no column, or more than one, the
    [KeyError] of lines 88-91 leaves the whole fill: the call ends with it
    after the source rows were fetched, and no target row is fetched or
    written. *)
Theorem fill_aborts_on_column_lookup
    (set_to_list : list string → list string)
    (registration_field activists_field : string)
    (additional_query_function : option (value → pyvals)) (full_run : bool)
    (w : world) (before after : list Row) (row : Row)
    (d : gmap value (list value)) :
  rows_of Registrations (registrations w) = (before ++ row :: after)%list →
  for_each (build_phone_to_field_step registration_field) before ∅ = Ok d →
  length (List.filter (Py.contains registration_field) (fields row)) ≠ 1%nat →
  _fill_field_from_registration_to_activists set_to_list registration_field
    activists_field additional_query_function full_run w
  = (Raise KeyError, record (Fetched Registrations []) w).
Proof.
  intros Hrows Hbefore Hrow.
  unfold _fill_field_from_registration_to_activists, get_rows.
  unfold mbind at 1, M_bind at 1. rewrite select_all.
  change (table w Registrations) with (registrations w). rewrite Hrows.
  unfold _build_phone_to_field_dict_from_table_rows.
  rewrite for_each_app, Hbefore. cbn [for_each].
  rewrite (build_step_lookup_fails _ _ _ Hrow). reflexivity.
Qed.

Lemma fill_aborts_on_column_lookup_witness :
  _fill_field_from_registration_to_activists remove_dups Col.facebook
    Col.facebook None false Scenario.no_facebook_column
  = (Raise KeyError,
     record (Fetched Registrations []) Scenario.no_facebook_column).
Proof.
  apply (fill_aborts_on_column_lookup remove_dups Col.facebook Col.facebook
           None false Scenario.no_facebook_column []
           []
           (mkRow Registrations 0
              {[ Col.phone := VStr "0501";
                 Col.email_registration := VStr "d@x.il" ]})
           ∅).
  - reflexivity.
  - reflexivity.
  - vm_compute. discriminate.
Defined.

(** *** C6 *)

(** The merged list of a phone is free of repetitions, whatever the order
    in which the set is listed. *)
Lemma merged_no_repetition (set_to_list : list string → list string)
    (activists_field : string)
    (additional_query_function : option (value → pyvals))
    (d d' : gmap value (list value)) (row : Row) (phone : value)
    (urls : list value) :
  (∀ xs, set_to_list xs ≡ₚ remove_dups xs) →
  merge_for_row set_to_list activists_field additional_query_function d row
  = Ok (phone, d') →
  d' !! phone = Some urls →
  ∃ xs, urls = map VStr xs ∧ NoDup xs.
Proof.
  intros Hset. unfold merge_for_row, mbind, result_bind.
  destruct (getitem row Col.phone) as [p|]; [|discriminate].
  destruct (match additional_query_function with
            | Some f => _ | None => _ end) as [d1|]; [|discriminate].
  destruct (getitem row activists_field) as [content|]; [|discriminate].
  destruct (if truthy content then _ else _) as [d2|]; [|discriminate].
  unfold dict_find. destruct (negb (hashable p)); [discriminate|].
  destruct (d2 !! p) as [l|] eqn:Hl.
  - destruct (strip_all l) as [stripped|]; [|discriminate].
    intros [= <- <-]. rewrite lookup_insert_eq. intros [= <-].
    eexists. split; [reflexivity|].
    rewrite Hset. apply NoDup_remove_dups.
  - intros [= <- <-]. congruence.
Qed.

(** A text is written only for a merged list that is not empty. *)
Lemma written_only_when_merged (d : gmap value (list value)) (phone : value)
    (row : Row) (joined : string) :
  text_to_write d phone row = Ok (Some joined) →
  ∃ url urls, d !! phone = Some (url :: urls)
              ∧ join_cells (url :: urls) = Ok joined.
Proof.
  unfold text_to_write, mbind, result_bind.
  destruct (d !! phone) as [[|url urls]|]; try discriminate.
  destruct (getitem row Col.full_name); [|discriminate].
  destruct (join_cells (url :: urls)) as [j|] eqn:Hj; [|discriminate].
  intros [= <-]. eauto.
Qed.

(** C6.  A source value of one space passes the test [if url] of line 160
    and is stripped to the empty string afterwards: the merged list of the
    phone is the list of the empty string, it is not empty, and the empty
    text is written to the row. *)
Theorem fill_writes_empty_string :
  let row := mkRow Activists 0
               {[ Col.phone := VStr "0501"; Col.facebook := VNone;
                  Col.full_name := VStr "Dana" ]} in
  let out := _fill_field_from_registration_to_activists remove_dups
               Col.facebook Col.facebook None false Scenario.blank_facebook in
  merge_for_row remove_dups Col.facebook None
    {[ VStr "0501" := [VStr " "] ]} row
  = Ok (VStr "0501", {[ VStr "0501" := [VStr ""] ]})
  ∧ out.1 = Ok tt
  ∧ activists out.2
    = [ {[ Col.phone := VStr "0501"; Col.facebook := VStr "";
           Col.full_name := VStr "Dana" ]} ]
  ∧ events out.2
    = [ Updated (setitem row Col.facebook (VStr ""));
        Fetched Activists (fill_filters Col.facebook false);
        Fetched Registrations [] ].
Proof. vm_compute. repeat split. Qed.

(** ** The training report *)

Example strptime_iso_reads :
  Scenario.strptime_iso "2025-06-05T12:56:10Z" "%Y-%m-%dT%H:%M:%SZ"
  = Some (mkDatetime (mkDate 2025 6 5) 12 56 10 0).
Proof. reflexivity. Qed.

Example strptime_iso_refuses :
  Scenario.strptime_iso "not-a-date" "%Y-%m-%dT%H:%M:%SZ" = None.
Proof. reflexivity. Qed.

Example minus_months_clips : minus_months 2 (mkDate 2025 4 30) = mkDate 2025 2 28.
Proof. reflexivity. Qed.

Example minus_months_wraps : minus_months 4 (mkDate 2025 3 31) = mkDate 2024 11 30.
Proof. reflexivity. Qed.

(** Today is not before the day two months ago. *)
Lemma today_is_recent (today : date) :
  date_ltb today (minus_months 2 today) = false.
Proof.
  unfold date_ltb, minus_months. cbn [year month day].
  destruct (Z.ltb_spec (month today - 2) 1);
    repeat match goal with
           | |- context [?a <? ?b] => destruct (Z.ltb_spec a b)
           | |- context [?a =? ?b] => destruct (Z.eqb_spec a b)
           end; cbn; try reflexivity; lia.
Qed.

(** The day four months ago is before the day two months ago. *)
Lemma four_months_is_old (today : date) :
  date_ltb (minus_months 4 today) (minus_months 2 today) = true.
Proof.
  unfold date_ltb, minus_months. cbn [year month day].
  destruct (Z.ltb_spec (month today - 2) 1), (Z.ltb_spec (month today - 4) 1);
    repeat match goal with
           | |- context [?a <? ?b] => destruct (Z.ltb_spec a b)
           | |- context [?a =? ?b] => destruct (Z.eqb_spec a b)
           end; cbn; try reflexivity; lia.
Qed.

Section ReportFacts.

Variable strptime : string → string → option datetime.
Variable today : date.

Lemma count_registration_readable (training_dic : gmap value Z)
    (register : Row) (w : world) :
  readable register →
  (count_registration strptime today training_dic register w).1
  = Ok (bump (counted_for strptime today register) training_dic).
Proof.
  intros [(s & Hs) (t & Ht & Hh)].
  unfold count_registration, counted_for, getitem, lift, parse_date.
  rewrite Hs. unfold mbind at 1, M_bind at 1. unfold mbind at 1, M_bind at 1.
  destruct (first_format strptime s date_formats) as [parsed|].
  - cbn [mret M_ret].
    destruct (date_ltb _ _); [reflexivity|].
    rewrite Ht. unfold mbind, M_bind. rewrite Hh. cbn [negb bump].
    destruct (training_dic !! t) as [n|]; cbn [default fst mret M_ret];
      [reflexivity|]. reflexivity.
  - reflexivity.
Qed.

Lemma tally_snoc (registers : list Row) (register : Row) (t : value) :
  tally strptime today (registers ++ [register]) t
  = tally strptime today registers t
    + (if decide (counted_for strptime today register = Some t) then 1 else 0).
Proof.
  unfold tally. rewrite List.filter_app, length_app. cbn [List.filter].
  destruct (decide _) as [H|H].
  - rewrite bool_decide_eq_true_2 by done. cbn [length]. lia.
  - rewrite bool_decide_eq_false_2 by done. cbn [length]. lia.
Qed.

Lemma tally_nonneg (registers : list Row) (t : value) :
  0 <= tally strptime today registers t.
Proof. unfold tally. lia. Qed.

Lemma bump_holds_tally (training_dic : gmap value Z) (seen : list Row)
    (register : Row) :
  holds_tally strptime today training_dic seen →
  holds_tally strptime today
    (bump (counted_for strptime today register) training_dic)
    (seen ++ [register]).
Proof.
  intros Hdic t. rewrite tally_snoc.
  pose proof (tally_nonneg seen t) as Hnn.
  destruct (counted_for strptime today register) as [t'|]; cbn [bump].
  - destruct (decide (t' = t)) as [->|Hne].
    + rewrite lookup_insert_eq, decide_True by done. rewrite Hdic.
      destruct (Z.eqb_spec (tally strptime today seen t) 0) as [->|Hz];
        cbn [default].
      * reflexivity.
      * destruct (Z.eqb_spec (tally strptime today seen t + 1) 0);
          [lia | reflexivity].
    + rewrite lookup_insert_ne by done.
      rewrite decide_False by congruence. rewrite Z.add_0_r. apply Hdic.
  - rewrite decide_False by done. rewrite Z.add_0_r. apply Hdic.
Qed.

Lemma count_loop (registers : list Row) :
  Forall readable registers →
  ∀ (seen : list Row) (training_dic : gmap value Z) (w : world),
    holds_tally strptime today training_dic seen →
    ∃ dic, (fold_rows (count_registration strptime today) registers
                      training_dic w).1 = Ok dic
           ∧ holds_tally strptime today dic (seen ++ registers).
Proof.
  induction 1 as [|register registers Hr _ IH]; intros seen dic w Hdic.
  - exists dic. split; [reflexivity | now rewrite app_nil_r].
  - cbn [fold_rows]. unfold mbind, M_bind.
    pose proof (count_registration_readable dic register w Hr) as Hstep.
    destruct (count_registration strptime today dic register w) as [res w1].
    cbn [fst] in Hstep. subst res.
    destruct (IH (seen ++ [register])%list _ w1
                 (bump_holds_tally dic seen register Hdic))
      as (dic' & Hrun & Hdic').
    exists dic'. split; [exact Hrun | now rewrite <- app_assoc in Hdic'].
Qed.

Lemma dated_readable (i : nat) (register : gmap string value) (d : date)
    (training : string) :
  dated strptime register d training →
  readable (mkRow Registrations i register).
Proof.
  intros (s & parsed & Hs & _ & _ & Ht). split; cbn; eauto.
Qed.

Lemma dated_counted_for (i : nat) (register : gmap string value) (d : date)
    (training : string) :
  dated strptime register d training →
  counted_for strptime today (mkRow Registrations i register)
  = if date_ltb d (minus_months 2 today) then None
    else Some (VStr training).
Proof.
  intros (s & parsed & Hs & Hp & Hd & Ht). unfold counted_for.
  cbn [row_fields]. rewrite Hs, Hp, Hd, Ht. reflexivity.
Qed.

End ReportFacts.

Lemma report_tallies (strptime : string → string → option datetime)
    (today : date) (w : world) :
  Forall readable (rows_of Registrations (registrations w)) →
  ∃ dic, (getTrainingParticipantCounts strptime today w).1 = Ok dic
         ∧ holds_tally strptime today dic
             (rows_of Registrations (registrations w)).
Proof.
  intros Hrows. unfold getTrainingParticipantCounts, get_rows.
  unfold mbind, M_bind. rewrite select_all.
  change (table w Registrations) with (registrations w).
  apply (count_loop strptime today _ Hrows [] ∅).
  intros t. now rewrite lookup_empty.
Qed.

(** The report.  When every registration has a text as its time of
    submission and a training that can be a key, the report returns, for
    each training, the number of registrations whose time parses under one
    of the formats and is not before the day two months ago, and has no
    entry for a training without such a registration.  In particular three
    registrations for A dated today, today and four months ago, and one for
    B dated today, give A: 2 and B: 1. *)
Theorem training_counts (strptime : string → string → option datetime)
    (today : date) (w : world) (a1 a2 a3 b : gmap string value) :
  Forall readable (rows_of Registrations (registrations w)) →
  dated strptime a1 today "A" →
  dated strptime a2 today "A" →
  dated strptime a3 (minus_months 4 today) "A" →
  dated strptime b today "B" →
  (∃ dic, (getTrainingParticipantCounts strptime today w).1 = Ok dic
          ∧ holds_tally strptime today dic
              (rows_of Registrations (registrations w)))
  ∧ ∀ w', registrations w' = [a1; a2; a3; b] →
          (getTrainingParticipantCounts strptime today w').1
          = Ok {[ VStr "A" := 2; VStr "B" := 1 ]}.
Proof.
  intros Hrows H1 H2 H3 H4. split; [now apply report_tallies|].
  intros w' Hw'.
  destruct (report_tallies strptime today w') as (dic & Hrun & Hdic).
  { rewrite Hw'. repeat constructor; eapply dated_readable; eassumption. }
  rewrite Hrun. f_equal. apply map_eq. intros t. rewrite Hdic, Hw'.
  change (rows_of Registrations [a1; a2; a3; b])
    with [mkRow Registrations 0 a1; mkRow Registrations 1 a2;
          mkRow Registrations 2 a3; mkRow Registrations 3 b].
  unfold tally. cbn [List.filter].
  rewrite (dated_counted_for strptime today 0 _ _ _ H1),
          (dated_counted_for strptime today 1 _ _ _ H2),
          (dated_counted_for strptime today 2 _ _ _ H3),
          (dated_counted_for strptime today 3 _ _ _ H4).
  rewrite today_is_recent, four_months_is_old.
  destruct (decide (t = VStr "A")) as [->|HA].
  - rewrite lookup_insert_eq. reflexivity.
  - rewrite lookup_insert_ne by done.
    rewrite (bool_decide_eq_false_2 (Some (VStr "A") = Some t)) by congruence.
    rewrite (bool_decide_eq_false_2 (None = Some t)) by done.
    destruct (decide (t = VStr "B")) as [->|HB].
    + rewrite lookup_singleton_eq. reflexivity.
    + rewrite lookup_singleton_ne by done.
      rewrite (bool_decide_eq_false_2 (Some (VStr "B") = Some t)) by congruence.
      reflexivity.
Qed.

Lemma training_counts_witness :
  let strptime := Scenario.strptime_iso in
  let today := Scenario.the_day in
  (∃ dic, (getTrainingParticipantCounts strptime today
             Scenario.report_tables).1 = Ok dic
          ∧ holds_tally strptime today dic
              (rows_of Registrations (registrations Scenario.report_tables)))
  ∧ ∀ w', registrations w'
          = [ Scenario.registration "2025-06-05T08:00:00Z" "A";
              Scenario.registration "2025-06-05T09:30:00Z" "A";
              Scenario.registration "2025-02-05T08:00:00Z" "A";
              Scenario.registration "2025-06-05T23:59:59Z" "B" ] →
          (getTrainingParticipantCounts strptime today w').1
          = Ok {[ VStr "A" := 2; VStr "B" := 1 ]}.
Proof.
  intros strptime today.
  apply (training_counts strptime today Scenario.report_tables).
  - repeat constructor; cbn; eexists; (reflexivity || (split; reflexivity)).
  - eexists _, _. repeat split; reflexivity.
  - eexists _, _. repeat split; reflexivity.
  - eexists _, _. repeat split; reflexivity.
  - eexists _, _. repeat split; reflexivity.
Defined.

Example report_on_tables :
  (getTrainingParticipantCounts Scenario.strptime_iso Scenario.the_day
     Scenario.report_tables).1
  = Ok {[ VStr "A" := 1 ]}.
Proof. vm_compute. reflexivity. Qed.

(** ** Further properties of the operations *)

Lemma merged_no_repetition_witness :
  ∃ xs, [VStr "a"] = map VStr xs ∧ NoDup xs.
Proof.
  apply (merged_no_repetition remove_dups Col.facebook None
           {[ VStr "0501" := [VStr "a"; VStr " a "; VStr ""] ]}
           {[ VStr "0501" := [VStr "a"] ]}
           (mkRow Activists 0
              {[ Col.phone := VStr "0501"; Col.facebook := VNone ]})
           (VStr "0501") [VStr "a"]).
  - intros xs. reflexivity.
  - vm_compute. reflexivity.
  - reflexivity.
Defined.

(** A row whose ID fails the assertion is skipped by [validate_ids]:
    nothing is written for it and the scan goes on. *)
Lemma validate_ids_skips_malformed (row : Row) (w : world) (name : value)
    (s : string) :
  row_fields row !! Col.full_name = Some name →
  row_fields row !! Col.id_number = Some (VStr s) →
  ¬ (String.length (Py.zfill 9 s) = 9%nat ∧ Py.isnumeric (Py.zfill 9 s) = true) →
  validate_ids_row row w = (Ok tt, w).
Proof.
  intros Hn Hi Hbad. apply control_digit_rejects in Hbad.
  unfold validate_ids_row, getitem, lift, mbind, M_bind.
  rewrite Hn, Hi. cbn [control_digit_of_cell]. now rewrite Hbad.
Qed.

Lemma validate_ids_skips_malformed_witness :
  validate_ids_row
    (mkRow Activists 0
       {[ Col.full_name := VStr "Dana"; Col.id_number := VStr "12a" ]})
    Scenario.named_tables
  = (Ok tt, Scenario.named_tables).
Proof.
  apply (validate_ids_skips_malformed _ _ (VStr "Dana") "12a").
  - reflexivity.
  - reflexivity.
  - intros [_ H]. vm_compute in H. discriminate.
Defined.

(** [_add_to_dict_if_not_empty] with values to add: they go to the end of
    the list of the key, and no other key changes. *)
Lemma add_to_dict_appends (key : value) (values : pyvals)
    (dic : gmap value (list value)) :
  hashable key = true →
  as_list values ≠ [] →
  ∃ dic', _add_to_dict_if_not_empty key values dic = Ok dic'
          ∧ dic' !! key = Some (default [] (dic !! key) ++ as_list values)%list
          ∧ ∀ k, k ≠ key → dic' !! k = dic !! k.
Proof.
  intros Hh Hne. unfold _add_to_dict_if_not_empty. cbv zeta.
  destruct (as_list values) as [|v vs] eqn:Hvs; [done|].
  cbn [length Nat.eqb negb]. rewrite Hh. cbn [negb].
  eexists. split; [reflexivity|]. split.
  - rewrite lookup_insert_eq. f_equal. f_equal.
    unfold lookup_total, map_lookup_total.
    destruct (dic !! key) as [l|] eqn:Hl; [now rewrite Hl|].
    now rewrite lookup_insert_eq.
  - intros k Hk. rewrite lookup_insert_ne by done.
    destruct (dic !! key); [reflexivity|]. now rewrite lookup_insert_ne.
Qed.

Lemma add_to_dict_appends_witness :
  let dic : gmap value (list value) := {[ VStr "0501" := [VStr "a"] ]} in
  ∃ dic', _add_to_dict_if_not_empty (VStr "0501") (One (VStr "b")) dic = Ok dic'
          ∧ dic' !! VStr "0501"
            = Some (default [] (dic !! VStr "0501")
                      ++ as_list (One (VStr "b")))%list
          ∧ ∀ k, k ≠ VStr "0501" → dic' !! k = dic !! k.
Proof.
  intros dic. apply (add_to_dict_appends (VStr "0501") (One (VStr "b")) dic).
  - reflexivity.
  - discriminate.
Defined.

Lemma build_step_ok (field_name : string) (d : gmap value (list value))
    (row : Row) (p c : value) :
  source_cell field_name row = Some (p, c) →
  (truthy c = true → hashable p = true) →
  build_phone_to_field_step field_name d row
  = Ok (if truthy c then <[p := (default [] (d !! p) ++ [c])%list]> d else d).
Proof.
  unfold source_cell, build_phone_to_field_step, getitem. cbv zeta.
  destruct (List.filter _ _) as [|k [|k' ks]]; try discriminate.
  destruct (row_fields row !! k) as [c'|]; [|discriminate].
  destruct (row_fields row !! Col.phone) as [p'|]; [|discriminate].
  cbn. intros [= -> ->] Hh. destruct (truthy c); [|reflexivity].
  rewrite Hh by done. cbn. now destruct (d !! p).
Qed.

Lemma contents_of_app (field_name : string) (rows rows' : list Row) (p : value) :
  contents_of field_name (rows ++ rows') p
  = (contents_of field_name rows p ++ contents_of field_name rows' p)%list.
Proof. unfold contents_of. apply omap_app. Qed.

Lemma build_loop (field_name : string) (rows : list Row) :
  Forall (λ row, ∃ p c, source_cell field_name row = Some (p, c)
                        ∧ (truthy c = true → hashable p = true)) rows →
  ∀ (seen : list Row) (d : gmap value (list value)),
    (∀ p, d !! p = grouped (contents_of field_name seen p)) →
    ∃ d', for_each (build_phone_to_field_step field_name) rows d = Ok d'
          ∧ ∀ p, d' !! p = grouped (contents_of field_name (seen ++ rows) p).
Proof.
  induction 1 as [|row rows (p & c & Hpc & Hh) _ IH]; intros seen d Hd.
  - exists d. split; [reflexivity|]. now rewrite app_nil_r.
  - cbn [for_each]. rewrite (build_step_ok _ _ _ _ _ Hpc Hh).
    destruct (IH (seen ++ [row])%list
                 (if truthy c then <[p := (default [] (d !! p) ++ [c])%list]> d
                  else d)) as (d' & Hrun & Hd').
    + intros q. rewrite contents_of_app.
      assert (Hrow : contents_of field_name [row] q
                     = if decide (p = q) then (if truthy c then [c] else [])
                       else []).
      { unfold contents_of. cbn. rewrite Hpc.
        destruct (decide (p = q)); [|reflexivity]. now destruct (truthy c). }
      rewrite Hrow. destruct (truthy c).
      * destruct (decide (p = q)) as [<-|Hne].
        -- rewrite lookup_insert_eq, Hd.
           destruct (contents_of field_name seen p); reflexivity.
        -- rewrite lookup_insert_ne, app_nil_r by done. apply Hd.
      * destruct (decide (p = q)); rewrite app_nil_r; apply Hd.
    + exists d'. split; [exact Hrun|]. intros q.
      now rewrite Hd', <- app_assoc.
Qed.

(** The phone dictionary.  When in every source row the fragment names
    exactly one column and the phone cell is there (and can be a key where
    the content counts), the dictionary maps each phone to the contents
    that are not empty, in the order of the rows, and has no entry for a
    phone without such a content. *)
Theorem build_phone_to_field_groups (field_name : string) (rows : list Row) :
  Forall (λ row, ∃ p c, source_cell field_name row = Some (p, c)
                        ∧ (truthy c = true → hashable p = true)) rows →
  ∃ d, _build_phone_to_field_dict_from_table_rows field_name rows = Ok d
       ∧ ∀ p, d !! p = match contents_of field_name rows p with
                       | [] => None
                       | contents => Some contents
                       end.
Proof.
  intros Hrows.
  destruct (build_loop field_name rows Hrows [] ∅) as (d & Hrun & Hd).
  { intros p. now rewrite lookup_empty. }
  exists d. split; [exact Hrun|]. intros p. rewrite Hd. cbn [app].
  unfold grouped. now destruct (contents_of field_name rows p).
Qed.

Lemma build_phone_to_field_groups_witness :
  let rows := rows_of Registrations (registrations Scenario.blank_facebook) in
  ∃ d, _build_phone_to_field_dict_from_table_rows Col.facebook rows = Ok d
       ∧ ∀ p, d !! p = match contents_of Col.facebook rows p with
                       | [] => None
                       | contents => Some contents
                       end.
Proof.
  intros rows. apply (build_phone_to_field_groups Col.facebook rows).
  repeat constructor. exists (VStr "0501"), (VStr " ").
  split; [vm_compute; reflexivity | reflexivity].
Defined.

(** [find_duplicates] on a row without the phone cell or without the name
    cell: the [KeyError] of lines 297-298 ends the call. *)
Theorem find_duplicates_missing_cell (name_field : string)
    (before after : list Row) (row : Row) :
  Forall (λ row, ∃ p n, phone_and_name name_field row = Some (p, n)
                        ∧ hashable p = true) before →
  phone_and_name name_field row = None →
  find_duplicates (before ++ row :: after) name_field = Raise KeyError.
Proof.
  intros Hbefore Hrow. unfold find_duplicates.
  destruct (find_duplicates_loop name_field before Hbefore [] ∅)
    as (d & Hrun & _).
  { intros p. now rewrite lookup_empty. }
  rewrite for_each_app, Hrun. cbn [for_each].
  assert (Hstep : find_duplicates_step name_field d row = Raise KeyError).
  { unfold phone_and_name in Hrow. unfold find_duplicates_step, getitem.
    destruct (row_fields row !! Col.phone); [|reflexivity].
    destruct (row_fields row !! name_field); [discriminate | reflexivity]. }
  rewrite Hstep. reflexivity.
Qed.

Lemma find_duplicates_missing_cell_witness :
  find_duplicates
    (Scenario.same_person_twice
       ++ mkRow Activists 2 {[ Col.phone := VStr "0503" ]} :: [])
    Col.full_name
  = Raise KeyError.
Proof.
  apply (find_duplicates_missing_cell Col.full_name
           Scenario.same_person_twice []).
  - repeat constructor;
      exists (VStr "0501"), (VStr "Dana"); split; reflexivity.
  - reflexivity.
Defined.


(** ** Running the fill twice *)

Lemma rstrip_rstrip (s : string) : Py.rstrip (Py.rstrip s) = Py.rstrip s.
Proof.
  induction s as [|c s IH]; [reflexivity|].
  cbn [Py.rstrip]. cbv zeta.
  destruct (Py.isspace_char c && (Py.rstrip s =? "")%string) eqn:Hc;
    [reflexivity|].
  cbn [Py.rstrip]. cbv zeta. rewrite IH, Hc. reflexivity.
Qed.

Lemma lstrip_head (s : string) :
  Py.lstrip s = ""
  ∨ ∃ c rest, Py.lstrip s = String c rest ∧ Py.isspace_char c = false.
Proof.
  induction s as [|c s IH]; [now left|].
  cbn [Py.lstrip]. destruct (Py.isspace_char c) eqn:Hc; [exact IH|].
  right. eauto.
Qed.

Lemma strip_strip (s : string) : Py.strip (Py.strip s) = Py.strip s.
Proof.
  unfold Py.strip. destruct (lstrip_head s) as [->|(c & rest & -> & Hc)];
    [reflexivity|].
  cbn [Py.rstrip]. cbv zeta. rewrite Hc. cbn [andb Py.lstrip]. rewrite Hc.
  cbn [Py.rstrip]. cbv zeta. rewrite Hc, rstrip_rstrip. reflexivity.
Qed.

Lemma join_empty (pieces : list string) :
  Py.join " , " pieces = "" ↔ pieces = [] ∨ pieces = [""].
Proof.
  split.
  - destruct pieces as [|p [|q rest]]; cbn [Py.join];
      [now left | intros ->; now right |].
    destruct p; discriminate.
  - intros [->| ->]; reflexivity.
Qed.

Lemma all_empty_once (ss : list string) :
  NoDup ss → (∀ s, s ∈ ss → s = "") → ss = [] ∨ ss = [""].
Proof.
  intros Hnd Hall. destruct ss as [|a [|b rest]]; [now left| |].
  - right. f_equal. apply Hall. left.
  - exfalso. apply NoDup_cons in Hnd as [Ha _]. apply Ha.
    rewrite (Hall a), (Hall b); [left | right; left | left].
Qed.

Lemma texts_strings (ss : list string) : texts (map VStr ss) = Ok ss.
Proof.
  induction ss as [|s ss IH]; [reflexivity|].
  cbn [map texts]. rewrite IH. reflexivity.
Qed.

Lemma join_cells_strings (ss : list string) :
  join_cells (map VStr ss) = Ok (Py.join " , " ss).
Proof. unfold join_cells. rewrite texts_strings. reflexivity. Qed.

Lemma strip_all_app (us vs : list value) :
  strip_all (us ++ vs)
  = match strip_all us with
    | Ok ss => match strip_all vs with
               | Ok ts => Ok (ss ++ ts)%list
               | Raise e => Raise e
               end
    | Raise e => Raise e
    end.
Proof.
  induction us as [|u us IH]; cbn [app strip_all].
  - now destruct (strip_all vs).
  - destruct (truthy u); [|exact IH].
    unfold mbind, result_bind. destruct (strip_cell u); [|reflexivity].
    rewrite IH. destruct (strip_all us); [|reflexivity].
    now destruct (strip_all vs).
Qed.

Lemma strip_all_strings (ss : list string) :
  strip_all (map VStr ss)
  = Ok (map Py.strip (List.filter (λ s, negb (s =? "")%string) ss)).
Proof.
  induction ss as [|s ss IH]; [reflexivity|].
  cbn [map strip_all truthy List.filter].
  destruct (negb (s =? "")%string); [|exact IH].
  unfold mbind, result_bind. cbn [strip_cell]. rewrite IH. reflexivity.
Qed.

(** What [strip_all] gives was stripped. *)
Lemma strip_all_stripped (us : list value) (ss : list string) :
  strip_all us = Ok ss → ∀ s, s ∈ ss → Py.strip s = s.
Proof.
  revert ss. induction us as [|u us IH]; intros ss; cbn [strip_all].
  - intros [= <-] s Hs. inversion Hs.
  - destruct (truthy u); [|apply IH].
    unfold mbind, result_bind. destruct u; cbn [strip_cell]; try discriminate.
    destruct (strip_all us) as [ts|]; [|discriminate].
    intros [= <-] t Ht. apply elem_of_cons in Ht as [->|Ht].
    + apply strip_strip.
    + now apply (IH ts).
Qed.


Lemma add_to_dict_queried (f : option (value → pyvals)) (key : value)
    (dic : gmap value (list value)) :
  match f with
  | Some g => _add_to_dict_if_not_empty key (g key) dic
  | None => Ok dic
  end
  = match queried f key with
    | [] => Ok dic
    | vs => if negb (hashable key) then Raise TypeError
            else Ok (<[key := (default [] (dic !! key) ++ vs)%list]> dic)
    end.
Proof.
  unfold queried. destruct f as [g|]; [|reflexivity].
  unfold _add_to_dict_if_not_empty. cbv zeta.
  destruct (as_list (g key)) as [|v vs]; [reflexivity|].
  cbn [length Nat.eqb negb].
  destruct (hashable key); [|reflexivity]. cbn [negb]. f_equal.
  destruct (dic !! key) as [us|] eqn:Hk.
  - now rewrite lookup_total_alt, Hk.
  - now rewrite lookup_total_alt, lookup_insert_eq, insert_insert_eq.
Qed.

Lemma fill_step_empty_field (ord : list string → list string)
    (field : string) (f : option (value → pyvals))
    (d : gmap value (list value)) (t : table_id) (i : nat)
    (c : gmap string value) (p v : value) :
  ord [] = [] →
  c !! Col.phone = Some p → c !! field = Some v → truthy v = false →
  fill_step ord field f d (mkRow t i c)
  = if negb (hashable p) then Raise TypeError
    else
      match strip_all (pending f d p) with
      | Raise e => Raise e
      | Ok ss =>
          match ord ss with
          | [] => Ok (merged_dict ord f d p ss, None)
          | texts =>
              match c !! Col.full_name with
              | None => Raise KeyError
              | Some _ =>
                  Ok (merged_dict ord f d p ss, Some (Py.join " , " texts))
              end
          end
      end.
Proof.
  intros Hord Hp Hv Hfalsy.
  unfold fill_step, merge_for_row, getitem. cbn [row_fields].
  rewrite Hp, Hv. unfold mbind, result_bind. cbv beta iota.
  rewrite Hfalsy.
  rewrite add_to_dict_queried. unfold pending, merged_dict, dict_find.
  destruct (queried f p) as [|u us] eqn:Hq.
  - rewrite app_nil_r.
    destruct (hashable p); [|reflexivity]. cbn [negb].
    destruct (d !! p) as [urls|] eqn:Hd; cbn [default from_option id].
    + destruct (strip_all urls) as [ss|]; [|reflexivity].
      unfold text_to_write. rewrite lookup_insert_eq.
      destruct (ord ss) as [|s ss'] eqn:Hss; [reflexivity|].
      cbn [map]. unfold getitem. cbn [row_fields].
      destruct (c !! Col.full_name); [|reflexivity].
      change (VStr s :: map VStr ss') with (map VStr (s :: ss')).
      rewrite join_cells_strings. reflexivity.
    + cbn [strip_all]. rewrite Hord. unfold text_to_write. rewrite Hd.
      reflexivity.
  - destruct (hashable p); [|reflexivity]. cbn [negb].
    rewrite lookup_insert_eq.
    destruct (strip_all _) as [ss|]; [|reflexivity].
    rewrite insert_insert_eq.
    assert (Hm : match d !! p with
                 | Some _ | _ => <[p:=map VStr (ord ss)]> d
                 end = <[p:=map VStr (ord ss)]> d) by now destruct (d !! p).
    rewrite Hm. unfold text_to_write. rewrite lookup_insert_eq.
    destruct (ord ss) as [|s ss'] eqn:Hss; [reflexivity|].
    cbn [map]. unfold getitem. cbn [row_fields].
    destruct (c !! Col.full_name); [|reflexivity].
    change (VStr s :: map VStr ss') with (map VStr (s :: ss')).
    rewrite join_cells_strings. reflexivity.
Qed.


Lemma fill_row_step (ord : list string → list string) (field : string)
    (f : option (value → pyvals)) (d : gmap value (list value)) (row : Row)
    (w : world) :
  fill_row ord field f d row w
  = match fill_step ord field f d row with
    | Raise e => (Raise e, w)
    | Ok (d', None) => (Ok d', w)
    | Ok (d', Some joined) =>
        (Ok d', (update_row_safe (setitem row field (VStr joined)) w).2)
    end.
Proof.
  unfold fill_row, fill_step, lift, mbind, M_bind, result_bind.
  destruct (merge_for_row ord field f d row) as [[phone d']|e];
    [|reflexivity].
  destruct (text_to_write d' phone row) as [[joined|]|e]; try reflexivity.
  rewrite update_row_safe_spec.
  destruct (refuses w _ _); reflexivity.
Qed.

Lemma select_cons (filters : list Filter) (row : Row) (rows : list Row) :
  select filters (row :: rows)
  = if forallb (filter_matches (row_fields row)) filters
    then row :: select filters rows
    else select filters rows.
Proof. reflexivity. Qed.

Lemma fold_rows_cons {A S : Type} (body : S → A → M S) (x : A) (xs : list A)
    (acc : S) (w : world) :
  fold_rows body (x :: xs) acc w
  = match body acc x w with
    | (Ok acc', w') => fold_rows body xs acc' w'
    | (Raise e, w') => (Raise e, w')
    end.
Proof. reflexivity. Qed.

Lemma fill_loop (ord : list string → list string) (field : string)
    (f : option (value → pyvals)) (cs : list (gmap string value)) :
  ∀ (i : nat) (d : gmap value (list value)) (w : world)
    (pre : list (gmap string value)),
    activists w = (pre ++ cs)%list → length pre = i →
    let w' :=
      (fold_rows (fill_row ord field f)
         (select (fill_filters field false)
            (imap (λ j, mkRow Activists (i + j)) cs)) d w).2 in
    activists w' = (pre ++ walk ord field f (refuses w Activists) i cs d)%list
    ∧ registrations w' = registrations w
    ∧ refuses w' = refuses w.
Proof.
  induction cs as [|c cs IH]; intros i d w pre Hw Hi; cbv zeta.
  - cbn. now rewrite Hw.
  - rewrite imap_cons, Nat.add_0_r.
    rewrite (imap_ext _ (λ j, mkRow Activists (S i + j)))
      by (intros j x _; cbn; f_equal; lia).
    rewrite select_cons. cbn [row_fields walk].
    destruct (forallb (filter_matches c) (fill_filters field false)).
    + rewrite fold_rows_cons, fill_row_step.
      destruct (fill_step ord field f d (mkRow Activists i c))
        as [[d' [joined|]]|e].
      * rewrite update_row_safe_spec. unfold setitem.
        cbn [row_table row_id row_fields].
        destruct (refuses w Activists i) eqn:Hr; cbn [snd].
        -- destruct (IH (S i) d'
                       (record (Printed RemoteError)
                          (record
                             (Refused (mkRow Activists i
                                         (<[field:=VStr joined]> c))) w))
                       (pre ++ [c])%list) as (Ha & Hg & Hf).
           { cbn. now rewrite Hw, <- app_assoc. }
           { rewrite length_app. cbn. lia. }
           rewrite Ha, Hg, Hf, <- app_assoc. repeat split; reflexivity.
        -- destruct (IH (S i) d'
                       (record
                          (Updated (mkRow Activists i
                                      (<[field:=VStr joined]> c)))
                          (store (mkRow Activists i
                                    (<[field:=VStr joined]> c)) w))
                       (pre ++ [<[field:=VStr joined]> c])%list)
             as (Ha & Hg & Hf).
           { cbn. rewrite Hw, <- app_assoc. cbn [app].
             rewrite insert_app_r_alt by lia.
             now rewrite Hi, Nat.sub_diag. }
           { rewrite length_app. cbn. lia. }
           rewrite Ha, Hg, Hf, <- app_assoc. repeat split; reflexivity.
      * destruct (IH (S i) d' w (pre ++ [c])%list) as (Ha & Hg & Hf).
        { now rewrite Hw, <- app_assoc. }
        { rewrite length_app. cbn. lia. }
        rewrite Ha, Hg, Hf, <- app_assoc. done.
      * cbn. now rewrite Hw.
    + destruct (IH (S i) d w (pre ++ [c])%list) as (Ha & Hg & Hf).
      { now rewrite Hw, <- app_assoc. }
      { rewrite length_app. cbn. lia. }
      rewrite Ha, Hg, Hf, <- app_assoc. done.
Qed.


Lemma empty_cell_falsy (v : value) : cell_empty v = true → truthy v = false.
Proof. destruct v; cbn; intros H; now rewrite ?H. Qed.

(** A row that a run with [full_run=False] fetches has a phone, and its
    field is there and empty. *)
Lemma fetched_for_fill (field : string) (c : gmap string value) :
  forallb (filter_matches c) (fill_filters field false) = true →
  ∃ p v, c !! Col.phone = Some p ∧ cell_empty p = false
         ∧ c !! field = Some v ∧ cell_empty v = true.
Proof.
  unfold fill_filters. cbn [forallb]. rewrite !andb_true_iff.
  unfold filter_matches. cbn [filter_field filter_operator].
  intros (Hp & Hv & _).
  destruct (c !! Col.phone) as [p|]; [|discriminate].
  destruct (c !! field) as [v|]; [|discriminate].
  exists p, v. apply negb_true_iff in Hp. done.
Qed.

Lemma not_fetched_when_filled (field : string) (c : gmap string value)
    (t : string) :
  t ≠ "" →
  forallb (filter_matches (<[field := VStr t]> c)) (fill_filters field false)
  = false.
Proof.
  intros Ht. unfold fill_filters. cbn [forallb].
  apply andb_false_iff. right. apply andb_false_iff. left.
  unfold filter_matches. cbn [filter_field filter_operator].
  rewrite lookup_insert_eq. cbn [cell_empty].
  now apply String.eqb_neq.
Qed.

Lemma fetched_again_when_blank (field : string) (c : gmap string value) :
  field ≠ Col.phone →
  forallb (filter_matches c) (fill_filters field false) = true →
  forallb (filter_matches (<[field := VStr ""]> c)) (fill_filters field false)
  = true.
Proof.
  intros Hne. unfold fill_filters. cbn [forallb]. rewrite !andb_true_iff.
  unfold filter_matches. cbn [filter_field filter_operator].
  rewrite lookup_insert_eq, lookup_insert_ne by done.
  intros (Hp & _ & _). done.
Qed.

Lemma never_fetched_phone_field (c : gmap string value) :
  forallb (filter_matches c) (fill_filters Col.phone false) = false.
Proof.
  unfold fill_filters. cbn [forallb]. unfold filter_matches.
  cbn [filter_field filter_operator].
  destruct (c !! Col.phone) as [p|]; [|reflexivity].
  now destruct (cell_empty p).
Qed.

Section Orders.

Variable ord : list string → list string.
Hypothesis ord_perm : ∀ xs, ord xs ≡ₚ remove_dups xs.

Lemma ord_elem (ss : list string) (s : string) : s ∈ ord ss ↔ s ∈ ss.
Proof. now rewrite ord_perm, elem_of_remove_dups. Qed.

Lemma ord_NoDup (ss : list string) : NoDup (ord ss).
Proof. rewrite ord_perm. apply NoDup_remove_dups. Qed.

Lemma ord_nil : ord [] = [].
Proof. apply Permutation_nil_r. now rewrite ord_perm. Qed.

Lemma ord_nil_inv (ss : list string) : ord ss = [] → ss = [].
Proof.
  intros H. destruct ss as [|s ss]; [reflexivity|].
  assert (Hs : s ∈ ord (s :: ss)) by (apply ord_elem; left).
  rewrite H in Hs. inversion Hs.
Qed.

Lemma ord_blank (ss : list string) :
  (∀ s, s ∈ ss → s = "") → ord ss = [] ∨ ord ss = [""].
Proof.
  intros Hall. apply all_empty_once; [apply ord_NoDup|].
  intros s Hs. now apply Hall, ord_elem.
Qed.

End Orders.

Lemma orders_agree_on_blank (ord1 ord2 : list string → list string)
    (ss : list string) :
  (∀ xs, ord1 xs ≡ₚ remove_dups xs) → (∀ xs, ord2 xs ≡ₚ remove_dups xs) →
  (∀ s, s ∈ ss → s = "") → ord1 ss = ord2 ss.
Proof.
  intros H1 H2 Hall.
  destruct (ord_blank ord1 H1 ss Hall) as [E1|E1],
           (ord_blank ord2 H2 ss Hall) as [E2|E2]; rewrite E1, E2; try done.
  - apply (ord_nil_inv ord1 H1) in E1. subst ss.
    rewrite (ord_nil ord2 H2) in E2. discriminate.
  - apply (ord_nil_inv ord2 H2) in E2. subst ss.
    rewrite (ord_nil ord1 H1) in E1. discriminate.
Qed.

(** A text that is not empty was joined from a list with such a text. *)
Lemma joined_text_not_blank (ord : list string → list string)
    (ss : list string) :
  (∀ xs, ord xs ≡ₚ remove_dups xs) →
  Py.join " , " (ord ss) ≠ "" → ∃ s, s ∈ ss ∧ s ≠ "".
Proof.
  intros Hord Hj.
  destruct (decide (Forall (λ s, s = "") ss)) as [Hall|Hex].
  - exfalso. apply Hj, join_empty. apply (ord_blank ord Hord).
    intros s Hs. rewrite Forall_forall in Hall. by apply Hall.
  - apply not_Forall_Exists in Hex; [|solve_decision].
    apply Exists_exists in Hex as (s & Hs & Hne). eauto.
Qed.


Lemma pending_same (f : option (value → pyvals))
    (d d' : gmap value (list value)) (p : value) :
  d !! p = d' !! p → pending f d p = pending f d' p.
Proof. unfold pending. now intros ->. Qed.

Lemma live_same (f : option (value → pyvals))
    (d d' : gmap value (list value)) (p : value) :
  d !! p = d' !! p → live f d p → live f d' p.
Proof. unfold live. intros H. now rewrite (pending_same f d d' p H). Qed.

Lemma merged_dict_other (ord : list string → list string)
    (f : option (value → pyvals)) (d : gmap value (list value))
    (p q : value) (ss : list string) :
  q ≠ p → merged_dict ord f d p ss !! q = d !! q.
Proof.
  intros Hq. unfold merged_dict.
  destruct (d !! p), (queried f p); try reflexivity;
    now rewrite lookup_insert_ne.
Qed.

Lemma merged_dict_same (ord : list string → list string)
    (f : option (value → pyvals)) (d : gmap value (list value))
    (p : value) (ss : list string) :
  merged_dict ord f d p ss !! p
  = match d !! p, queried f p with
    | None, [] => None
    | _, _ => Some (map VStr (ord ss))
    end.
Proof.
  unfold merged_dict.
  destruct (d !! p) eqn:Hd, (queried f p); rewrite ?lookup_insert_eq; done.
Qed.

Lemma alike_refl (f : option (value → pyvals)) (d : gmap value (list value)) :
  alike f d d.
Proof. intros p. now left. Qed.

Lemma alike_at (f : option (value → pyvals))
    (d1 d2 d1' d2' : gmap value (list value)) (p : value) :
  alike f d1 d2 →
  (∀ q, q ≠ p → d1' !! q = d1 !! q) →
  (∀ q, q ≠ p → d2' !! q = d2 !! q) →
  d1' !! p = d2' !! p ∨ (live f d1' p ∧ live f d2' p) →
  alike f d1' d2'.
Proof.
  intros Hd H1 H2 Hp q. destruct (decide (q = p)) as [->|Hq]; [exact Hp|].
  destruct (Hd q) as [Heq|[Hl1 Hl2]].
  - left. now rewrite H1, H2.
  - right. split.
    + apply (live_same f d1); [now rewrite H1 | done].
    + apply (live_same f d2); [now rewrite H2 | done].
Qed.

(** Once a phone has a text that is not empty, it keeps one. *)
Lemma live_merged (ord : list string → list string)
    (f : option (value → pyvals)) (d : gmap value (list value))
    (p : value) (ss : list string) (s : string) :
  (∀ xs, ord xs ≡ₚ remove_dups xs) →
  hashable p = true →
  strip_all (pending f d p) = Ok ss → s ∈ ss → s ≠ "" →
  live f (merged_dict ord f d p ss) p.
Proof.
  intros Hord Hh Hss Hs Hne. split; [exact Hh|].
  assert (Hm : merged_dict ord f d p ss !! p = Some (map VStr (ord ss))).
  { rewrite merged_dict_same. unfold pending in Hss.
    destruct (d !! p); [reflexivity|].
    destruct (queried f p); [|reflexivity].
    cbn in Hss. injection Hss as <-. inversion Hs. }
  unfold pending. rewrite Hm. cbn [default from_option id].
  rewrite strip_all_app, strip_all_strings.
  pose proof (strip_all_stripped _ _ Hss s Hs) as Hstrip.
  unfold pending in Hss. rewrite strip_all_app in Hss.
  destruct (strip_all (default [] (d !! p))) as [us|]; [|discriminate].
  destruct (strip_all (queried f p)) as [ts|]; [|discriminate].
  eexists. split; [reflexivity|]. exists s. split; [|exact Hne].
  apply elem_of_app. left.
  apply list_elem_of_In, in_map_iff. exists s. split; [exact Hstrip|].
  apply filter_In. split.
  - apply list_elem_of_In, (ord_elem ord Hord), Hs.
  - apply negb_true_iff. now apply String.eqb_neq.
Qed.

Lemma walk_cons (ord : list string → list string) (field : string)
    (f : option (value → pyvals)) (refuse : nat → bool) (i : nat)
    (c : gmap string value) (cs : list (gmap string value))
    (d : gmap value (list value)) :
  walk ord field f refuse i (c :: cs) d
  = if forallb (filter_matches c) (fill_filters field false)
    then
      match fill_step ord field f d (mkRow Activists i c) with
      | Raise _ => c :: cs
      | Ok (d', None) => c :: walk ord field f refuse (S i) cs d'
      | Ok (d', Some joined) =>
          (if refuse i then c else <[field := VStr joined]> c)
          :: walk ord field f refuse (S i) cs d'
      end
    else c :: walk ord field f refuse (S i) cs d.
Proof. reflexivity. Qed.

Lemma walk_fetched (ord : list string → list string) (field : string)
    (f : option (value → pyvals)) (refuse : nat → bool) (i : nat)
    (c : gmap string value) (cs : list (gmap string value))
    (d : gmap value (list value)) (p v : value) :
  (∀ xs, ord xs ≡ₚ remove_dups xs) →
  forallb (filter_matches c) (fill_filters field false) = true →
  c !! Col.phone = Some p → c !! field = Some v → cell_empty v = true →
  walk ord field f refuse i (c :: cs) d
  = if negb (hashable p) then c :: cs
    else
      match strip_all (pending f d p) with
      | Raise _ => c :: cs
      | Ok ss =>
          match ord ss with
          | [] => c :: walk ord field f refuse (S i) cs
                         (merged_dict ord f d p ss)
          | texts =>
              match c !! Col.full_name with
              | None => c :: cs
              | Some _ =>
                  (if refuse i then c
                   else <[field := VStr (Py.join " , " texts)]> c)
                  :: walk ord field f refuse (S i) cs
                       (merged_dict ord f d p ss)
              end
          end
      end.
Proof.
  intros Hord Hm Hp Hv He. rewrite walk_cons, Hm.
  rewrite (fill_step_empty_field ord field f d Activists i c p v
             (ord_nil ord Hord) Hp Hv (empty_cell_falsy v He)).
  destruct (negb (hashable p)); [reflexivity|].
  destruct (strip_all (pending f d p)) as [ss|]; [|reflexivity].
  destruct (ord ss); [reflexivity|].
  destruct (c !! Col.full_name); reflexivity.
Qed.

Section Twice.

Variables ord1 ord2 : list string → list string.
Hypothesis ord1_perm : ∀ xs, ord1 xs ≡ₚ remove_dups xs.
Hypothesis ord2_perm : ∀ xs, ord2 xs ≡ₚ remove_dups xs.
Variable field : string.
Variable f : option (value → pyvals).
Variable refuse : nat → bool.

Lemma alike_merged (d1 d2 : gmap value (list value)) (p : value)
    (ss1 ss2 : list string) :
  alike f d1 d2 →
  hashable p = true →
  strip_all (pending f d1 p) = Ok ss1 →
  strip_all (pending f d2 p) = Ok ss2 →
  alike f (merged_dict ord1 f d1 p ss1) (merged_dict ord2 f d2 p ss2).
Proof.
  intros Hd Hh Hs1 Hs2.
  apply (alike_at f d1 d2 _ _ p Hd);
    [intros q Hq; now apply merged_dict_other
    |intros q Hq; now apply merged_dict_other|].
  destruct (Hd p) as [Heq|[L1 L2]].
  - rewrite (pending_same f d1 d2 p Heq), Hs2 in Hs1.
    injection Hs1 as <-.
    destruct (decide (Forall (λ s, s = "") ss2)) as [Hall|Hex].
    + left. rewrite !merged_dict_same, Heq.
      rewrite (orders_agree_on_blank ord1 ord2 ss2 ord1_perm ord2_perm);
        [reflexivity|].
      intros s Hs. rewrite Forall_forall in Hall. by apply Hall.
    + apply not_Forall_Exists in Hex; [|solve_decision].
      apply Exists_exists in Hex as (s & Hs & Hne). right. split.
      * apply (live_merged ord1 f d1 p ss2 s); try done.
        now rewrite (pending_same f d1 d2 p Heq).
      * now apply (live_merged ord2 f d2 p ss2 s).
  - right.
    destruct L1 as (_ & ss1' & Hs1' & s1 & Hin1 & Hne1).
    destruct L2 as (_ & ss2' & Hs2' & s2 & Hin2 & Hne2).
    rewrite Hs1 in Hs1'. injection Hs1' as <-.
    rewrite Hs2 in Hs2'. injection Hs2' as <-. split.
    + now apply (live_merged ord1 f d1 p ss1 s1).
    + now apply (live_merged ord2 f d2 p ss2 s2).
Qed.

(** What the second run reads for a phone, from what the first read. *)
Lemma second_reads (d1 d2 : gmap value (list value)) (p : value)
    (ss1 : list string) :
  alike f d1 d2 →
  strip_all (pending f d1 p) = Ok ss1 →
  ∃ ss2, strip_all (pending f d2 p) = Ok ss2
         ∧ (ss1 = [] → ss2 = [])
         ∧ (ss1 ≠ [] → ss2 ≠ [])
         ∧ ((∀ s, s ∈ ss1 → s = "") → ss2 = ss1).
Proof.
  intros Hd Hs1. destruct (Hd p) as [Heq|[L1 L2]].
  - exists ss1. rewrite <- (pending_same f d1 d2 p Heq). done.
  - destruct L1 as (_ & ss1' & Hs1' & s1 & Hin1 & Hne1).
    destruct L2 as (_ & ss2 & Hs2 & s2 & Hin2 & Hne2).
    rewrite Hs1 in Hs1'. injection Hs1' as <-.
    exists ss2. split; [exact Hs2|]. split; [|split].
    + intros ->. inversion Hin1.
    + intros _ ->. inversion Hin2.
    + intros Hall. now apply Hall in Hin1.
Qed.

Lemma second_fails (d1 d2 : gmap value (list value)) (p : value) (e : exn) :
  alike f d1 d2 →
  strip_all (pending f d1 p) = Raise e →
  strip_all (pending f d2 p) = Raise e.
Proof.
  intros Hd Hs1. destruct (Hd p) as [Heq|[L1 _]].
  - now rewrite <- (pending_same f d1 d2 p Heq).
  - destruct L1 as (_ & ss & Hs & _). rewrite Hs in Hs1. discriminate.
Qed.

Lemma walk_twice (cs : list (gmap string value)) :
  field ≠ Col.phone →
  ∀ (i : nat) (d1 d2 : gmap value (list value)),
    alike f d1 d2 →
    walk ord2 field f refuse i (walk ord1 field f refuse i cs d1) d2
    = walk ord1 field f refuse i cs d1.
Proof.
  intros Hfield. induction cs as [|c cs IH]; intros i d1 d2 Hd;
    [reflexivity|].
  destruct (forallb (filter_matches c) (fill_filters field false)) eqn:Hm.
  2:{ rewrite (walk_cons ord1), Hm, (walk_cons ord2), Hm. f_equal.
      now apply IH. }
  destruct (fetched_for_fill field c Hm) as (p & v & Hp & _ & Hv & He).
  rewrite (walk_fetched ord1 field f refuse i c cs d1 p v ord1_perm
               Hm Hp Hv He).
  destruct (hashable p) eqn:Hh; cbn [negb].
  2:{ rewrite (walk_fetched ord2 field f refuse i _ cs d2 p v ord2_perm
               Hm Hp Hv He), Hh. reflexivity. }
  destruct (strip_all (pending f d1 p)) as [ss1|e] eqn:Hs1.
  2:{ rewrite (walk_fetched ord2 field f refuse i _ cs d2 p v ord2_perm
               Hm Hp Hv He), Hh. cbn [negb].
      now rewrite (second_fails d1 d2 p e Hd Hs1). }
  destruct (second_reads d1 d2 p ss1 Hd Hs1)
    as (ss2 & Hs2 & Hnil & Hcons & Hblank).
  pose proof (alike_merged d1 d2 p ss1 ss2 Hd Hh Hs1 Hs2) as Hd'.
  destruct (ord1 ss1) as [|s0 l] eqn:Ho1.
  { rewrite (walk_fetched ord2 field f refuse i _ _ d2 p v ord2_perm
               Hm Hp Hv He), Hh. cbn [negb].
    rewrite Hs2, (Hnil (ord_nil_inv ord1 ord1_perm ss1 Ho1)).
    rewrite (ord_nil ord2 ord2_perm). f_equal.
    rewrite <- (Hnil (ord_nil_inv ord1 ord1_perm ss1 Ho1)). now apply IH. }
  assert (Hne1 : ss1 ≠ []).
  { intros ->. rewrite (ord_nil ord1 ord1_perm) in Ho1. discriminate. }
  assert (Ho2 : ord2 ss2 ≠ []).
  { intros Ho2. now apply (ord_nil_inv ord2 ord2_perm), Hcons in Ho2. }
  destruct (c !! Col.full_name) as [name|] eqn:Hname.
  2:{ rewrite (walk_fetched ord2 field f refuse i _ cs d2 p v ord2_perm
               Hm Hp Hv He), Hh. cbn [negb].
      rewrite Hs2. destruct (ord2 ss2); [done|]. now rewrite Hname. }
  destruct (refuse i) eqn:Hr.
  { rewrite (walk_fetched ord2 field f refuse i _ _ d2 p v ord2_perm
               Hm Hp Hv He), Hh. cbn [negb].
    rewrite Hs2. destruct (ord2 ss2); [done|]. rewrite Hname, Hr.
    f_equal. now apply IH. }
  destruct (decide (Py.join " , " (s0 :: l) = "")) as [Hj|Hj].
  - (* the first run wrote the empty text: the row is fetched again *)
    assert (Hall : ∀ s, s ∈ ss1 → s = "").
    { intros s Hs. apply (ord_elem ord1 ord1_perm) in Hs.
      rewrite Ho1 in Hs. apply join_empty in Hj as [Hj|Hj];
        [discriminate|]. rewrite Hj in Hs.
      apply list_elem_of_singleton in Hs. exact Hs. }
    rewrite Hj.
    rewrite (walk_fetched ord2 field f refuse i _ _ d2 p (VStr "") ord2_perm
               (fetched_again_when_blank field c Hfield Hm)).
    2:{ now rewrite lookup_insert_ne. }
    2:{ now rewrite lookup_insert_eq. }
    2:{ reflexivity. }
    rewrite Hh. cbn [negb]. rewrite Hs2, (Hblank Hall).
    rewrite <- (orders_agree_on_blank ord1 ord2 ss1 ord1_perm ord2_perm Hall).
    rewrite Ho1.
    assert (Hname' : is_Some (<[field:=VStr ""]> c !! Col.full_name)).
    { destruct (decide (field = Col.full_name)) as [->|Hn].
      - rewrite lookup_insert_eq. eauto.
      - rewrite lookup_insert_ne by done. eauto. }
    destruct Hname' as [name' ->]. rewrite Hr, Hj, insert_insert_eq.
    f_equal. apply IH.
    rewrite (Hblank Hall) in Hd'.
    unfold merged_dict in Hd' |- *.
    rewrite <- (orders_agree_on_blank ord1 ord2 ss1 ord1_perm ord2_perm Hall)
      in Hd' |- *.
    exact Hd'.
  - (* the first run filled the row: the second does not fetch it *)
    rewrite (walk_cons ord2),
      (not_fetched_when_filled field c _ Hj). f_equal. apply IH.
    destruct (joined_text_not_blank ord1 ss1 ord1_perm) as (s & Hs & Hsne).
    { now rewrite Ho1. }
    apply (alike_at f d1 d2 _ _ p Hd);
      [intros q Hq; now apply merged_dict_other | done |].
    right. split.
    + now apply (live_merged ord1 f d1 p ss1 s).
    + destruct (Hd p) as [Heq|[_ L2]]; [|exact L2].
      apply (live_same f d1 d2 p Heq). split; [exact Hh|]. eauto.
Qed.

End Twice.

Lemma walk_phone_field (ord : list string → list string)
    (f : option (value → pyvals)) (refuse : nat → bool)
    (cs : list (gmap string value)) :
  ∀ (i : nat) (d : gmap value (list value)),
    walk ord Col.phone f refuse i cs d = cs.
Proof.
  induction cs as [|c cs IH]; intros i d; [reflexivity|].
  rewrite walk_cons, never_fetched_phone_field. f_equal. apply IH.
Qed.

(** The target table after a run with [full_run=False]. *)
Lemma fill_activists (ord : list string → list string)
    (registration_field field : string) (f : option (value → pyvals))
    (w : world) :
  let w' :=
    (_fill_field_from_registration_to_activists ord registration_field field
       f false w).2 in
  activists w'
  = match _build_phone_to_field_dict_from_table_rows registration_field
            (rows_of Registrations (registrations w)) with
    | Ok d => walk ord field f (refuses w Activists) 0 (activists w) d
    | Raise _ => activists w
    end
  ∧ registrations w' = registrations w
  ∧ refuses w' = refuses w.
Proof.
  cbv zeta. unfold _fill_field_from_registration_to_activists, get_rows, lift.
  unfold mbind, M_bind. rewrite select_all.
  change (table (record (Fetched Registrations []) w) Activists)
    with (activists w).
  change (table w Registrations) with (registrations w).
  destruct (_build_phone_to_field_dict_from_table_rows _ _) as [d|e];
    [|done].
  destruct (fill_loop ord field f (activists w) 0 d
              (record (Fetched Activists (fill_filters field false))
                 (record (Fetched Registrations []) w)) [])
    as (Ha & Hg & Hf); [reflexivity | reflexivity |].
  cbv zeta in Ha, Hg, Hf. unfold rows_of.
  destruct (fold_rows _ _ _ _) as [[u|e] w'] eqn:Hrun;
    unfold mret, M_ret; cbn [snd] in *; rewrite Ha, Hg, Hf; done.
Qed.

(** Running the fill a second time with [full_run=False], when the source
    table did not change and the service refuses the same rows: the second
    run leaves every cell of the target table as the first left it,
    whatever order each run reads its sets in. *)
Theorem fill_twice_same_table (ord1 ord2 : list string → list string)
    (registration_field activists_field : string)
    (additional_query_function : option (value → pyvals)) (w : world) :
  (∀ xs, ord1 xs ≡ₚ remove_dups xs) →
  (∀ xs, ord2 xs ≡ₚ remove_dups xs) →
  let once :=
    (_fill_field_from_registration_to_activists ord1 registration_field
       activists_field additional_query_function false w).2 in
  let twice :=
    (_fill_field_from_registration_to_activists ord2 registration_field
       activists_field additional_query_function false once).2 in
  activists twice = activists once
  ∧ registrations twice = registrations w.
Proof.
  intros H1 H2 once twice.
  destruct (fill_activists ord1 registration_field activists_field
              additional_query_function w) as (Ha1 & Hg1 & Hf1).
  destruct (fill_activists ord2 registration_field activists_field
              additional_query_function once) as (Ha2 & Hg2 & Hf2).
  fold once in Ha1, Hg1, Hf1. fold twice in Ha2, Hg2, Hf2.
  split; [|now rewrite Hg2, Hg1].
  rewrite Ha2, Hg1, Hf1.
  destruct (_build_phone_to_field_dict_from_table_rows _ _) as [d|e];
    [|reflexivity].
  rewrite Ha1.
  destruct (decide (activists_field = Col.phone)) as [->|Hfield].
  - now rewrite !walk_phone_field.
  - apply walk_twice; [exact H1 | exact H2 | exact Hfield | apply alike_refl].
Qed.

Lemma fill_twice_same_table_witness :
  let once :=
    (_fill_field_from_registration_to_activists remove_dups
       Col.email_registration Col.email None false Scenario.shared_phone).2 in
  let twice :=
    (_fill_field_from_registration_to_activists remove_dups
       Col.email_registration Col.email None false once).2 in
  activists twice = activists once
  ∧ registrations twice = registrations Scenario.shared_phone.
Proof.
  apply (fill_twice_same_table remove_dups remove_dups
           Col.email_registration Col.email None Scenario.shared_phone);
    intros xs; reflexivity.
Defined.

(** The two activists of the shared phone get both addresses, the third
    keeps its own. *)
Example fill_emails_on_shared_phone :
  activists
    (fill_emails_from_registration_to_activist remove_dups false
       Scenario.shared_phone).2
  = [ {[ Col.phone := VStr "0501"; Col.email := VStr "d@x.il , dana@x.il";
         Col.full_name := VStr "Dana" ]};
      {[ Col.phone := VStr "0501"; Col.email := VStr "d@x.il , dana@x.il";
         Col.full_name := VStr "Dan" ]};
      {[ Col.phone := VStr "0502"; Col.email := VStr "r@x.il";
         Col.full_name := VStr "Ron" ]} ].
Proof. vm_compute. reflexivity. Qed.


(** ** The linker on a service that accepts the recruitment updates *)

Lemma recruitment_phones_loop (rows : list Row) :
  Forall (λ r, is_Some (trimmed_phone (row_fields r))) rows →
  ∀ (i : nat) (d : gmap string nat),
    ∃ d',
      for_each
        (λ (d : gmap string nat) (ir : nat * Row),
           v ← getitem ir.2 Col.raw_phone;
           k ← strip_cell v;
           Ok (<[k := ir.1]> d))
        (imap (λ j, pair (i + j)%nat) rows) d = Ok d'
      ∧ (∀ s, is_Some (d' !! s)
              ↔ is_Some (d !! s) ∨ recruited (map row_fields rows) s = true)
      ∧ (∀ s k, d' !! s = Some k →
                d !! s = Some k ∨ (k < i + length rows)%nat).
Proof.
  induction 1 as [|r rows [t Ht] _ IH]; intros i d.
  - exists d. split; [reflexivity|]. split; [|eauto].
    intros s. cbn. split; [eauto | intros [?|?]; [done|discriminate]].
  - rewrite imap_cons, Nat.add_0_r.
    rewrite (imap_ext _ (λ j, pair (S i + j)%nat))
      by (intros j x _; cbn; f_equal; lia).
    cbn [for_each]. unfold getitem. cbn [snd fst].
    assert (∃ u, row_fields r !! Col.raw_phone = Some (VStr u)
                 ∧ t = Py.strip u) as (u & Hr & ->).
    { unfold trimmed_phone in Ht.
      destruct (row_fields r !! Col.raw_phone) as [[|u| |]|];
        try discriminate.
      injection Ht as <-. eauto. }
    assert (Htp : trimmed_phone (row_fields r) = Some (Py.strip u)).
    { unfold trimmed_phone. now rewrite Hr. }
    rewrite Hr.
    unfold mbind at 1 2, result_bind at 1 2. cbn [strip_cell].
    destruct (IH (S i) (<[Py.strip u := i]> d)) as (d' & Hrun & Hdom & Hval).
    exists d'. split; [exact Hrun|]. split.
    + intros s. rewrite Hdom. cbn [map recruited existsb].
      destruct (decide (Py.strip u = s)) as [<-|Hne].
      * rewrite lookup_insert_eq, bool_decide_eq_true_2 by done.
        cbn [orb]. split; intros _; [now right | left; eauto].
      * rewrite lookup_insert_ne by done.
        rewrite bool_decide_eq_false_2 by (rewrite Htp; congruence).
        cbn [orb]. done.
    + intros s k Hk. apply Hval in Hk as [Hk|Hk]; [|right; cbn; lia].
      destruct (decide (Py.strip u = s)) as [<-|Hne].
      * rewrite lookup_insert_eq in Hk. injection Hk as <-. right. cbn. lia.
      * rewrite lookup_insert_ne in Hk by done. now left.
Qed.

Lemma row_fields_imap (t : table_id) (cs : list (gmap string value)) :
  ∀ i, map row_fields (imap (λ j, mkRow t (i + j)) cs) = cs.
Proof.
  induction cs as [|c cs IH]; intros i; [reflexivity|].
  rewrite imap_cons. cbn [map row_fields]. f_equal.
  rewrite (imap_ext _ (λ j, mkRow t (S i + j)))
    by (intros j x _; cbn; f_equal; lia).
  apply IH.
Qed.

Lemma row_fields_rows_of (t : table_id) (cs : list (gmap string value)) :
  map row_fields (rows_of t cs) = cs.
Proof. exact (row_fields_imap t cs 0). Qed.

Lemma phone_filter_matches (c : gmap string value) :
  forallb (filter_matches c) [mkFilter Col.phone "" not_empty]
  = match c !! Col.phone with
    | Some p => negb (cell_empty p)
    | None => false
    end.
Proof.
  cbn [forallb]. unfold filter_matches. cbn [filter_field filter_operator].
  destruct (c !! Col.phone); [apply andb_true_r | reflexivity].
Qed.

Section Link.

Variable recs : list (gmap string value).
Variable d : gmap string nat.
Variable n : nat.
Hypothesis d_keys : ∀ s, is_Some (d !! s) ↔ recruited recs s = true.
Hypothesis d_values : ∀ s k, d !! s = Some k → (k < n)%nat.

(** One activist with a phone, on a service that accepts the update of the
    recruitment row. *)
Lemma link_row_marks (rrows : list Row) (i : nat) (c : gmap string value)
    (p : value) (w : world) :
  c !! Col.phone = Some p → hashable p = true →
  length rrows = n → Forall (λ r, row_table r = Recruitment) rrows →
  (∀ j, refuses w Recruitment j = false) →
  ∃ rrows' w',
    link_row d rrows (mkRow Activists i c) w = (Ok rrows', w')
    ∧ length rrows' = n
    ∧ Forall (λ r, row_table r = Recruitment) rrows'
    ∧ activists w'
      = (if refuses w Activists i then activists w
         else <[i := <[Col.candidate := VStr (mark_of recs p)]> c]>
                (activists w))
    ∧ registrations w' = registrations w
    ∧ refuses w' = refuses w.
Proof.
  intros Hp Hh Hlen Htab Hacc.
  unfold link_row, getitem, lift. cbn [row_fields]. rewrite Hp.
  unfold mbind at 1, M_bind at 1.
  assert (Hfind : find_phone d p
                  = Ok (match p with VStr s => d !! s | _ => None end)).
  { destruct p; try reflexivity. discriminate. }
  rewrite Hfind. unfold mbind at 1, M_bind at 1.
  destruct (match p with VStr s => d !! s | _ => None end) as [k|] eqn:Hk.
  - assert (∃ s, p = VStr s ∧ d !! s = Some k) as (s & -> & Hs).
    { destruct p; try discriminate. eauto. }
    assert (Hmark : mark_of recs (VStr s) = Col.yes).
    { cbn [mark_of]. assert (Hr : recruited recs s = true)
        by (apply d_keys; eauto). now rewrite Hr. }
    destruct (lookup_lt_is_Some_2 rrows k) as [rr Hrr].
    { rewrite Hlen. eapply d_values, Hs. }
    rewrite Hrr.
    assert (Hrt : row_table rr = Recruitment).
    { eapply Forall_lookup_1 in Htab; [exact Htab | exact Hrr]. }
    unfold mbind, M_bind, update, setitem.
    cbn [row_table row_id row_fields]. rewrite Hrt, Hacc.
    rewrite update_row_safe_spec. unfold store.
    cbn [row_table row_id row_fields refuses record]. rewrite Hmark.
    destruct (refuses w Activists i); eexists _, _;
      (split; [reflexivity|]);
      (split; [now rewrite length_insert|]);
      (split; [apply Forall_insert; [exact Htab | reflexivity]|]);
      cbn; repeat split; reflexivity.
  - assert (Hmark : mark_of recs p = Col.no).
    { destruct p; try reflexivity. cbn [mark_of].
      destruct (recruited recs s) eqn:Hr; [|reflexivity].
      apply d_keys in Hr as [k Hs]. congruence. }
    unfold mbind, M_bind. rewrite update_row_safe_spec.
    unfold setitem. cbn [row_table row_id row_fields].
    rewrite Hmark.
    destruct (refuses w Activists i); eexists _, _;
      (split; [reflexivity|]); cbn; repeat split; done.
Qed.

Lemma link_loop (cs : list (gmap string value)) :
  Forall (λ c, ∀ p, c !! Col.phone = Some p → hashable p = true) cs →
  ∀ (i : nat) (rrows : list Row) (w : world)
    (pre : list (gmap string value)),
    activists w = (pre ++ cs)%list → length pre = i →
    length rrows = n → Forall (λ r, row_table r = Recruitment) rrows →
    (∀ j, refuses w Recruitment j = false) →
    ∃ rrows' w',
      fold_rows (link_row d)
        (select [mkFilter Col.phone "" not_empty]
           (imap (λ j, mkRow Activists (i + j)) cs)) rrows w
      = (Ok rrows', w')
      ∧ activists w'
        = (pre ++ imap (λ j, marked recs (refuses w Activists) (i + j)) cs)%list
      ∧ registrations w' = registrations w.
Proof.
  induction 1 as [|c cs Hc _ IH]; intros i rrows w pre Hw Hi Hlen Htab Hacc.
  - exists rrows, w. cbn. now rewrite Hw.
  - rewrite !imap_cons, Nat.add_0_r.
    rewrite (imap_ext _ (λ j, mkRow Activists (S i + j)))
      by (intros j x _; cbn; f_equal; lia).
    rewrite (imap_ext (_ ∘ S)
               (λ j, marked recs (refuses w Activists) (S i + j)))
      by (intros j x _; cbn; f_equal; lia).
    rewrite select_cons. cbn [row_fields]. rewrite phone_filter_matches.
    unfold marked at 1.
    destruct (c !! Col.phone) as [p|] eqn:Hp.
    2:{ destruct (IH (S i) rrows w (pre ++ [c])%list)
          as (rrows' & w' & Hrun & Ha & Hg); try done.
        { now rewrite Hw, <- app_assoc. }
        { rewrite length_app. cbn. lia. }
        exists rrows', w'. now rewrite Hrun, Ha, <- app_assoc. }
    destruct (cell_empty p) eqn:He; cbn [negb orb].
    { destruct (IH (S i) rrows w (pre ++ [c])%list)
        as (rrows' & w' & Hrun & Ha & Hg); try done.
      { now rewrite Hw, <- app_assoc. }
      { rewrite length_app. cbn. lia. }
      exists rrows', w'. now rewrite Hrun, Ha, <- app_assoc. }
    rewrite fold_rows_cons.
    destruct (link_row_marks rrows i c p w Hp (Hc p eq_refl) Hlen Htab Hacc)
      as (rrows1 & w1 & Hrow & Hlen1 & Htab1 & Ha1 & Hg1 & Hf1).
    rewrite Hrow.
    destruct (IH (S i) rrows1 w1
                (pre ++ [if refuses w Activists i then c
                         else <[Col.candidate := VStr (mark_of recs p)]> c])%list)
      as (rrows' & w' & Hrun & Ha & Hg); try done.
    { rewrite Ha1, Hw. destruct (refuses w Activists i).
      - now rewrite <- app_assoc.
      - rewrite <- app_assoc. cbn [app].
        rewrite insert_app_r_alt by lia. now rewrite Hi, Nat.sub_diag. }
    { rewrite length_app. cbn. lia. }
    { intros j. now rewrite Hf1. }
    exists rrows', w'. rewrite Hrun, Ha, Hg, Hg1, Hf1, <- app_assoc. done.
Qed.

End Link.

(** The linker on a service that accepts every update of a recruitment
    row, when every recruitment row has a text as its phone and no activist
    has a list as its phone.  The call returns; every activist whose phone
    is not empty gets the mark [Col.yes] when its phone, as it stands,
    equals the trimmed phone of some recruitment row and the mark [Col.no]
    otherwise, or is left as it was when its own update is refused; the
    activists without a phone and the registrations are left as they
    were. *)
Theorem link_marks_activists (w : world) :
  Forall (λ c, is_Some (trimmed_phone c)) (recruitment w) →
  Forall (λ c, ∀ p, c !! Col.phone = Some p → hashable p = true)
         (activists w) →
  (∀ j, refuses w Recruitment j = false) →
  (link_activists_and_recruitments w).1 = Ok tt
  ∧ activists (link_activists_and_recruitments w).2
    = imap (marked (recruitment w) (refuses w Activists)) (activists w)
  ∧ registrations (link_activists_and_recruitments w).2 = registrations w.
Proof.
  intros Hrec Hact Hacc.
  enough (∃ w', link_activists_and_recruitments w = (Ok tt, w')
                ∧ activists w'
                  = imap (marked (recruitment w) (refuses w Activists))
                         (activists w)
                ∧ registrations w' = registrations w)
    as (w' & -> & Ha & Hg) by done.
  unfold link_activists_and_recruitments, get_rows, lift.
  unfold mbind at 1 2 3, M_bind at 1 2 3. rewrite select_all.
  change (table w Recruitment) with (recruitment w).
  change (table (record (Fetched Recruitment []) w) Activists)
    with (activists w).
  destruct (recruitment_phones_loop (rows_of Recruitment (recruitment w)))
    with (i := 0%nat) (d := (∅ : gmap string nat))
    as (d & Hrun & Hkeys & Hvals).
  { unfold rows_of. apply Forall_lookup_2. intros i r Hr.
    apply list_lookup_imap_Some in Hr as (c & Hc & ->). cbn [row_fields].
    eapply Forall_lookup_1 in Hrec; [exact Hrec | exact Hc]. }
  rewrite row_fields_rows_of in Hkeys.
  unfold recruitment_phones_of.
  change (imap pair (rows_of Recruitment (recruitment w)))
    with (imap (λ j, pair (0 + j)%nat) (rows_of Recruitment (recruitment w))).
  rewrite Hrun.
  destruct (link_loop (recruitment w) d (length (recruitment w)))
    with (cs := activists w) (i := 0%nat)
         (rrows := rows_of Recruitment (recruitment w))
         (w := record (Fetched Activists [mkFilter Col.phone "" not_empty])
                 (record (Fetched Recruitment []) w))
         (pre := @nil (gmap string value))
    as (rrows' & w' & Hloop & Ha & Hg); try done.
  - intros s. rewrite Hkeys, lookup_empty. split; [|eauto].
    intros [[? [=]]|?]; done.
  - intros s k Hk. apply Hvals in Hk as [Hk|Hk].
    + now rewrite lookup_empty in Hk.
    + unfold rows_of in Hk. now rewrite length_imap in Hk.
  - unfold rows_of. now rewrite length_imap.
  - unfold rows_of. apply Forall_lookup_2. intros i r Hr.
    apply list_lookup_imap_Some in Hr as (c & Hc & ->). reflexivity.
  - unfold rows_of in Hloop |- *.
    change (imap (mkRow Activists) (activists w))
      with (imap (λ j, mkRow Activists (0 + j)) (activists w)).
    unfold mbind, M_bind. rewrite Hloop. exists w'. done.
Qed.

Lemma link_marks_activists_witness :
  let w := Scenario.link_tables Scenario.refuses_activist0 in
  (link_activists_and_recruitments w).1 = Ok tt
  ∧ activists (link_activists_and_recruitments w).2
    = imap (marked (recruitment w) (refuses w Activists)) (activists w)
  ∧ registrations (link_activists_and_recruitments w).2 = registrations w.
Proof.
  apply (link_marks_activists
           (Scenario.link_tables Scenario.refuses_activist0)).
  - repeat constructor. vm_compute. eauto.
  - repeat constructor; intros p Hp; vm_compute in Hp; injection Hp as <-;
      reflexivity.
  - intros j. now destruct j.
Defined.


(** ** Loops over the fetched activists *)

(** A loop whose body returns and rewrites at most the cells of its own
    row: the table afterwards, row by row. *)
Lemma for_rows_activists (body : Row → M unit) (filters : list Filter)
    (g : nat → gmap string value → gmap string value)
    (ready : gmap string value → Prop) (refuse : table_id → nat → bool) :
  (∀ i c w pre post,
     forallb (filter_matches c) filters = true → ready c →
     refuses w = refuse →
     activists w = (pre ++ c :: post)%list → length pre = i →
     ∃ w', body (mkRow Activists i c) w = (Ok tt, w')
           ∧ activists w' = (pre ++ g i c :: post)%list
           ∧ refuses w' = refuse
           ∧ registrations w' = registrations w
           ∧ recruitment w' = recruitment w) →
  ∀ cs,
    Forall (λ c, forallb (filter_matches c) filters = true → ready c) cs →
    ∀ i w pre,
      activists w = (pre ++ cs)%list → length pre = i →
      refuses w = refuse →
      ∃ w',
        for_rows body
          (select filters (imap (λ j, mkRow Activists (i + j)) cs)) w
        = (Ok tt, w')
        ∧ activists w'
          = (pre ++ imap (λ j c, if forallb (filter_matches c) filters
                                 then g (i + j)%nat c else c) cs)%list
        ∧ registrations w' = registrations w
        ∧ recruitment w' = recruitment w.
Proof.
  intros Hbody. induction 1 as [|c cs Hc _ IH]; intros i w pre Hw Hi Hr.
  - exists w. cbn. now rewrite Hw.
  - rewrite !imap_cons, Nat.add_0_r.
    rewrite (imap_ext _ (λ j, mkRow Activists (S i + j)))
      by (intros j x _; cbn; f_equal; lia).
    rewrite (imap_ext (_ ∘ S)
               (λ j c, if forallb (filter_matches c) filters
                       then g (S i + j)%nat c else c))
      by (intros j x _; cbn; now rewrite Nat.add_succ_r).
    rewrite select_cons. cbn [row_fields].
    destruct (forallb (filter_matches c) filters) eqn:Hm.
    + destruct (Hbody i c w pre cs Hm (Hc eq_refl) Hr Hw Hi)
        as (w1 & Hrow & Ha1 & Hr1 & Hg1 & Hc1).
      cbn [for_rows]. unfold mbind, M_bind. rewrite Hrow.
      destruct (IH (S i) w1 (pre ++ [g i c])%list)
        as (w' & Hrun & Ha & Hg & Hrec); try done.
      { now rewrite Ha1, <- app_assoc. }
      { rewrite length_app. cbn. lia. }
      exists w'. rewrite Hrun, Ha, Hg, Hrec, Hg1, Hc1, <- app_assoc. done.
    + destruct (IH (S i) w (pre ++ [c])%list)
        as (w' & Hrun & Ha & Hg & Hrec); try done.
      { now rewrite Hw, <- app_assoc. }
      { rewrite length_app. cbn. lia. }
      exists w'. rewrite Hrun, Ha, <- app_assoc. done.
Qed.

(** An update through [update_row_safe] of the activist at position [i]. *)
Lemma update_row_safe_at (i : nat) (c c' : gmap string value) (w : world)
    (pre post : list (gmap string value)) :
  activists w = (pre ++ c :: post)%list → length pre = i →
  ∃ w', update_row_safe (mkRow Activists i c') w = (Ok tt, w')
        ∧ activists w'
          = (pre ++ (if refuses w Activists i then c else c') :: post)%list
        ∧ refuses w' = refuses w
        ∧ registrations w' = registrations w
        ∧ recruitment w' = recruitment w.
Proof.
  intros Hw Hi. rewrite update_row_safe_spec. cbn [row_table row_id].
  destruct (refuses w Activists i); eexists; (split; [reflexivity|]).
  - cbn. now rewrite Hw.
  - unfold store. cbn. rewrite Hw, insert_app_r_alt by lia.
    now rewrite Hi, Nat.sub_diag.
Qed.

(** ** The validation of IDs, row by row *)

Lemma validate_ids_row_marks (refuse : table_id → nat → bool) (i : nat)
    (c : gmap string value) (w : world)
    (pre post : list (gmap string value)) :
  forallb (filter_matches c) validate_filters = true →
  (is_Some (c !! Col.full_name)
   ∧ ∀ id_num e, c !! Col.id_number = Some id_num →
                 control_digit_of_cell id_num = Raise e →
                 e = AssertionError) →
  refuses w = refuse →
  activists w = (pre ++ c :: post)%list → length pre = i →
  ∃ w', validate_ids_row (mkRow Activists i c) w = (Ok tt, w')
        ∧ activists w'
          = (pre ++ match c !! Col.id_number with
                    | Some id_num =>
                        match control_digit_of_cell id_num with
                        | Ok z =>
                            if refuse Activists i then c
                            else <[Col.id_valid := VStr (validity_mark z)]> c
                        | Raise _ => c
                        end
                    | None => c
                    end :: post)%list
        ∧ refuses w' = refuse
        ∧ registrations w' = registrations w
        ∧ recruitment w' = recruitment w.
Proof.
  intros Hm [[name Hname] Hexn] Hr Hw Hi.
  unfold validate_ids_row, getitem, lift. cbn [row_fields].
  rewrite Hname. unfold mbind at 1, M_bind at 1.
  destruct (c !! Col.id_number) as [id_num|] eqn:Hid.
  2:{ exfalso. unfold validate_filters in Hm. cbn [forallb] in Hm.
      apply andb_true_iff in Hm as [_ Hm].
      apply andb_true_iff in Hm as [Hm _].
      unfold filter_matches in Hm. cbn [filter_field] in Hm.
      now rewrite Hid in Hm. }
  unfold mbind at 1, M_bind at 1.
  destruct (control_digit_of_cell id_num) as [z|e] eqn:Hz.
  - destruct (update_row_safe_at i c
                (<[Col.id_valid := VStr (validity_mark z)]> c) w pre post
                Hw Hi) as (w' & Hrun & Ha & Hr' & Hg & Hrec).
    exists w'. rewrite <- Hr. rewrite <- Ha, Hr'. repeat split; try done.
    rewrite <- Hrun. unfold validity_mark, setitem.
    cbn [row_table row_id row_fields].
    now destruct (z =? 0).
  - rewrite (Hexn id_num e eq_refl Hz). exists w. done.
Qed.

(** [validate_ids] as a whole.  When every activist it fetches (empty
    validity mark, ID not empty) has a full name and an ID that is a text
    of decimal digits or fails the assertion, the call returns, and every
    fetched activist whose padded ID is nine digits long gets the mark
    [Col.yes] when the weighted digit sum, line 28, leaves 0 and [Col.no]
    otherwise, unless its update is refused; every other row and the two
    other tables are left as they were. *)
Theorem validate_ids_marks (w : world) :
  Forall (λ c, forallb (filter_matches c) validate_filters = true →
               is_Some (c !! Col.full_name)
               ∧ ∀ id_num e, c !! Col.id_number = Some id_num →
                             control_digit_of_cell id_num = Raise e →
                             e = AssertionError)
         (activists w) →
  (validate_ids w).1 = Ok tt
  ∧ activists (validate_ids w).2
    = imap (validated (refuses w Activists)) (activists w)
  ∧ registrations (validate_ids w).2 = registrations w
  ∧ recruitment (validate_ids w).2 = recruitment w.
Proof.
  intros Hrows.
  enough (∃ w', validate_ids w = (Ok tt, w')
                ∧ activists w'
                  = imap (validated (refuses w Activists)) (activists w)
                ∧ registrations w' = registrations w
                ∧ recruitment w' = recruitment w)
    as (w' & -> & Ha & Hg & Hrec) by done.
  unfold validate_ids, get_rows. cbv zeta. unfold mbind, M_bind.
  change (table w Activists) with (activists w).
  destruct (for_rows_activists validate_ids_row validate_filters
              (λ i c, match c !! Col.id_number with
                      | Some id_num =>
                          match control_digit_of_cell id_num with
                          | Ok z =>
                              if refuses w Activists i then c
                              else <[Col.id_valid
                                     := VStr (validity_mark z)]> c
                          | Raise _ => c
                          end
                      | None => c
                      end)
              _ (refuses w)
              (validate_ids_row_marks (refuses w))
              (activists w) Hrows 0%nat
              (record (Fetched Activists validate_filters) w) [])
    as (w' & Hrun & Ha & Hg & Hrec); try done.
  exists w'. split; [exact Hrun|]. rewrite Ha. done.
Qed.

Lemma validate_ids_marks_witness :
  let w := Scenario.id_tables in
  (validate_ids w).1 = Ok tt
  ∧ activists (validate_ids w).2
    = imap (validated (refuses w Activists)) (activists w)
  ∧ registrations (validate_ids w).2 = registrations w
  ∧ recruitment (validate_ids w).2 = recruitment w.
Proof.
  apply (validate_ids_marks Scenario.id_tables).
  unfold Scenario.id_tables. cbn [activists].
  repeat (apply Forall_cons_2;
          [intros _; (split; [vm_compute; eauto|]);
           intros id_num e Hid; vm_compute in Hid; injection Hid as <-;
           vm_compute; congruence|]).
  apply Forall_nil_2.
Defined.

(** A valid ID, an ID with a wrong control digit, an ID that is no number,
    and a row that was checked before. *)
Example validate_ids_on_tables :
  map (λ c, c !! Col.id_valid) (activists (validate_ids Scenario.id_tables).2)
  = [Some (VStr Col.yes); Some (VStr Col.no); Some VNone;
     Some (VStr Col.no)].
Proof. vm_compute. reflexivity. Qed.

(** ** The report and the service *)

Lemma fold_rows_app {A S : Type} (body : S → A → M S) (xs ys : list A)
    (acc : S) (w : world) :
  fold_rows body (xs ++ ys) acc w
  = match fold_rows body xs acc w with
    | (Ok acc', w') => fold_rows body ys acc' w'
    | (Raise e, w') => (Raise e, w')
    end.
Proof.
  revert acc w. induction xs as [|x xs IH]; intros acc w; [reflexivity|].
  cbn [app]. rewrite !fold_rows_cons.
  destruct (body acc x w) as [[acc'|e] w']; [apply IH | reflexivity].
Qed.

Section ReportReads.

Variable strptime : string → string → option datetime.
Variable today : date.

Lemma count_registration_reads (dic : gmap value Z) (register : Row)
    (w w' : world) (res : result (gmap value Z)) :
  count_registration strptime today dic register w = (res, w') →
  activists w' = activists w ∧ registrations w' = registrations w
  ∧ recruitment w' = recruitment w
  ∧ (events w' = events w
     ∨ ∃ s, row_fields register !! Col.submission_time = Some (VStr s)
            ∧ first_format strptime s date_formats = None
            ∧ events w' = unread_line s :: events w).
Proof.
  assert (Hsame : activists w = activists w
                  ∧ registrations w = registrations w
                  ∧ recruitment w = recruitment w
                  ∧ (events w = events w
                     ∨ ∃ s, row_fields register !! Col.submission_time
                            = Some (VStr s)
                            ∧ first_format strptime s date_formats = None
                            ∧ events w = unread_line s :: events w)).
  { repeat split. now left. }
  unfold count_registration, getitem, lift, parse_date.
  destruct (row_fields register !! Col.submission_time) as [v|];
    unfold mbind at 1, M_bind at 1; [|now intros [= <- <-]].
  destruct v; unfold mbind at 1, M_bind at 1; try now intros [= <- <-].
  destruct (first_format strptime s (date_formats)) as [parsed|] eqn:Hs.
  - cbn [mret M_ret]. destruct (date_ltb _ _); [now intros [= <- <-]|].
    destruct (row_fields register !! Col.event_registration) as [t|];
      unfold mbind, M_bind; [|now intros [= <- <-]].
    destruct (negb (hashable t)); [now intros [= <- <-]|].
    destruct (dic !! t); now intros [= <- <-].
  - unfold mbind, M_bind, print_line. cbn. intros [= <- <-].
    repeat split; try reflexivity. right. exists s. done.
Qed.

Lemma count_loop_reads (registers : list Row) :
  ∀ (dic : gmap value Z) (w w' : world) (res : result (gmap value Z)),
    fold_rows (count_registration strptime today) registers dic w
    = (res, w') →
    activists w' = activists w ∧ registrations w' = registrations w
    ∧ recruitment w' = recruitment w
    ∧ ∃ lines,
        events w' = (map unread_line lines ++ events w)%list
        ∧ Forall (λ s, first_format strptime s date_formats = None
                       ∧ ∃ r, r ∈ registers
                              ∧ row_fields r !! Col.submission_time
                                = Some (VStr s)) lines.
Proof.
  induction registers as [|r rs IH]; intros dic w w' res.
  - cbn. intros [= <- <-]. repeat split; try reflexivity.
    exists []. split; [reflexivity | constructor].
  - rewrite fold_rows_cons.
    destruct (count_registration strptime today dic r w) as [[dic'|e] w1]
      eqn:Hstep;
      apply count_registration_reads in Hstep as (Ha & Hg & Hr & Hev).
    + intros Hrest. apply IH in Hrest
        as (Ha' & Hg' & Hr' & lines & He & Hall).
      rewrite Ha', Hg', Hr', Ha, Hg, Hr. repeat split; try reflexivity.
      assert (Hall' : Forall (λ s, first_format strptime s date_formats = None
                                   ∧ ∃ r0, r0 ∈ r :: rs
                                           ∧ row_fields r0
                                             !! Col.submission_time
                                             = Some (VStr s)) lines).
      { eapply Forall_impl; [exact Hall|].
        intros s (Hs & r0 & Hr0 & Ht). split; [exact Hs|].
        exists r0. split; [now right | exact Ht]. }
      destruct Hev as [Hev|(s & Ht & Hs & Hev)].
      * exists lines. now rewrite He, Hev.
      * exists (lines ++ [s])%list. split.
        -- rewrite He, Hev, map_app, <- app_assoc. reflexivity.
        -- apply Forall_app. split; [exact Hall'|].
           apply Forall_singleton. split; [exact Hs|].
           exists r. split; [left | exact Ht].
    + intros [= <- <-]. repeat split; try done.
      destruct Hev as [Hev|(s & Ht & Hs & Hev)].
      * exists []. split; [now rewrite Hev | constructor].
      * exists [s]. split; [now rewrite Hev|].
        apply Forall_singleton. split; [exact Hs|].
        exists r. split; [left | exact Ht].
Qed.

End ReportReads.

(** The report only reads: whatever it returns or raises, the three tables
    are as they were, and the events it added are the fetch of the
    registrations and, after it, lines that say could not parse date, each
    for the time of a registration that no format reads; no row is ever
    updated. *)
Theorem report_only_reads (strptime : string → string → option datetime)
    (today : date) (w : world) :
  let w' := (getTrainingParticipantCounts strptime today w).2 in
  activists w' = activists w ∧ registrations w' = registrations w
  ∧ recruitment w' = recruitment w
  ∧ report_events strptime (rows_of Registrations (registrations w))
      (events w) (events w').
Proof.
  cbv zeta.
  destruct (getTrainingParticipantCounts strptime today w) as [res w']
    eqn:Hrun.
  unfold getTrainingParticipantCounts, get_rows in Hrun.
  unfold mbind, M_bind in Hrun. rewrite select_all in Hrun.
  apply count_loop_reads in Hrun as (Ha & Hg & Hr & lines & He & Hall).
  cbn [snd]. rewrite Ha, Hg, Hr. repeat split; try reflexivity.
  exists lines. split; [exact He | exact Hall].
Qed.

(** A registration without the time of submission ends the report: the
    [KeyError] of line 36 is not caught, and no count is returned. *)
Theorem report_aborts_on_missing_time
    (strptime : string → string → option datetime) (today : date)
    (w : world) (before after : list Row) (row : Row) :
  rows_of Registrations (registrations w) = (before ++ row :: after)%list →
  Forall readable before →
  row_fields row !! Col.submission_time = None →
  (getTrainingParticipantCounts strptime today w).1 = Raise KeyError.
Proof.
  intros Hrows Hbefore Hrow.
  unfold getTrainingParticipantCounts, get_rows. unfold mbind, M_bind.
  rewrite select_all. change (table w Registrations) with (registrations w).
  rewrite Hrows, fold_rows_app.
  destruct (count_loop strptime today before Hbefore [] ∅
              (record (Fetched Registrations []) w)) as (dic & Hrun & _).
  { intros t. now rewrite lookup_empty. }
  destruct (fold_rows _ before _ _) as [res w1]. cbn [fst] in Hrun.
  subst res. rewrite fold_rows_cons.
  unfold count_registration, getitem, lift. rewrite Hrow.
  reflexivity.
Qed.

Lemma report_aborts_on_missing_time_witness :
  (getTrainingParticipantCounts Scenario.strptime_iso Scenario.the_day
     (mkWorld []
        [ Scenario.registration "2025-06-05T08:00:00Z" "A";
          {[ Col.event_registration := VStr "B" ]} ]
        [] Scenario.accepts_all [])).1
  = Raise KeyError.
Proof.
  apply (report_aborts_on_missing_time Scenario.strptime_iso Scenario.the_day
           _ [mkRow Registrations 0
                (Scenario.registration "2025-06-05T08:00:00Z" "A")]
           [] (mkRow Registrations 1 {[ Col.event_registration := VStr "B" ]})).
  - reflexivity.
  - repeat constructor; cbn; eexists; (reflexivity || (split; reflexivity)).
  - reflexivity.
Defined.

(** ** What the merge gathers *)

Lemma add_to_dict_default (key : value) (values : pyvals)
    (dic dic' : gmap value (list value)) :
  _add_to_dict_if_not_empty key values dic = Ok dic' →
  default [] (dic' !! key)
  = (default [] (dic !! key) ++ as_list values)%list.
Proof.
  unfold _add_to_dict_if_not_empty. cbv zeta.
  destruct (as_list values) as [|v vs].
  - cbn. intros [= <-]. now rewrite app_nil_r.
  - cbn [length Nat.eqb negb]. destruct (negb (hashable key)); [discriminate|].
    intros [= <-]. rewrite lookup_insert_eq. cbn [default from_option id].
    f_equal. rewrite lookup_total_alt.
    destruct (dic !! key) as [us|] eqn:Hk; [now rewrite Hk|].
    now rewrite lookup_insert_eq.
Qed.

Lemma strip_all_elem (us : list value) (ss : list string) :
  strip_all us = Ok ss →
  ∀ t, t ∈ ss ↔ ∃ t', VStr t' ∈ us ∧ t' ≠ "" ∧ t = Py.strip t'.
Proof.
  revert ss. induction us as [|u us IH]; intros ss; cbn [strip_all].
  - intros [= <-] t. split; [intros H; inversion H|].
    intros (t' & H & _). inversion H.
  - destruct (truthy u) eqn:Hu.
    + unfold mbind, result_bind.
      destruct u as [|s| |]; cbn [strip_cell]; try discriminate.
      destruct (strip_all us) as [ts|]; [|discriminate].
      intros [= <-] t. rewrite elem_of_cons, (IH ts eq_refl). split.
      * intros [->|(t' & Ht' & Hne & ->)].
        -- exists s. split; [left|split; [|reflexivity]].
           cbn in Hu. intros ->. discriminate.
        -- exists t'. split; [now right | done].
      * intros (t' & Ht' & Hne & ->).
        apply elem_of_cons in Ht' as [[= ->]|Ht']; [now left|].
        right. eauto.
    + intros Hss t. rewrite (IH ss Hss). split.
      * intros (t' & Ht' & Hne & ->). exists t'. split; [now right | done].
      * intros (t' & Ht' & Hne & ->).
        apply elem_of_cons in Ht' as [<-|Ht']; [|eauto].
        cbn in Hu. apply negb_false_iff, String.eqb_eq in Hu. done.
Qed.

(** The values a merge puts under the phone of its row are the trimmed
    forms of the values, other than the empty text, that the dictionary
    held for the phone, that the query added, and that the cell of the row
    held between its separators: nothing else is there and none of them is
    lost. *)
Theorem merge_gathers (set_to_list : list string → list string)
    (activists_field : string)
    (additional_query_function : option (value → pyvals))
    (d d' : gmap value (list value)) (row : Row) (phone : value)
    (urls : list value) :
  (∀ xs, set_to_list xs ≡ₚ remove_dups xs) →
  merge_for_row set_to_list activists_field additional_query_function d row
  = Ok (phone, d') →
  d' !! phone = Some urls →
  ∃ texts,
    urls = map VStr texts
    ∧ ∀ t, t ∈ texts
           ↔ ∃ t', VStr t' ∈ gathered additional_query_function
                                activists_field d row phone
                   ∧ t' ≠ "" ∧ t = Py.strip t'.
Proof.
  intros Hset. unfold merge_for_row, mbind, result_bind.
  destruct (getitem row Col.phone) as [p|]; [|discriminate].
  destruct (match additional_query_function with
            | Some f => _ | None => _ end) as [d1|] eqn:H1; [|discriminate].
  assert (Hd1 : default [] (d1 !! p)
                = (default [] (d !! p)
                   ++ queried additional_query_function p)%list).
  { unfold queried. destruct additional_query_function as [g|].
    - now apply add_to_dict_default in H1.
    - injection H1 as <-. now rewrite app_nil_r. }
  unfold getitem at 1.
  destruct (row_fields row !! activists_field) as [content|] eqn:Hc;
    [|discriminate].
  destruct (if truthy content then _ else _) as [d2|] eqn:H2; [|discriminate].
  assert (Hd2 : default [] (d2 !! p)
                = gathered additional_query_function activists_field d row p).
  { unfold gathered, existing_pieces. rewrite Hc.
    destruct (truthy content) eqn:Ht.
    - destruct content as [|s| |]; cbn [split_cell] in H2; try discriminate.
      rewrite Ht. apply add_to_dict_default in H2.
      rewrite H2, Hd1, <- app_assoc. reflexivity.
    - injection H2 as <-. rewrite Hd1.
      destruct content as [|s| |]; rewrite ?Ht, ?app_nil_r; reflexivity. }
  unfold dict_find. destruct (negb (hashable p)); [discriminate|].
  destruct (d2 !! p) as [l|] eqn:Hl.
  - destruct (strip_all l) as [stripped|] eqn:Hs; [|discriminate].
    intros [= <- <-]. rewrite lookup_insert_eq. intros [= <-].
    exists (set_to_list stripped). split; [reflexivity|].
    intros t. rewrite Hset, elem_of_remove_dups.
    cbn [default from_option id] in Hd2. rewrite <- Hd2.
    apply strip_all_elem, Hs.
  - intros [= <- <-]. congruence.
Qed.

Lemma merge_gathers_witness :
  let d : gmap value (list value) :=
    {[ VStr "0501" := [VStr "d@x.il "] ]} in
  let row :=
    mkRow Activists 0
      {[ Col.phone := VStr "0501"; Col.email := VStr " a@x.il ,  , d@x.il" ]} in
  let d' : gmap value (list value) :=
    {[ VStr "0501" := [VStr "a@x.il"; VStr "d@x.il"] ]} in
  ∃ texts,
    [VStr "a@x.il"; VStr "d@x.il"] = map VStr texts
    ∧ ∀ t, t ∈ texts
           ↔ ∃ t', VStr t' ∈ gathered None Col.email d row (VStr "0501")
                   ∧ t' ≠ "" ∧ t = Py.strip t'.
Proof.
  intros d row d'.
  apply (merge_gathers remove_dups Col.email None d d' row (VStr "0501")).
  - intros xs. reflexivity.
  - vm_compute. reflexivity.
  - reflexivity.
Defined.


(** ** Names by ID, row by row *)

(** Lines 216-223 for one engine, for the row object [c] of the activist at
    position [i], whose stored cells are [c0]. *)
Lemma fill_name_from_at (which : engine_id) (eng : option engine) (ID : value)
    (i : nat) (c0 c : gmap string value) (w : world)
    (pre post : list (gmap string value)) :
  activists w = (pre ++ c0 :: post)%list → length pre = i →
  (∀ q, eng = Some q → is_Some (name_written which (q ID))) →
  ∃ w',
    fill_name_from which eng (name_field which) (first_name_key which)
      (last_name_key which) ID (mkRow Activists i c) w
    = (Ok (mkRow Activists i (with_name which eng ID c)), w')
    ∧ activists w'
      = (pre ++ match eng with
                | Some _ =>
                    if refuses w Activists i then c0
                    else with_name which eng ID c
                | None => c0
                end :: post)%list
    ∧ refuses w' = refuses w
    ∧ registrations w' = registrations w
    ∧ recruitment w' = recruitment w.
Proof.
  intros Hw Hi Hready. destruct eng as [q|].
  - rewrite fill_name_from_some. unfold with_name.
    destruct (Hready q eq_refl) as [n Hn]. rewrite Hn. cbv zeta.
    unfold setitem. cbn [row_table row_id row_fields].
    destruct (update_row_safe_at i c0 (<[name_field which := VStr n]> c)
                (record (Queried which ID) w) pre post Hw Hi)
      as (w' & Hrun & Ha & Hr & Hg & Hrec).
    exists w'. rewrite Hrun. cbn [snd]. done.
  - exists w. cbn. now rewrite Hw.
Qed.

Lemma fill_name_row_named (rishumon elector : option engine)
    (refuse : table_id → nat → bool) (i : nat) (c : gmap string value)
    (w : world) (pre post : list (gmap string value)) :
  forallb (filter_matches c) (name_filters rishumon elector) = true →
  name_ready rishumon elector c →
  refuses w = refuse →
  activists w = (pre ++ c :: post)%list → length pre = i →
  ∃ w',
    fill_name_row rishumon elector (mkRow Activists i c) w = (Ok tt, w')
    ∧ activists w'
      = (pre ++ match c !! Col.id_number with
                | Some ID =>
                    match control_digit_of_cell ID with
                    | Ok z =>
                        if (z =? 0) && negb (refuse Activists i)
                        then with_name Elector elector ID
                               (with_name Rishumon rishumon ID c)
                        else c
                    | Raise _ => c
                    end
                | None => c
                end :: post)%list
    ∧ refuses w' = refuse
    ∧ registrations w' = registrations w
    ∧ recruitment w' = recruitment w.
Proof.
  intros Hm Hready Hr Hw Hi.
  unfold fill_name_row, getitem, lift. cbn [row_fields].
  destruct (c !! Col.id_number) as [ID|] eqn:HID.
  2:{ exfalso. unfold name_filters in Hm. cbn [forallb] in Hm.
      apply andb_true_iff in Hm as [Hm _].
      unfold filter_matches in Hm. cbn [filter_field] in Hm.
      now rewrite HID in Hm. }
  destruct (Hready ID HID) as [Hexn Hkeys].
  unfold mbind at 1, M_bind at 1.
  destruct (control_digit_of_cell ID) as [z|e] eqn:Hz.
  2:{ rewrite (Hexn e eq_refl). exists w. done. }
  destruct (Z.eqb_spec z 0) as [->|Hz0]; cbn [negb andb].
  2:{ exists w. done. }
  change Col.rishumon_name with (name_field Rishumon).
  change Col.elector_name with (name_field Elector).
  change "Name" with (first_name_key Rishumon).
  change "Family" with (last_name_key Rishumon).
  change "first_name" with (first_name_key Elector).
  change "last_name" with (last_name_key Elector).
  destruct (fill_name_from_at Rishumon rishumon ID i c c w pre post Hw Hi)
    as (w1 & Hrun1 & Ha1 & Hr1 & Hg1 & Hrec1).
  { intros q Hq. apply (Hkeys eq_refl Rishumon q). exact Hq. }
  destruct (fill_name_from_at Elector elector ID i _
              (with_name Rishumon rishumon ID c) w1 pre post Ha1 Hi)
    as (w2 & Hrun2 & Ha2 & Hr2 & Hg2 & Hrec2).
  { intros q Hq. apply (Hkeys eq_refl Elector q). exact Hq. }
  exists w2. unfold mbind, M_bind. rewrite Hrun1, Hrun2.
  split; [reflexivity|]. rewrite Ha2, Hr2, Hg2, Hrec2, Hr1, Hg1, Hrec1, <- Hr.
  repeat split; try reflexivity.
  destruct (refuses w Activists i), rishumon, elector; reflexivity.
Qed.

Lemma named_without_engines (refuse : nat → bool) (i : nat)
    (c : gmap string value) :
  named None None refuse i c = c.
Proof.
  unfold named, with_name. destruct (forallb _ _); [|reflexivity].
  destruct (c !! Col.id_number) as [ID|]; [|reflexivity].
  destruct (control_digit_of_cell ID) as [z|]; [|reflexivity].
  now destruct (_ && _).
Qed.

Lemma imap_same {A : Type} (g : nat → A → A) (l : list A) :
  (∀ i x, g i x = x) → imap g l = l.
Proof.
  intros Hg. revert g Hg. induction l as [|x l IH]; intros g Hg;
    [reflexivity|].
  rewrite imap_cons, Hg. f_equal. apply IH. intros i y. apply Hg.
Qed.

(** [fill_name_by_id] as a whole, when every row it fetches is ready. *)
Lemma fill_name_by_id_names (rishumon elector : option engine) (w : world) :
  Forall (λ c, forallb (filter_matches c) (name_filters rishumon elector)
               = true → name_ready rishumon elector c) (activists w) →
  (fill_name_by_id rishumon elector w).1 = Ok tt
  ∧ activists (fill_name_by_id rishumon elector w).2
    = imap (named rishumon elector (refuses w Activists)) (activists w).
Proof.
  intros Hrows.
  enough (∃ w', fill_name_by_id rishumon elector w = (Ok tt, w')
                ∧ activists w'
                  = imap (named rishumon elector (refuses w Activists))
                         (activists w))
    as (w' & -> & Ha) by done.
  destruct (for_rows_activists (fill_name_row rishumon elector)
              (name_filters rishumon elector)
              (λ i c, match c !! Col.id_number with
                      | Some ID =>
                          match control_digit_of_cell ID with
                          | Ok z =>
                              if (z =? 0) && negb (refuses w Activists i)
                              then with_name Elector elector ID
                                     (with_name Rishumon rishumon ID c)
                              else c
                          | Raise _ => c
                          end
                      | None => c
                      end)
              _ (refuses w)
              (fill_name_row_named rishumon elector (refuses w))
              (activists w) Hrows 0%nat
              (record (Fetched Activists (name_filters rishumon elector)) w)
              [])
    as (w' & Hrun & Ha & _); try done.
  destruct rishumon as [q1|], elector as [q2|].
  - exists w'. split; [exact Hrun | exact Ha].
  - exists w'. split; [exact Hrun | exact Ha].
  - exists w'. split; [exact Hrun | exact Ha].
  - exists w. split; [reflexivity|].
    symmetry. apply imap_same. intros i c. apply named_without_engines.
Qed.

(** C4, as the code has it.  First, [fill_name_by_id] changes the name cell
    of an engine only in activist rows whose ID is not empty and has control
    digit 0; the engine is then supplied, and the new cell is the first and
    the last name of its first answer, joined by a space, or NOT FOUND when
    it has no answer; when that engine is the only one supplied, the cell
    was empty before.  Second, when every row fetched is ready, the call
    returns and the table is, row by row, what [named] says: the rows
    fetched are those of [name_filters], so with one engine the rows whose
    name cell of that engine is empty, and with both engines every row with
    an ID.  In particular, with both engines supplied, a row with a valid ID
    whose update is accepted gets both names written, whatever its name
    cells held before: filled rows are processed and written again. *)
Theorem fill_name_by_id_writes (rishumon elector : option engine) (w : world) :
  (∀ (i : nat) (cells cells' : gmap string value) (which : engine_id),
     activists w !! i = Some cells →
     activists (fill_name_by_id rishumon elector w).2 !! i = Some cells' →
     cells' !! name_field which ≠ cells !! name_field which →
     ∃ s q n,
       cells !! Col.id_number = Some (VStr s)
       ∧ s ≠ ""
       ∧ _compute_id_control_digit s = Ok 0
       ∧ supplied rishumon elector which = Some q
       ∧ name_written which (q (VStr s)) = Some n
       ∧ cells' !! name_field which = Some (VStr n)
       ∧ (supplied rishumon elector (other_engine which) = None →
          ∃ v, cells !! name_field which = Some v ∧ cell_empty v = true))
  ∧ (Forall (λ c, forallb (filter_matches c) (name_filters rishumon elector)
                  = true → name_ready rishumon elector c) (activists w) →
     (fill_name_by_id rishumon elector w).1 = Ok tt
     ∧ activists (fill_name_by_id rishumon elector w).2
       = imap (named rishumon elector (refuses w Activists)) (activists w)
     ∧ ∀ (q1 q2 : engine) (i : nat) (cells : gmap string value)
         (s n1 n2 : string),
         rishumon = Some q1 → elector = Some q2 →
         activists w !! i = Some cells →
         cells !! Col.id_number = Some (VStr s) → s ≠ "" →
         _compute_id_control_digit s = Ok 0 →
         refuses w Activists i = false →
         name_written Rishumon (q1 (VStr s)) = Some n1 →
         name_written Elector (q2 (VStr s)) = Some n2 →
         activists (fill_name_by_id rishumon elector w).2 !! i
         = Some (<[Col.elector_name := VStr n2]>
                   (<[Col.rishumon_name := VStr n1]> cells))).
Proof.
  split.
  - intros i cells cells' which. apply name_cell_changed.
  - intros Hrows.
    destruct (fill_name_by_id_names rishumon elector w Hrows) as [Hret Ha].
    split; [exact Hret|]. split; [exact Ha|].
    intros q1 q2 i cells s n1 n2 -> -> Hcells HID Hs Hd Hacc Hn1 Hn2.
    rewrite Ha, list_lookup_imap, Hcells. cbn [fmap option_fmap option_map].
    f_equal. unfold named, name_filters. cbn [forallb].
    unfold filter_matches. cbn [filter_field filter_operator].
    rewrite HID. cbn [cell_empty control_digit_of_cell].
    apply String.eqb_neq in Hs. rewrite Hs, Hd, Hacc. cbn.
    unfold with_name. rewrite Hn1, Hn2. reflexivity.
Qed.

Lemma fill_name_by_id_writes_witness :
  let w := Scenario.named_tables in
  let rishumon := Some Scenario.rishumon_engine in
  let elector := Some Scenario.elector_engine in
  let out := fill_name_by_id rishumon elector w in
  let cells : gmap string value :=
    {[ Col.id_number := VStr "18";
       Col.rishumon_name := VStr "Dana Levi";
       Col.elector_name := VStr "" ]} in
  let cells' : gmap string value :=
    <[Col.elector_name := VStr "NOT FOUND"]>
      (<[Col.rishumon_name := VStr "Dan Cohen"]> cells) in
  (∃ s q n,
     cells !! Col.id_number = Some (VStr s)
     ∧ s ≠ ""
     ∧ _compute_id_control_digit s = Ok 0
     ∧ supplied rishumon elector Rishumon = Some q
     ∧ name_written Rishumon (q (VStr s)) = Some n
     ∧ cells' !! name_field Rishumon = Some (VStr n)
     ∧ (supplied rishumon elector (other_engine Rishumon) = None →
        ∃ v, cells !! name_field Rishumon = Some v ∧ cell_empty v = true))
  ∧ out.1 = Ok tt
  ∧ activists out.2
    = imap (named rishumon elector (refuses w Activists)) (activists w)
  ∧ activists out.2 !! 0%nat = Some cells'.
Proof.
  intros w rishumon elector out cells cells'.
  destruct (fill_name_by_id_writes rishumon elector w) as [Honly Hrun].
  split.
  { apply (Honly 0%nat cells cells' Rishumon).
    - reflexivity.
    - vm_compute. reflexivity.
    - vm_compute. discriminate. }
  destruct Hrun as (Hret & Htable & Hboth).
  { apply Forall_cons_2; [|apply Forall_nil_2].
    intros _ ID HID. vm_compute in HID. injection HID as <-. split.
    - intros e He. vm_compute in He. discriminate.
    - intros _ which q Hq.
      destruct which; cbn in Hq; injection Hq as <-; vm_compute; eauto. }
  split; [exact Hret|]. split; [exact Htable|].
  apply (Hboth Scenario.rishumon_engine Scenario.elector_engine 0%nat cells
           "18" "Dan Cohen" "NOT FOUND"); try reflexivity.
  discriminate.
Defined.


(** ** The claims about the repeated fill and about the report *)

(** *** C5 *)

(** C5.  The fill by the phone number with [full_run=False] is idempotent.
    Run twice in succession on any state of the source and the target
    table, with nothing added to the source table in between, it leaves
    every target row after the second run as it was after the first, the
    field filled among its cells; this holds whatever order each run lists
    its sets in. *)
Theorem fill_field_idempotent (ord1 ord2 : list string → list string)
    (registration_field activists_field : string)
    (additional_query_function : option (value → pyvals)) (w : world) :
  (∀ xs, ord1 xs ≡ₚ remove_dups xs) →
  (∀ xs, ord2 xs ≡ₚ remove_dups xs) →
  let once :=
    (_fill_field_from_registration_to_activists ord1 registration_field
       activists_field additional_query_function false w).2 in
  let twice :=
    (_fill_field_from_registration_to_activists ord2 registration_field
       activists_field additional_query_function false once).2 in
  registrations once = registrations w
  ∧ ∀ i, activists twice !! i = activists once !! i
         ∧ (activists twice !! i ≫= lookup activists_field)
           = (activists once !! i ≫= lookup activists_field).
Proof.
  intros H1 H2 once twice.
  destruct (fill_activists ord1 registration_field activists_field
              additional_query_function w) as (Ha1 & Hg1 & Hf1).
  destruct (fill_activists ord2 registration_field activists_field
              additional_query_function once) as (Ha2 & Hg2 & Hf2).
  fold once in Ha1, Hg1, Hf1. fold twice in Ha2, Hg2, Hf2.
  split; [exact Hg1|].
  enough (Hsame : activists twice = activists once)
    by (intros i; now rewrite Hsame).
  rewrite Ha2, Hg1, Hf1.
  destruct (_build_phone_to_field_dict_from_table_rows _ _) as [d|e];
    [|reflexivity].
  rewrite Ha1.
  destruct (decide (activists_field = Col.phone)) as [->|Hfield].
  - now rewrite !walk_phone_field.
  - apply walk_twice; [exact H1 | exact H2 | exact Hfield | apply alike_refl].
Qed.

Lemma fill_field_idempotent_witness :
  let listed_backwards (xs : list string) := rev (remove_dups xs) in
  let once :=
    (_fill_field_from_registration_to_activists remove_dups
       Col.email_registration Col.email None false Scenario.shared_phone).2 in
  let twice :=
    (_fill_field_from_registration_to_activists listed_backwards
       Col.email_registration Col.email None false once).2 in
  registrations once = registrations Scenario.shared_phone
  ∧ ∀ i, activists twice !! i = activists once !! i
         ∧ (activists twice !! i ≫= lookup Col.email)
           = (activists once !! i ≫= lookup Col.email).
Proof.
  intros listed_backwards.
  apply (fill_field_idempotent remove_dups listed_backwards
           Col.email_registration Col.email None Scenario.shared_phone).
  - intros xs. reflexivity.
  - intros xs. unfold listed_backwards. symmetry. apply Permutation_rev.
Defined.

(** *** C8 *)

Section ReportSteps.

Variable strptime : string → string → option datetime.
Variable today : date.





End ReportSteps.


